(** * NashfyPitStop: the schedule, countdown, weather and join-form logic

    A shallow embedding of the browser code of [public/main.js]
    (classes [RealTimeData] and [JoinClubForm]) and of
    [public/cms-client.js] ([SanityClient.submitJoinClubForm]), followed
    by the client of the backend ([BackendClient]) and the rest of the
    page: navigation, quiz, news carousel, venues, news page and clock.

    - JSON payloads are values of the inductive type [value].
    - A JavaScript exception is the [Throw] case of [result]; an awaited
      promise that rejects is a [Throw] at the point of the [await].
    - Built-ins whose behaviour is fixed by the host (number printing,
      string-to-number conversion, [parseInt], [Date] parsing and the local
      calendar year) are the fields of the record [host]; every definition
      about the program is parametric in it.  [Ref.ref_host] is a reference
      host used to evaluate the program on concrete payloads.
    - The page is the record [world]; handlers are state-passing functions
      in the monad [M]. *)

From Stdlib Require Import ZArith QArith Qround String Ascii List Bool Lia.
From Stdlib Require Import Sorted Permutation.
From stdpp Require Import base strings gmap.
Import ListNotations.

#[local] Open Scope string_scope.
#[local] Open Scope list_scope.
#[local] Open Scope Z_scope.

(** ** JavaScript values and exceptions *)

Module JS.

#[local] Set Warnings "-register-all".

(** The values that [JSON.parse] can return, and [undefined].  A number is
    finite; an object is the list of its properties, at most one per name;
    [undefined] is the value of a missing property and does not occur
    inside a payload. *)
Inductive value : Type :=
| VUndefined
| VNull
| VBool (b : bool)
| VNum (q : Q)
| VStr (s : string)
| VArr (items : list value)
| VObj (props : list (string * value)).

(** Exceptions by constructor name; only [Error] carries the message that
    the source gives it. *)
Inductive exn : Type :=
| TypeError
| SyntaxError
| Error (message : string).

Inductive result (A : Type) : Type :=
| Ok (a : A)
| Throw (e : exn).
Arguments Ok {A} a.
Arguments Throw {A} e.

Definition rbind {A B} (r : result A) (k : A -> result B) : result B :=
  match r with
  | Ok a => k a
  | Throw e => Throw e
  end.

Definition is_ok {A} (r : result A) : bool :=
  match r with Ok _ => true | Throw _ => false end.

(** A number that may be NaN, for integer-valued results ([parseInt],
    [getFullYear], time values). *)
Definition number := option Z.

(** [a === b] on such numbers: NaN equals nothing. *)
Definition strict_eq (a b : number) : bool :=
  match a, b with
  | Some x, Some y => Z.eqb x y
  | _, _ => false
  end.

Definition Qlt_bool (a b : Q) : bool := negb (Qle_bool b a).

(** [Math.round]: the nearest integer, ties towards plus infinity. *)
Definition Math_round (q : Q) : Z := Qfloor (q + (1 # 2))%Q.

(** Truncation towards zero (ToIntegerOrInfinity on a finite number). *)
Definition Qtrunc (q : Q) : Z := Z.quot (Qnum q) (Zpos (Qden q)).

(** ToBoolean. *)
Definition truthy (v : value) : bool :=
  match v with
  | VUndefined | VNull => false
  | VBool b => b
  | VNum q => negb (Qeq_bool q 0)
  | VStr s => negb (String.eqb s EmptyString)
  | VArr _ | VObj _ => true
  end.

Fixpoint lookup (k : string) (props : list (string * value)) : value :=
  match props with
  | [] => VUndefined
  | (k', v) :: rest => if String.eqb k k' then v else lookup k rest
  end.

(** Length of a string in UTF-16 code units, from its UTF-8 bytes. *)
Fixpoint utf16_length (s : string) : nat :=
  match s with
  | EmptyString => 0
  | String c rest =>
      let b := nat_of_ascii c in
      ((if b <? 128 then 1 else if b <? 192 then 0 else if b <? 240 then 1 else 2)
       + utf16_length rest)%nat
  end.

Definition of_nat (n : nat) : value := VNum (inject_Z (Z.of_nat n)).

Definition nullish (v : value) : bool :=
  match v with VUndefined | VNull => true | _ => false end.

(** [v.k] for the property names the source reads: own properties of an
    object, [length] of an array or a string, [undefined] on the other
    primitives, and a [TypeError] on [null] and [undefined]. *)
Definition get (v : value) (k : string) : result value :=
  match v with
  | VUndefined | VNull => Throw TypeError
  | VObj props => Ok (lookup k props)
  | VArr items => Ok (if String.eqb k "length" then of_nat (length items) else VUndefined)
  | VStr s => Ok (if String.eqb k "length" then of_nat (utf16_length s) else VUndefined)
  | VBool _ | VNum _ => Ok VUndefined
  end.

(** [v?.k]. *)
Definition get_opt (v : value) (k : string) : value :=
  match get v k with
  | Ok x => x
  | Throw _ => VUndefined
  end.

(** [a || b]: [b] is evaluated only when [a] is falsy. *)
Definition or_else (a b : result value) : result value :=
  rbind a (fun x => if truthy x then Ok x else b).

(** [a && b]. *)
Definition and_then (a b : result value) : result value :=
  rbind a (fun x => if truthy x then b else Ok x).

Definition isArray (v : value) : bool :=
  match v with VArr _ => true | _ => false end.

(** The receiver of an array method ([filter], [some], [sort], [forEach],
    [find]): an array, or else the call is a [TypeError] since no payload
    value holds a function. *)
Definition as_array (v : value) : result (list value) :=
  match v with
  | VArr items => Ok items
  | _ => Throw TypeError
  end.

(** [v !== s] for a string literal [s]. *)
Definition strict_ne_str (v : value) (s : string) : bool :=
  match v with
  | VStr s' => negb (String.eqb s' s)
  | _ => true
  end.

(** [typeof v === "number"]. *)
Definition is_number (v : value) : bool :=
  match v with VNum _ => true | _ => false end.

(** Removal of the first occurrence: [s.replace(pat, '')]. *)
Fixpoint string_skip (n : nat) (s : string) : string :=
  match n, s with
  | O, _ => s
  | S n', String _ rest => string_skip n' rest
  | S _, EmptyString => EmptyString
  end.

Fixpoint remove_first (pat s : string) : string :=
  if String.prefix pat s then string_skip (String.length pat) s
  else match s with
       | EmptyString => EmptyString
       | String c rest => String c (remove_first pat rest)
       end.

(** ** The host *)

Record host : Type := {
  (** Number::toString *)
  Number_toString : Q -> string;
  (** StringToNumber; [None] is NaN *)
  String_toNumber : string -> option Q;
  (** [parseInt(s)] without radix *)
  parseInt_string : string -> number;
  (** [Date.parse]: milliseconds since the epoch, [None] for an unparsable string *)
  Date_parse : string -> number;
  (** the calendar year, in local time, of a valid time value *)
  Date_year : Z -> Z;
  (** the message of a built-in exception *)
  builtin_message : exn -> string
}.

(** [e.message]. *)
Definition message_of (H : host) (e : exn) : string :=
  match e with
  | Error message => message
  | _ => builtin_message H e
  end.

Section WithHost.

Variable H : host.

(** ToString (after ToPrimitive for arrays and objects).  The methods are
    those of the prototypes: an object of a payload that has a property
    of its own named [toString] or [valueOf], for which the conversion
    throws a [TypeError], is outside this model. *)
Fixpoint ToString (v : value) : string :=
  match v with
  | VUndefined => "undefined"
  | VNull => "null"
  | VBool b => if b then "true" else "false"
  | VNum q => Number_toString H q
  | VStr s => s
  | VArr items =>
      (fix go (l : list value) : string :=
         match l with
         | [] => EmptyString
         | x :: rest =>
             match x with
             | VUndefined | VNull => EmptyString
             | _ => ToString x
             end +:+ match rest with [] => EmptyString | _ => "," +:+ go rest end
         end) items
  | VObj _ => "[object Object]"
  end.

(** ToNumber; [None] is NaN. *)
Definition ToNumber (v : value) : option Q :=
  match v with
  | VUndefined => None
  | VNull => Some 0%Q
  | VBool b => Some (if b then 1%Q else 0%Q)
  | VNum q => Some q
  | VStr s => String_toNumber H s
  | VArr _ | VObj _ => String_toNumber H (ToString v)
  end.

(** [v > 0]. *)
Definition gt0 (v : value) : bool :=
  match ToNumber v with
  | Some q => Qlt_bool 0 q
  | None => false
  end.

(** [v <= 0]. *)
Definition le0 (v : value) : bool :=
  match ToNumber v with
  | Some q => Qle_bool q 0
  | None => false
  end.

(** [parseInt(v)]. *)
Definition parseInt (v : value) : number := parseInt_string H (ToString v).

(** A [Date] object is its time value; [None] is Invalid Date. *)
Definition instant := number.

Definition TimeClip (t : Z) : instant :=
  if Z.abs t <=? 8640000000000000 then Some t else None.

(** [new Date(v)]. *)
Definition new_Date (v : value) : instant :=
  match v with
  | VStr s => Date_parse H s
  | VNum q => TimeClip (Qtrunc q)
  | VBool b => Some (if b then 1 else 0)
  | VNull => Some 0
  | VUndefined => None
  | VArr _ | VObj _ => Date_parse H (ToString v)
  end.

(** [d.getFullYear()]. *)
Definition getFullYear (d : instant) : number := option_map (Date_year H) d.

(** [a < b] and [a > b] on dates: false as soon as one side is invalid. *)
Definition date_lt (a b : instant) : bool :=
  match a, b with
  | Some x, Some y => Z.ltb x y
  | _, _ => false
  end.

Definition date_gt (a b : instant) : bool := date_lt b a.

(** The sign of [a - b] as a sort comparator reads it: NaN counts as 0. *)
Definition date_compare (a b : instant) : comparison :=
  match a, b with
  | Some x, Some y => Z.compare x y
  | _, _ => Eq
  end.

End WithHost.

End JS.

Import JS.

Notation "x <- e ;; k" := (rbind e (fun x => k))
  (at level 100, e at next level, right associativity).

(** ** Dates and years of race events ([RealTimeData] in public/main.js) *)

Section Races.

Variable H : host.

(** [race.date + "T" + race.time]: one operand is a string, so [+] is
    string concatenation. *)
Definition date_T_time (date time : value) : value :=
  VStr (ToString H date +:+ "T" +:+ ToString H time).

(** [race.datetime.replace('+03:00', '').replace('Z', '')]; only a string
    has a [replace] method. *)
Definition strip_timezone (datetime : value) : result value :=
  match datetime with
  | VStr s => Ok (VStr (remove_first "Z" (remove_first "+03:00" s)))
  | _ => Throw TypeError
  end.

Definition far_future : value := VStr "2099-12-31".

Definition parseRaceDate (race : value) : result instant :=
  c1 <- and_then (get race "date") (get race "time") ;;
  if truthy c1 then
    date <- get race "date" ;; time <- get race "time" ;;
    Ok (new_Date H (date_T_time date time))
  else
  date <- get race "date" ;;
  if truthy date then Ok (new_Date H date)
  else
  c3 <- and_then (get race "raceDate") (get race "raceTime") ;;
  if truthy c3 then
    raceDate <- get race "raceDate" ;; raceTime <- get race "raceTime" ;;
    Ok (new_Date H (date_T_time raceDate raceTime))
  else
  raceDate <- get race "raceDate" ;;
  if truthy raceDate then Ok (new_Date H raceDate)
  else
  c5 <- and_then (get race "startDate") (get race "startTime") ;;
  if truthy c5 then
    startDate <- get race "startDate" ;; startTime <- get race "startTime" ;;
    Ok (new_Date H (date_T_time startDate startTime))
  else
  startDate <- get race "startDate" ;;
  if truthy startDate then Ok (new_Date H startDate)
  else
  datetime <- get race "datetime" ;;
  if truthy datetime then
    dt <- strip_timezone datetime ;;
    Ok (new_Date H dt)
  else
  Ok (new_Date H far_future).

(** [now] is the reading of the clock by [new Date()]. *)
Definition extractYearFromRace (now : Z) (race : value) : result number :=
  date <- get race "date" ;;
  if truthy date then Ok (getFullYear H (new_Date H date))
  else
  raceDate <- get race "raceDate" ;;
  if truthy raceDate then Ok (getFullYear H (new_Date H raceDate))
  else
  startDate <- get race "startDate" ;;
  if truthy startDate then Ok (getFullYear H (new_Date H startDate))
  else
  year <- get race "year" ;;
  if truthy year then Ok (parseInt H year)
  else
  Ok (getFullYear H (Some now)).

(** [races.filter(p)] for a predicate that may throw. *)
Fixpoint filterM (p : value -> result bool) (l : list value) : result (list value) :=
  match l with
  | [] => Ok []
  | x :: rest =>
      b <- p x ;;
      rest' <- filterM p rest ;;
      Ok (if b then x :: rest' else rest')
  end.

(** The year filter of [loadRaceSchedule], applied to the races of the
    rapidapi and manual-json tiers. *)
Definition filterByYear (now : Z) (year : number) (races : value) : result (list value) :=
  let currentYear := getFullYear H (Some now) in
  items <- as_array races ;;
  if negb (strict_eq year currentYear) then
    filterM (fun race =>
               raceYear <- extractYearFromRace now race ;;
               Ok (strict_eq raceYear year)) items
  else
    filterM (fun race =>
               raceYear <- extractYearFromRace now race ;;
               Ok (strict_eq raceYear currentYear)) items.

End Races.

(** ** A reference host

    Enough of the built-ins to run the program on concrete payloads: the
    ECMAScript date-time string format [YYYY-MM-DD] and
    [YYYY-MM-DDTHH:mm(:ss(.sss))(Z|+HH:mm|-HH:mm)] (any other string is an
    Invalid Date), decimal printing and reading of numbers, and a fixed
    offset of local time from UTC. *)

Module Ref.

Definition digit (c : ascii) : option Z :=
  let n := Z.of_nat (nat_of_ascii c) in
  if (48 <=? n) && (n <=? 57) then Some (n - 48) else None.

Fixpoint digits_from (acc : Z) (l : list ascii) : option Z :=
  match l with
  | [] => Some acc
  | c :: rest =>
      match digit c with
      | Some d => digits_from (acc * 10 + d) rest
      | None => None
      end
  end.

(** The value of a non-empty run of decimal digits. *)
Definition number_of (l : list ascii) : option Z :=
  match l with
  | [] => None
  | _ => digits_from 0 l
  end.

Definition is_leap (y : Z) : bool :=
  ((y mod 4 =? 0) && negb (y mod 100 =? 0)) || (y mod 400 =? 0).

Definition days_in_month (y m : Z) : Z :=
  if m =? 2 then (if is_leap y then 29 else 28)
  else if (m =? 4) || (m =? 6) || (m =? 9) || (m =? 11) then 30
  else 31.

(** Days from 1970-01-01 to the civil date [y]-[m]-[d]. *)
Definition days_from_civil (y m d : Z) : Z :=
  let y' := if m <=? 2 then y - 1 else y in
  let era := y' / 400 in
  let yoe := y' - era * 400 in
  let mp := (m + 9) mod 12 in
  let doy := (153 * mp + 2) / 5 + d - 1 in
  let doe := yoe * 365 + yoe / 4 - yoe / 100 + doy in
  era * 146097 + doe - 719468.

(** The civil year of a day number. *)
Definition year_of_days (days : Z) : Z :=
  let z := days + 719468 in
  let era := z / 146097 in
  let doe := z - era * 146097 in
  let yoe := (doe - doe / 1460 + doe / 36524 - doe / 146096) / 365 in
  let doy := doe - (365 * yoe + yoe / 4 - yoe / 100) in
  let mp := (5 * doy + 2) / 153 in
  let m := if mp <? 10 then mp + 3 else mp - 9 in
  yoe + era * 400 + (if m <=? 2 then 1 else 0).

Definition ms_per_day : Z := 86400000.

Definition in_range (lo x hi : Z) : bool := (lo <=? x) && (x <=? hi).

(** Minutes east of UTC named by the end of a date-time string; a string
    without offset is in local time. *)
Definition parse_offset (local : Z) (l : list ascii) : option Z :=
  match l with
  | [] => Some local
  | ["Z"%char] => Some 0
  | [sg; h1; h2; ":"%char; m1; m2] =>
      hh ← number_of [h1; h2];
      mm ← number_of [m1; m2];
      if negb (in_range 0 hh 23 && in_range 0 mm 59) then None
      else if Ascii.eqb sg "+" then Some (hh * 60 + mm)
      else if Ascii.eqb sg "-" then Some (- (hh * 60 + mm))
      else None
  | _ => None
  end.

(** Seconds and milliseconds, then the offset. *)
Definition parse_seconds (local : Z) (l : list ascii) : option (Z * Z) :=
  match l with
  | ":"%char :: s1 :: s2 :: "."%char :: f1 :: f2 :: f3 :: rest =>
      ss ← number_of [s1; s2];
      ms ← number_of [f1; f2; f3];
      off ← parse_offset local rest;
      if in_range 0 ss 59 then Some (ss * 1000 + ms, off) else None
  | ":"%char :: s1 :: s2 :: rest =>
      ss ← number_of [s1; s2];
      off ← parse_offset local rest;
      if in_range 0 ss 59 then Some (ss * 1000, off) else None
  | rest =>
      off ← parse_offset local rest;
      Some (0, off)
  end.

Definition iso_parse (local : Z) (s : string) : number :=
  match list_ascii_of_string s with
  | y1 :: y2 :: y3 :: y4 :: "-"%char :: mo1 :: mo2 :: "-"%char :: d1 :: d2 :: rest =>
      y ← number_of [y1; y2; y3; y4];
      mo ← number_of [mo1; mo2];
      d ← number_of [d1; d2];
      if negb (in_range 1 mo 12 && in_range 1 d (days_in_month y mo)) then None
      else
        let day := days_from_civil y mo d * ms_per_day in
        match rest with
        | [] => Some day
        | "T"%char :: h1 :: h2 :: ":"%char :: m1 :: m2 :: rest' =>
            hh ← number_of [h1; h2];
            mm ← number_of [m1; m2];
            '(sms, off) ← parse_seconds local rest';
            if in_range 0 hh 23 && in_range 0 mm 59
            then Some (day + (hh * 60 + mm - off) * 60000 + sms)
            else None
        | _ => None
        end
  | _ => None
  end.

Definition local_year (local : Z) (t : Z) : Z :=
  year_of_days ((t + local * 60000) / ms_per_day).

Definition digit_char (d : Z) : ascii := ascii_of_nat (48 + Z.to_nat d).

Fixpoint Z_digits (fuel : nat) (z : Z) (acc : string) : string :=
  match fuel with
  | O => acc
  | S fuel' =>
      let acc' := String (digit_char (z mod 10)) acc in
      if z / 10 =? 0 then acc' else Z_digits fuel' (z / 10) acc'
  end.

(** Decimal notation of an integer. *)
Definition Z_to_string (z : Z) : string :=
  let a := Z.abs z in
  (if z <? 0 then "-" else EmptyString) +:+ Z_digits (S (Z.to_nat (Z.log2 a))) a EmptyString.

Fixpoint fraction_digits (fuel : nat) (r d : Z) : string :=
  match fuel with
  | O => EmptyString
  | S fuel' =>
      if r =? 0 then EmptyString
      else String (digit_char (r * 10 / d)) (fraction_digits fuel' (r * 10 mod d) d)
  end.

(** Decimal notation: exact for an integer, and for a fraction its first
    (at most 20) decimals. *)
Definition number_toString (q : Q) : string :=
  let n := Qnum q in
  let d := Zpos (Qden q) in
  if n mod d =? 0 then Z_to_string (n / d)
  else
    let a := Z.abs n in
    (if n <? 0 then "-" else EmptyString) +:+ Z_to_string (a / d) +:+ "."
      +:+ fraction_digits 20 (a mod d) d.

Definition is_space (c : ascii) : bool :=
  let n := nat_of_ascii c in
  ((9 <=? n) && (n <=? 13) || (n =? 32))%nat.

Fixpoint skip_spaces (l : list ascii) : list ascii :=
  match l with
  | c :: rest => if is_space c then skip_spaces rest else l
  | [] => []
  end.

(** The longest prefix of decimal digits, as a number, and what follows. *)
Fixpoint leading_digits (l : list ascii) : list ascii * list ascii :=
  match l with
  | c :: rest =>
      match digit c with
      | Some _ => let '(ds, tl) := leading_digits rest in (c :: ds, tl)
      | None => ([], l)
      end
  | [] => ([], [])
  end.

Definition split_sign (l : list ascii) : Z * list ascii :=
  match l with
  | "-"%char :: rest => (-1, rest)
  | "+"%char :: rest => (1, rest)
  | _ => (1, l)
  end.

(** [parseInt] of a decimal string: leading blanks, a sign, then digits. *)
Definition parse_int (s : string) : number :=
  let '(sg, l) := split_sign (skip_spaces (list_ascii_of_string s)) in
  n ← number_of (fst (leading_digits l));
  Some (sg * n).

(** StringToNumber for decimal literals [digits(.digits)]; the empty
    string is 0. *)
Definition string_toNumber (s : string) : option Q :=
  let l := rev (skip_spaces (rev (skip_spaces (list_ascii_of_string s)))) in
  match l with
  | [] => Some 0%Q
  | _ =>
      let '(sg, l1) := split_sign l in
      let '(ip, tl) := leading_digits l1 in
      i ← number_of ip;
      match tl with
      | [] => Some (inject_Z (sg * i))
      | "."%char :: fp =>
          f ← number_of fp;
          Some (inject_Z sg * (inject_Z i + inject_Z f / inject_Z (10 ^ Z.of_nat (length fp))))%Q
      | _ => None
      end
  end.

(** Local time is East Africa Time, as [EAT_OFFSET_MINUTES] in the source. *)
Definition EAT_OFFSET_MINUTES : Z := 180.

Definition ref_host : host := {|
  Number_toString := number_toString;
  String_toNumber := string_toNumber;
  parseInt_string := parse_int;
  Date_parse := iso_parse EAT_OFFSET_MINUTES;
  Date_year := local_year EAT_OFFSET_MINUTES;
  builtin_message := fun e =>
    match e with
    | TypeError => "TypeError"
    | SyntaxError => "SyntaxError"
    | Error message => message
    end
|}.

End Ref.

(** ** The page and its handlers *)

Record element : Type := { textContent : string; classList : list string }.

(** A card of the schedule grid, as the values interpolated into its markup. *)
Inductive card : Type :=
| RaceCard (round : value) (status : string) (country locality raceName : value)
           (raceDate : instant)
| MockCard (round country name : value) (eatDate : instant).

(** The children of [#scheduleList]: markup assigned to [innerHTML], or the
    cards appended to it. *)
Inductive list_content : Type :=
| Markup (html : string)
| Cards (cards : list card).

(** The closures handed to [setInterval] and [setTimeout]: the clock of
    [startLocalTime], the [update] closures of [updateCountdown] and
    [updateCountdownFromBackend], and the timers of the rest of the page
    (carousel, section fade-in, reload of venues). *)
Inductive callback : Type :=
| ClockTick
| LocalUpdate (targetDate : instant)
| BackendUpdate (race : value)
| OtherTimer (label : string).

Definition is_countdown (cb : callback) : bool :=
  match cb with
  | LocalUpdate _ | BackendUpdate _ => true
  | ClockTick | OtherTimer _ => false
  end.

(** Of the console output only the summary line of [loadRaceSchedule] is kept. *)
Inductive log_entry : Type :=
| FinalParsed (year : number) (count : value) (dataSource : string).

(** An element that is [None] is absent from the page
    ([getElementById] returns [null]). *)
Record world : Type := {
  scheduleList : option list_content;
  scheduleHeading : option string;
  nextRaceName : option string;
  nextRaceCountdown : option element;
  weatherNairobi : option string;
  countdownInterval : option positive;
  timers : gmap positive callback;
  console : list log_entry
}.

Definition set_scheduleList (c : list_content) (w : world) : world :=
  {| scheduleList := Some c; scheduleHeading := scheduleHeading w;
     nextRaceName := nextRaceName w; nextRaceCountdown := nextRaceCountdown w;
     weatherNairobi := weatherNairobi w; countdownInterval := countdownInterval w;
     timers := timers w; console := console w |}.

Definition set_scheduleHeading (t : string) (w : world) : world :=
  {| scheduleList := scheduleList w; scheduleHeading := Some t;
     nextRaceName := nextRaceName w; nextRaceCountdown := nextRaceCountdown w;
     weatherNairobi := weatherNairobi w; countdownInterval := countdownInterval w;
     timers := timers w; console := console w |}.

Definition set_nextRaceName (t : string) (w : world) : world :=
  {| scheduleList := scheduleList w; scheduleHeading := scheduleHeading w;
     nextRaceName := Some t; nextRaceCountdown := nextRaceCountdown w;
     weatherNairobi := weatherNairobi w; countdownInterval := countdownInterval w;
     timers := timers w; console := console w |}.

Definition set_nextRaceCountdown (e : element) (w : world) : world :=
  {| scheduleList := scheduleList w; scheduleHeading := scheduleHeading w;
     nextRaceName := nextRaceName w; nextRaceCountdown := Some e;
     weatherNairobi := weatherNairobi w; countdownInterval := countdownInterval w;
     timers := timers w; console := console w |}.

Definition set_weatherNairobi (t : string) (w : world) : world :=
  {| scheduleList := scheduleList w; scheduleHeading := scheduleHeading w;
     nextRaceName := nextRaceName w; nextRaceCountdown := nextRaceCountdown w;
     weatherNairobi := Some t; countdownInterval := countdownInterval w;
     timers := timers w; console := console w |}.

Definition set_timers (i : option positive) (t : gmap positive callback) (w : world) : world :=
  {| scheduleList := scheduleList w; scheduleHeading := scheduleHeading w;
     nextRaceName := nextRaceName w; nextRaceCountdown := nextRaceCountdown w;
     weatherNairobi := weatherNairobi w; countdownInterval := i;
     timers := t; console := console w |}.

Definition add_log (e : log_entry) (w : world) : world :=
  {| scheduleList := scheduleList w; scheduleHeading := scheduleHeading w;
     nextRaceName := nextRaceName w; nextRaceCountdown := nextRaceCountdown w;
     weatherNairobi := weatherNairobi w; countdownInterval := countdownInterval w;
     timers := timers w; console := console w ++ [e] |}.

(** Handlers: state passing with exceptions; the state reached when an
    exception is thrown is kept. *)
Definition M (A : Type) : Type := world -> result A * world.

Definition ret {A} (a : A) : M A := fun w => (Ok a, w).

Definition bind {A B} (m : M A) (k : A -> M B) : M B :=
  fun w => match m w with
           | (Ok a, w') => k a w'
           | (Throw e, w') => (Throw e, w')
           end.

Definition lift {A} (r : result A) : M A := fun w => (r, w).

Definition try_catch {A} (m : M A) (handler : exn -> M A) : M A :=
  fun w => match m w with
           | (Ok a, w') => (Ok a, w')
           | (Throw e, w') => handler e w'
           end.

Definition modify (f : world -> world) : M unit := fun w => (Ok tt, f w).

(** A call of an async function that is not awaited: its effects happen,
    its rejection reaches nobody. *)
Definition detached (m : M unit) : M unit := try_catch m (fun _ => ret tt).

Notation "x <~ m ;; k" := (bind m (fun x => k))
  (at level 100, m at next level, right associativity).
Notation "m ;;; k" := (bind m (fun _ => k))
  (at level 100, right associativity).

(** [if (el) el.<field> = ...]: an assignment guarded by the presence of
    the element. *)
Definition when_present {A} (el : world -> option A) (f : world -> world) : M unit :=
  fun w => match el w with
           | Some _ => (Ok tt, f w)
           | None => (Ok tt, w)
           end.

(** What the network and the clock answer during one run of a handler. *)
Record response : Type := {
  ok : bool;
  status : Z;
  (** the outcome of [res.json()] *)
  json : result value
}.

Record env : Type := {
  now : Z;
  backend_getRaceSchedule : number -> result value;
  backend_getNextRace : result value;
  (** the answer to the request that the countdown closure starts *)
  backend_getNextRace_update : result value;
  fetch_rapidapi : result response;
  fetch_manual : result response;
  fetch_weather : result response
}.

Notation "a ||| b" := (or_else a b) (at level 50, left associativity).
Notation "a &&& b" := (and_then a b) (at level 40, left associativity).

Section Handlers.

Variable H : host.

(** Template interpolation of a number that may be NaN. *)
Definition num_toString (n : number) : string :=
  match n with
  | Some z => Number_toString H (inject_Z z)
  | None => "NaN"
  end.

(** The degree sign and [C]; the file of the source holds the sign in a
    mis-encoded form, and the page shows that form. *)
Definition degC : string := "°C".

(** *** Weather *)

Definition loadWeather (E : env) : M unit :=
  fun w =>
    match weatherNairobi w with
    | None => (Ok tt, w)
    | Some _ =>
        try_catch
          (res <~ lift (fetch_weather E) ;;
           data <~ lift (json res) ;;
           let temp := get_opt (get_opt data "current") "temperature_2m" in
           match temp with
           | VNum q =>
               modify (set_weatherNairobi
                         (Number_toString H (inject_Z (Math_round q)) +:+ degC))
           | _ => ret tt
           end)
          (fun _ => modify (set_weatherNairobi ("24" +:+ degC))) w
    end.

(** *** Sorting by date: [races.sort((a, b) => parseRaceDate(a) - parseRaceDate(b))]

    The sort is stable; on a list of at most one element the comparator is
    not called.  When every date is valid the comparator is consistent and
    the result is the stable chronological order, whatever algorithm the
    engine uses.  A comparison with an Invalid Date is NaN, which the sort
    reads as 0: the comparator is then not consistent and the order is
    left to the engine.  The insertion below agrees with an engine that
    compares neighbours and finds the array in order, as on an array of
    three events of which the second alone has an invalid date (it is
    left as it is); on other arrays with an invalid date it need not be
    the order of the engine.  The properties of the order are stated for
    arrays whose dates are all valid. *)

Fixpoint insert_by_date (x : instant * value) (l : list (instant * value))
  : list (instant * value) :=
  match l with
  | [] => [x]
  | y :: rest =>
      match date_compare (fst x) (fst y) with
      | Gt => y :: insert_by_date x rest
      | _ => x :: l
      end
  end.

Definition sort_keyed (l : list (instant * value)) : list (instant * value) :=
  fold_right insert_by_date [] l.

Fixpoint with_dates (l : list value) : result (list (instant * value)) :=
  match l with
  | [] => Ok []
  | race :: rest =>
      d <- parseRaceDate H race ;;
      rest' <- with_dates rest ;;
      Ok ((d, race) :: rest')
  end.

Definition sortByDate (races : value) : result (list value) :=
  items <- as_array races ;;
  match items with
  | [] | [_] => Ok items
  | _ => keyed <- with_dates items ;; Ok (map snd (sort_keyed keyed))
  end.

(** *** Field resolution of [renderSchedule] *)

Definition raceName_of (race : value) (index : nat) : result value :=
  get race "raceName" ||| get race "name" ||| get race "grandPrix"
  ||| get race "title" ||| get race "circuit"
  ||| Ok (VStr ("Race " +:+ num_toString (Some (Z.of_nat index + 1)))).

Definition country_of (race : value) : result value :=
  get race "country"
  ||| (c <- get race "Circuit" ;; Ok (get_opt (get_opt c "Location") "country"))
  ||| (l <- get race "location" ;; Ok (get_opt l "country"))
  ||| get race "location"
  ||| Ok (VStr "Unknown").

Definition locality_of (race : value) : result value :=
  get race "locality"
  ||| (c <- get race "Circuit" ;; Ok (get_opt (get_opt c "Location") "locality"))
  ||| (l <- get race "location" ;; Ok (get_opt l "city"))
  ||| (t <- get race "track" ;; Ok (get_opt t "location"))
  ||| get race "circuit"
  ||| Ok (VStr EmptyString).

Definition round_of (race : value) (index : nat) : result value :=
  get race "round" ||| get race "roundNumber" ||| Ok (of_nat (index + 1)).

Definition card_of (now : Z) (race : value) (index : nat) : result card :=
  raceDate <- parseRaceDate H race ;;
  let isPast := date_lt raceDate (Some now) in
  let status := if isPast then "Done" else "Upcoming" in
  raceName <- raceName_of race index ;;
  country <- country_of race ;;
  locality <- locality_of race ;;
  round <- round_of race index ;;
  Ok (RaceCard round status country locality raceName raceDate).

Definition append_card (c : card) (w : world) : world :=
  match scheduleList w with
  | Some (Cards cs) => set_scheduleList (Cards (cs ++ [c])) w
  | Some (Markup _) => set_scheduleList (Cards [c]) w
  | None => w
  end.

Fixpoint forEach_card (now : Z) (l : list value) (index : nat) : M unit :=
  match l with
  | [] => ret tt
  | race :: rest =>
      c <~ lift (card_of now race index) ;;
      modify (append_card c) ;;;
      forEach_card now rest (S index)
  end.

(** The result is the array [races] after the call: [sort] works in
    place, so the caller's array is sorted too. *)
Definition renderSchedule (now : Z) (races : value) (year : number) : M value :=
  fun w =>
    match scheduleList w with
    | None => (Ok races, w)
    | Some _ =>
        (when_present scheduleHeading
           (set_scheduleHeading (num_toString year +:+ " Race Schedule (EAT)")) ;;;
         modify (set_scheduleList (Cards [])) ;;;
         sortedRaces <~ lift (sortByDate races) ;;
         forEach_card now sortedRaces 0 ;;;
         ret (VArr sortedRaces)) w
    end.

(** *** The hardcoded schedule *)

Definition mockRaces : list value :=
  [ VObj [("round", VNum 1%Q); ("name", VStr "Bahrain Grand Prix");
          ("country", VStr "Bahrain"); ("date", VStr "2025-03-09T15:00:00Z")];
    VObj [("round", VNum 2%Q); ("name", VStr "Saudi Arabian Grand Prix");
          ("country", VStr "Saudi Arabia"); ("date", VStr "2025-03-23T17:00:00Z")];
    VObj [("round", VNum 3%Q); ("name", VStr "Australian Grand Prix");
          ("country", VStr "Australia"); ("date", VStr "2025-04-06T06:00:00Z")] ].

Definition mock_card (race : value) : card :=
  MockCard (get_opt race "round") (get_opt race "country") (get_opt race "name")
           (new_Date H (get_opt race "date")).

Definition renderMockSchedule : M unit :=
  when_present scheduleList (set_scheduleList (Cards (map mock_card mockRaces))).

(** *** The countdown *)

Definition add_class (c : string) (l : list string) : list string :=
  if existsb (String.eqb c) l then l else l ++ [c].

Definition remove_class (c : string) (l : list string) : list string :=
  List.filter (fun c' => negb (String.eqb c c')) l.

Definition set_text (t : string) (el : element) : element :=
  {| textContent := t; classList := classList el |}.

Definition add_pulse (el : element) : element :=
  {| textContent := textContent el;
     classList := add_class "animate-pulse" (add_class "text-red-600" (classList el)) |}.

Definition remove_pulse (el : element) : element :=
  {| textContent := textContent el;
     classList := remove_class "animate-pulse" (remove_class "text-red-600" (classList el)) |}.

(** [s.padStart(2, "0")] for a non-empty [s]. *)
Definition pad2 (s : string) : string :=
  if (String.length s <? 2)%nat then "0" +:+ s else s.

Definition ms_day : Z := 1000 * 60 * 60 * 24.
Definition ms_hour : Z := 1000 * 60 * 60.
Definition ms_minute : Z := 1000 * 60.

(** The closure [update] of [updateCountdown], run at clock reading [now]. *)
Definition local_update (now : Z) (targetDate : instant) (el : element) : element :=
  match targetDate with
  | None => set_text "NaN:NaN" (remove_pulse el)
  | Some t =>
      let diff := t - now in
      if diff <=? 0 then add_pulse (set_text "RACE DAY!" el)
      else
        let days := diff / ms_day in
        let hours := (diff mod ms_day) / ms_hour in
        let minutes := (diff mod ms_hour) / ms_minute in
        let seconds := (diff mod ms_minute) / 1000 in
        let el := remove_pulse el in
        if 0 <? days then
          set_text (num_toString (Some days) +:+ "d " +:+ num_toString (Some hours) +:+ "h "
                    +:+ num_toString (Some minutes) +:+ "m") el
        else if 0 <? hours then
          set_text (num_toString (Some hours) +:+ "h " +:+ num_toString (Some minutes) +:+ "m "
                    +:+ num_toString (Some seconds) +:+ "s") el
        else
          set_text (pad2 (num_toString (Some minutes)) +:+ ":"
                    +:+ pad2 (num_toString (Some seconds))) el
  end.

Definition update_countdown_el (f : element -> element) (w : world) : world :=
  match nextRaceCountdown w with
  | Some el => set_nextRaceCountdown (f el) w
  | None => w
  end.

(** [if (this.countdownInterval) clearInterval(this.countdownInterval)]:
    a timer handle is a positive integer, hence truthy. *)
Definition clear_countdownInterval (w : world) : world :=
  match countdownInterval w with
  | Some i => set_timers (countdownInterval w) (delete i (timers w)) w
  | None => w
  end.

(** [this.countdownInterval = setInterval(cb, 1000)]: the handle is an
    integer that no running timer has. *)
Definition start_countdownInterval (cb : callback) (w : world) : world :=
  let i := fresh (dom (timers w)) in
  set_timers (Some i) (<[i := cb]> (timers w)) w.

Definition updateCountdown (now : Z) (targetDate : instant) (raceName : value) : M unit :=
  fun w =>
    match nextRaceCountdown w with
    | None => (Ok tt, w)
    | Some _ =>
        (modify clear_countdownInterval ;;;
         modify (update_countdown_el (local_update now targetDate)) ;;;
         modify (start_countdownInterval (LocalUpdate targetDate))) w
    end.

(** The [then] callback of the closure [update] of
    [updateCountdownFromBackend]. *)
Definition backend_then (race nextRaceData : value) : M unit :=
  c <~ lift (Ok nextRaceData &&& get nextRaceData "success"
             &&& get nextRaceData "countdown") ;;
  if truthy c then
    cd <~ lift (get nextRaceData "countdown") ;;
    total_seconds <~ lift (get cd "total_seconds") ;;
    if le0 H total_seconds then
      modify (update_countdown_el (fun el => add_pulse (set_text "RACE DAY!" el))) ;;;
      (fun w =>
         match nextRaceName w with
         | None => (Ok tt, w)
         | Some _ =>
             (name <~ lift (get race "raceName" ||| Ok (VStr "Race")) ;;
              modify (set_nextRaceName (ToString H name +:+ " - LIVE!"))) w
         end)
    else
      days <~ lift (get cd "days") ;;
      hours <~ lift (get cd "hours") ;;
      minutes <~ lift (get cd "minutes") ;;
      seconds <~ lift (get cd "seconds") ;;
      modify (update_countdown_el
                (set_text
                   (if gt0 H days then
                      ToString H days +:+ "d " +:+ ToString H hours +:+ "h "
                      +:+ ToString H minutes +:+ "m"
                    else if gt0 H hours then
                      ToString H hours +:+ "h " +:+ ToString H minutes +:+ "m "
                      +:+ ToString H seconds +:+ "s"
                    else
                      ToString H minutes +:+ "m " +:+ ToString H seconds +:+ "s"))) ;;;
      modify (update_countdown_el remove_pulse)
  else ret tt.

(** Its [catch] callback. *)
Definition backend_catch (now : Z) (race : value) : M unit :=
  datetime <~ lift (get race "datetime") ;;
  if truthy datetime then
    raceName <~ lift (get race "raceName") ;;
    updateCountdown now (new_Date H datetime) raceName
  else ret tt.

(** The closure [update] together with the settlement of the request it
    starts: [backend.getNextRace().then(...).catch(...)]. *)
Definition backend_update (now : Z) (settled : result value) (race : value) : M unit :=
  detached
    match settled with
    | Ok nextRaceData =>
        try_catch (backend_then race nextRaceData) (fun _ => backend_catch now race)
    | Throw _ => backend_catch now race
    end.

(** The synchronous part, up to the assignment of the new interval. *)
Definition updateCountdownFromBackend_sync (countdown race : value) : M unit :=
  fun w =>
    match nextRaceCountdown w with
    | None => (Ok tt, w)
    | Some _ =>
        ((fun w =>
            match nextRaceName w with
            | None => (Ok tt, w)
            | Some _ =>
                (name <~ lift (get race "raceName" ||| Ok (VStr "Next Race")) ;;
                 modify (set_nextRaceName (ToString H name +:+ " - Countdown"))) w
            end) ;;;
         modify clear_countdownInterval ;;;
         modify (start_countdownInterval (BackendUpdate race))) w
    end.

(** The first call of [update] starts a request; its callbacks run once
    the synchronous part is over. *)
Definition updateCountdownFromBackend (now : Z) (settled : result value)
    (countdown race : value) : M unit :=
  fun w =>
    match nextRaceCountdown w with
    | None => (Ok tt, w)
    | Some _ =>
        (updateCountdownFromBackend_sync countdown race ;;;
         backend_update now settled race) w
    end.

(** [sortedRaces.find(r => parseRaceDate(r) > now)]; [undefined] when no
    element passes. *)
Fixpoint find_upcoming (now : Z) (l : list value) : result value :=
  match l with
  | [] => Ok VUndefined
  | r :: rest =>
      raceDate <- parseRaceDate H r ;;
      if date_gt raceDate (Some now) then Ok r else find_upcoming now rest
  end.

(** The part of [startRaceCountdown] that asks the backend; [true] when
    the backend countdown was started (the early [return]). *)
Definition countdown_from_backend (E : env) : M bool :=
  try_catch
    (nextRaceData <~ lift (backend_getNextRace E) ;;
     c <~ lift (Ok nextRaceData &&& get nextRaceData "success"
                &&& get nextRaceData "race") ;;
     if truthy c then
       race <~ lift (get nextRaceData "race") ;;
       countdown <~ lift (get nextRaceData "countdown") ;;
       (fun w =>
          match nextRaceName w with
          | None => (Ok tt, w)
          | Some _ =>
              (name <~ lift (get race "raceName" ||| Ok (VStr "Next Race")) ;;
               modify (set_nextRaceName (ToString H name))) w
          end) ;;;
       positive <~ lift (Ok countdown
                         &&& (ts <- get countdown "total_seconds" ;; Ok (VBool (gt0 H ts)))) ;;
       if truthy positive then
         updateCountdownFromBackend (now E) (backend_getNextRace_update E)
           countdown race ;;;
         ret true
       else ret false
     else ret false)
    (fun _ => ret false).

(** The fallback of [startRaceCountdown]: the next race of the array.
    [now] is the reading of the clock at the start of [startRaceCountdown];
    it also stands for the later reading of the first run of the closure
    [update], so that the text first shown is that of the earlier
    reading. *)
Definition countdown_from_races (now : Z) (races : value) : M unit :=
  sortedRaces <~ lift (sortByDate races) ;;
  nextRace <~ lift (find_upcoming now sortedRaces) ;;
  if truthy nextRace then
    targetDate <~ lift (parseRaceDate H nextRace) ;;
    raceName <~ lift (get nextRace "raceName" ||| get nextRace "name"
                      ||| get nextRace "grandPrix" ||| get nextRace "title"
                      ||| Ok (VStr "Next Race")) ;;
    when_present nextRaceName
      (set_nextRaceName (ToString H raceName +:+ " - Countdown")) ;;;
    updateCountdown now targetDate raceName
  else
    modify (update_countdown_el (set_text "Season Ended")) ;;;
    when_present nextRaceName (set_nextRaceName "No upcoming races").

Definition startRaceCountdown (E : env) (races : value) : M unit :=
  started <~ countdown_from_backend E ;;
  if started : bool then ret tt else countdown_from_races (now E) races.

(** *** Acquisition of the schedule: the three tiers of [loadRaceSchedule] *)

(** Tier 1: the Python backend. *)
Definition tier1 (E : env) (year : number) : result value :=
  backendData <- backend_getRaceSchedule E year ;;
  c <- Ok backendData &&& get backendData "success" &&& get backendData "races"
       &&& (races <- get backendData "races" ;;
            len <- get races "length" ;;
            Ok (VBool (gt0 H len))) ;;
  if truthy c then get backendData "races"
  else Throw (Error "Backend returned empty or invalid data").

(** The probe of the response shapes. *)
Definition probe_shapes (data : value) : result value :=
  if isArray data then Ok data
  else
  c1 <- get data "races" &&& (r <- get data "races" ;; Ok (VBool (isArray r))) ;;
  if truthy c1 then get data "races"
  else
  c2 <- get data "data" &&& (r <- get data "data" ;; Ok (VBool (isArray r))) ;;
  if truthy c2 then get data "data"
  else
  c3 <- get data "schedule" &&& (r <- get data "schedule" ;; Ok (VBool (isArray r))) ;;
  if truthy c3 then get data "schedule"
  else Throw (Error "Invalid API response format").

Fixpoint someM (p : value -> result bool) (l : list value) : result bool :=
  match l with
  | [] => Ok false
  | x :: rest => b <- p x ;; if b : bool then Ok true else someM p rest
  end.

(** The callback of [races.some] in the quality check. *)
Definition has_valid_name (race : value) : result bool :=
  raceName <- get race "raceName" ||| get race "name" ||| get race "grandPrix"
              ||| get race "title" ;;
  Ok (truthy raceName && strict_ne_str raceName "Unknown"
      && strict_ne_str raceName "unknown").

Definition validate_quality (races : value) : result value :=
  len <- get races "length" ;;
  if gt0 H len then
    items <- as_array races ;;
    hasValidData <- someM has_valid_name items ;;
    if hasValidData : bool then Ok races
    else Throw (Error "API data appears invalid")
  else Throw (Error "API returned empty array").

(** Tier 2: RapidAPI. *)
Definition tier2 (E : env) : result value :=
  res <- fetch_rapidapi E ;;
  if negb (ok res) then
    Throw (Error ("HTTP error! status: " +:+ num_toString (Some (status res))))
  else
    data <- json res ;;
    races <- probe_shapes data ;;
    validate_quality races.

(** Tier 3: the manual JSON file. *)
Definition tier3 (E : env) : result value :=
  manualRes <- fetch_manual E ;;
  if ok manualRes then
    manualData <- json manualRes ;;
    get manualData "races" ||| Ok (VArr [])
  else Throw (Error "Manual data file not found").

(** The nested [try]/[catch] blocks: the races and [dataSource] of the
    first tier that does not throw; [Throw] when the innermost [catch] is
    reached. *)
Definition acquireTiers (E : env) (year : number) : result (value * string) :=
  match tier1 E year with
  | Ok races => Ok (races, "backend-fastf1")
  | Throw _ =>
      match tier2 E with
      | Ok races => Ok (races, "rapidapi")
      | Throw _ =>
          match tier3 E with
          | Ok races => Ok (races, "manual-json")
          | Throw manualError => Throw manualError
          end
      end
  end.

(** The year filter, for the two tiers it applies to. *)
Definition filterSource (E : env) (year : number) (races : value) (dataSource : string)
  : result value :=
  if String.eqb dataSource "rapidapi" || String.eqb dataSource "manual-json" then
    kept <- filterByYear H (now E) year races ;; Ok (VArr kept)
  else Ok races.

(** The two messages assigned to [innerHTML]; attribute values are quoted
    with ['] here. *)
Definition loading_markup : string :=
  "<div class='col-span-2 text-center py-8 text-blue-600'><div class='inline-block animate-spin rounded-full h-8 w-8 border-b-2 border-orange-500 mb-4'></div><p>Loading schedule...</p></div>".

Definition no_races_markup : string :=
  "<div class='col-span-2 text-center py-8 text-blue-600'><p>No races found for this season.</p></div>".

Definition loadRaceSchedule (E : env) (year : number) : M unit :=
  when_present scheduleList (set_scheduleList (Markup loading_markup)) ;;;
  match acquireTiers E year with
  | Throw _ => renderMockSchedule
  | Ok (races, dataSource) =>
      races <~ lift (filterSource E year races dataSource) ;;
      len <~ lift (get races "length") ;;
      modify (add_log (FinalParsed year len dataSource)) ;;;
      if gt0 H len then
        races <~ renderSchedule (now E) races year ;;
        if strict_eq year (getFullYear H (Some (now E))) then
          detached (startRaceCountdown E races)
        else ret tt
      else
        when_present scheduleList (set_scheduleList (Markup no_races_markup))
  end.

End Handlers.

(** ** The join-club form ([JoinClubForm] in public/main.js,
    [SanityClient.submitJoinClubForm] in public/cms-client.js) *)

Module JoinClub.

Record SanityClient : Type := {
  projectId : string;
  writeUrl : string;
  (** [null] until a token is configured *)
  writeToken : value
}.

(** What a submission does to the outside, in order. *)
Inductive effect : Type :=
| ConsoleWarn (message : string)
| ConsoleLog (message : string) (data : value)
| ConsoleError (message : string)
| Fetch (url authorization : string) (body : value)
| Alert (message : string)
| FormReset.

Definition is_fetch (e : effect) : bool :=
  match e with Fetch _ _ _ => true | _ => false end.

Definition is_alert (e : effect) : bool :=
  match e with Alert _ => true | _ => false end.

Section WithHost.

Variable H : host.

(** The document of the [create] mutation; [submittedAt] is
    [new Date().toISOString()]. *)
Definition mutation_of (submittedAt : string) (formData : value) : result value :=
  name <- get formData "name" ;;
  email <- get formData "email" ;;
  city <- get formData "city" ;;
  Ok (VObj [("mutations",
             VArr [VObj [("create",
                          VObj [("_type", VStr "clubMember"); ("name", name);
                                ("email", email); ("city", city);
                                ("submittedAt", VStr submittedAt);
                                ("status", VStr "pending")])]])]).

(** [post] is the outcome of the request, should it be made.  The result
    is the object the method resolves to. *)
Definition submitJoinClubForm (client : SanityClient) (post : result response)
    (submittedAt : string) (formData : value) : value * list effect :=
  if negb (truthy (writeToken client)) then
    (VObj [("success", VBool false);
           ("message", VStr "Form submission requires backend setup")],
     [ConsoleWarn "Write token not set. Form submission requires serverless function or write token.";
      ConsoleLog "Form data:" formData])
  else
    match mutation_of submittedAt formData with
    | Throw e =>
        (VObj [("success", VBool false); ("error", VStr (message_of H e))],
         [ConsoleError "Error submitting form:"])
    | Ok mutation =>
        let request :=
          Fetch (writeUrl client) ("Bearer " +:+ ToString H (writeToken client)) mutation in
        match (response <- post ;;
               if negb (ok response) then
                 Throw (Error ("Submission failed: "
                               +:+ Number_toString H (inject_Z (status response))))
               else
                 data <- json response ;;
                 Ok (VObj [("success", VBool true); ("data", data)])) with
        | Ok r => (r, [request])
        | Throw e =>
            (VObj [("success", VBool false); ("error", VStr (message_of H e))],
             [request; ConsoleError "Error submitting form:"])
        end
    end.

Definition welcome : string :=
  "Welcome to NashfyPitStop! You've successfully joined our community. We'll send you updates about upcoming events and races.".

(** [sanity] is [None] when the global of cms-client.js is not defined;
    [data] is the object of the form entries. *)
Definition handleSubmit (sanity : option SanityClient) (post : result response)
    (submittedAt : string) (data : value) : list effect :=
  match sanity with
  | Some client =>
      if negb (String.eqb (projectId client) "YOUR_PROJECT_ID") then
        let '(result, effects) := submitJoinClubForm client post submittedAt data in
        match get result "success" with
        | Ok success =>
            if truthy success then effects ++ [Alert welcome; FormReset]
            else
              effects
              ++ [ConsoleWarn "Form submission to Sanity failed, using fallback";
                  Alert welcome; FormReset]
        | Throw _ =>
            effects ++ [ConsoleWarn "Error submitting form to Sanity:";
                        Alert welcome; FormReset]
        end
      else [Alert welcome; FormReset]
  | None => [Alert welcome; FormReset]
  end.

End WithHost.

End JoinClub.

(** ** The event loop, as far as timers are concerned *)

Section EventLoop.

Variable H : host.

(** [startLocalTime]: the clock timer, whose handle is not stored. *)
Definition startLocalTime : M unit :=
  modify (fun w =>
            set_timers (countdownInterval w)
                       (<[fresh (dom (timers w)) := ClockTick]> (timers w)) w).

(** One task of the event loop.  The handlers run as a whole; the pieces
    that touch the countdown timer also run on their own, with arbitrary
    arguments, which covers every interleaving of handlers that are
    suspended at an [await].  The rest of the page starts timers of its
    own, and a timeout that has fired is gone. *)
Inductive step : world -> world -> Prop :=
| step_startLocalTime w :
    step w (snd (startLocalTime w))
| step_loadWeather E w :
    step w (snd (loadWeather H E w))
| step_loadRaceSchedule E year w :
    step w (snd (loadRaceSchedule H E year w))
| step_startRaceCountdown E races w :
    step w (snd (startRaceCountdown H E races w))
| step_updateCountdown now targetDate raceName w :
    step w (snd (updateCountdown H now targetDate raceName w))
| step_updateCountdownFromBackend countdown race w :
    step w (snd (updateCountdownFromBackend_sync H countdown race w))
| step_other_timer label w :
    step w (set_timers (countdownInterval w)
                       (<[fresh (dom (timers w)) := OtherTimer label]> (timers w)) w)
| step_timer_done i cb w :
    timers w !! i = Some cb -> is_countdown cb = false ->
    step w (set_timers (countdownInterval w) (delete i (timers w)) w)
| step_tick_local i now targetDate w :
    timers w !! i = Some (LocalUpdate targetDate) ->
    step w (update_countdown_el (local_update H now targetDate) w)
| step_settle_backend now settled race w :
    step w (snd (backend_update H now settled race w)).

(** The page when the script starts: no timer runs. *)
Definition initial (w : world) : Prop :=
  timers w = ∅ /\ countdownInterval w = None.

Inductive reachable : world -> Prop :=
| reachable_initial w : initial w -> reachable w
| reachable_step w w' : reachable w -> step w w' -> reachable w'.

(** The running countdown timers. *)
Definition countdown_timers (w : world) : gmap positive callback :=
  filter (fun p => is_countdown (snd p) = true) (timers w).

End EventLoop.

(** ** The fields of a rendered event *)

Section Normalization.

Variable H : host.

(** The four values that the callback of [forEach] in [renderSchedule]
    resolves for a race. *)
Record resolved : Type := {
  r_round : value;
  r_name : value;
  r_country : value;
  r_locality : value
}.

Definition resolve (race : value) (index : nat) : result resolved :=
  raceName <- raceName_of H race index ;;
  country <- country_of race ;;
  locality <- locality_of race ;;
  round <- round_of race index ;;
  Ok {| r_round := round; r_name := raceName; r_country := country;
        r_locality := locality |}.

(** The event in canonical shape: an object with exactly the fields
    [round], [name], [country] and [locality] of the data model. *)
Definition canonical (e : resolved) : value :=
  VObj [("round", r_round e); ("name", r_name e);
        ("country", r_country e); ("locality", r_locality e)].

End Normalization.

(** ** Order of dates *)

(** [a <= b] on dates. *)
Definition date_le (a b : instant) : Prop :=
  match a, b with
  | Some x, Some y => x <= y
  | _, _ => False
  end.

Definition card_date (c : card) : instant :=
  match c with
  | RaceCard _ _ _ _ _ raceDate => raceDate
  | MockCard _ _ _ eatDate => eatDate
  end.

Definition rendered_dates (w : world) : list instant :=
  match scheduleList w with
  | Some (Cards cs) => map card_date cs
  | _ => []
  end.

(** A race whose date can be read without exception, and is valid. *)
Definition has_valid_date (H : host) (race : value) : Prop :=
  exists t : Z, parseRaceDate H race = Ok (Some t).

(** ** Auxiliary definitions of the statements *)

(** Occurrence of a character in a string. *)
Fixpoint has_char (c : ascii) (s : string) : bool :=
  match s with
  | EmptyString => false
  | String c' rest => Ascii.eqb c c' || has_char c rest
  end.

Section DerivedYear.

Variable H : host.

(** The year that [extractYearFromRace] derives, for an event that is
    not [null] or [undefined]. *)
Definition derived_year (now : Z) (race : value) : number :=
  if truthy (get_opt race "date") then getFullYear H (new_Date H (get_opt race "date"))
  else if truthy (get_opt race "raceDate") then
    getFullYear H (new_Date H (get_opt race "raceDate"))
  else if truthy (get_opt race "startDate") then
    getFullYear H (new_Date H (get_opt race "startDate"))
  else if truthy (get_opt race "year") then parseInt H (get_opt race "year")
  else Some (Date_year H now).

End DerivedYear.

(** The response shapes that the rapidapi tier probes, in order. *)
Definition shape_candidates (data : value) : list value :=
  [data; get_opt data "races"; get_opt data "data"; get_opt data "schedule"].

(** The name fields that the quality check reads, in order. *)
Definition name_candidates (race : value) : list value :=
  [get_opt race "raceName"; get_opt race "name"; get_opt race "grandPrix";
   get_opt race "title"].

(** A race whose date can be read without exception. *)
Definition readable (H : host) (race : value) : Prop :=
  is_ok (parseRaceDate H race) = true.

(** Chronological order of two races with valid dates. *)
Definition by_date (H : host) (a b : value) : Prop :=
  exists x y : Z,
    parseRaceDate H a = Ok (Some x) /\ parseRaceDate H b = Ok (Some y) /\ x <= y.

(** Order of the keys, for keys that are all valid. *)
Definition key_le (a b : instant * value) : Prop := date_le (fst a) (fst b).

Definition key_valid (a : instant * value) : Prop := exists t : Z, fst a = Some t.

(** The page after the heading of [renderSchedule] is written. *)
Definition with_heading (H : host) (year : number) (w : world) : world :=
  snd (when_present scheduleHeading
         (set_scheduleHeading (num_toString H year +:+ " Race Schedule (EAT)")) w).

(** ** A page and answers for the examples *)

(** A page on which every element is present and no timer runs. *)
Definition example_page : world :=
  {| scheduleList := Some (Markup EmptyString);
     scheduleHeading := Some "Race Schedule (EAT)";
     nextRaceName := Some "Next Race";
     nextRaceCountdown := Some {| textContent := "--"; classList := [] |};
     weatherNairobi := Some "Loading...";
     countdownInterval := None;
     timers := ∅;
     console := [] |}.

(** The clock reads 2025-03-09T15:00:00Z. *)
Definition example_now : Z := 1741532400000.

Definition example_env (schedule nextRace : result value)
    (rapidapi manual weather : result response) : env :=
  {| now := example_now;
     backend_getRaceSchedule := fun _ => schedule;
     backend_getNextRace := nextRace;
     backend_getNextRace_update := nextRace;
     fetch_rapidapi := rapidapi;
     fetch_manual := manual;
     fetch_weather := weather |}.

(** A request that fails ("Failed to fetch"). *)
Definition failed {A} : result A := Throw TypeError.

(** A response with status 200 and a JSON body. *)
Definition ok_json (body : value) : result response :=
  Ok {| ok := true; status := 200; json := Ok body |}.

(** ** The outcomes of the countdown selection *)

(** A race whose date is valid and after the clock reading. *)
Definition upcoming (H : host) (clock : Z) (race : value) : Prop :=
  exists t : Z, parseRaceDate H race = Ok (Some t) /\ clock < t.


(** The name shown with the countdown. *)
Definition countdown_name (race : value) : value :=
  match List.find truthy (name_candidates race) with
  | Some name => name
  | None => VStr "Next Race"
  end.


(** The page once the countdown to [race], at time [t], is started. *)
Definition countdown_to (H : host) (clock : Z) (race : value) (t : Z) (w : world) : world :=
  snd ((when_present nextRaceName
          (set_nextRaceName (ToString H (countdown_name race) +:+ " - Countdown")) ;;;
        updateCountdown H clock (Some t) (countdown_name race)) w).

(** ** What a handler may do to the page *)

(** A relation between the page before and after a piece of code: it is
    closed under reflexivity and transitivity, and holds across each
    write to an element and across the replacement of the countdown
    timer (cancel the stored handle, then store a new one). *)
Record frame (R : world -> world -> Prop) : Prop := {
  frame_refl : forall w, R w w;
  frame_trans : forall w1 w2 w3, R w1 w2 -> R w2 w3 -> R w1 w3;
  frame_scheduleList : forall c w, R w (set_scheduleList c w);
  frame_scheduleHeading : forall t w, R w (set_scheduleHeading t w);
  frame_nextRaceName : forall t w, R w (set_nextRaceName t w);
  frame_nextRaceCountdown : forall e w, R w (set_nextRaceCountdown e w);
  frame_weatherNairobi : forall t w, R w (set_weatherNairobi t w);
  frame_restart :
    forall cb w,
      is_countdown cb = true ->
      R w (start_countdownInterval cb (clear_countdownInterval w))
}.

Definition guarantees {A} (R : world -> world -> Prop) (m : M A) : Prop :=
  forall w, R w (snd (m w)).

(** Every running countdown timer is the stored one. *)
Definition countdown_inv (w : world) : Prop :=
  forall i cb,
    timers w !! i = Some cb -> is_countdown cb = true -> countdownInterval w = Some i.

Definition keeps_countdown_inv (w w' : world) : Prop :=
  countdown_inv w -> countdown_inv w'.

Definition keeps_console (w w' : world) : Prop := console w' = console w.

(** The countdown element stays on the page. *)
Definition keeps_countdown_el (w w' : world) : Prop :=
  nextRaceCountdown w <> None -> nextRaceCountdown w' <> None.

(** The page once [loadRaceSchedule] shows its loading state. *)
Definition loading (w : world) : world :=
  snd (when_present scheduleList (set_scheduleList (Markup loading_markup)) w).


(** ** The backend client ([BackendClient], the script that defines the
    global [backend] used by [loadRaceSchedule] and [startRaceCountdown]) *)

Module BackendClient.

Definition baseUrl : string := "http://localhost:8000".
Definition apiUrl : string := baseUrl +:+ "/api".

(** [this.cache]: the last schedule fetched and the clock reading at that
    time, both [null] at first. *)
Record cache : Type := {
  raceSchedule : value;
  cacheTime : option Z
}.

Definition cacheDuration : Z := 5 * 60 * 1000.

Definition empty_cache : cache := {| raceSchedule := VNull; cacheTime := None |}.

(** A cache that holds nothing, or a payload that was accepted. *)
Definition cache_ok (c : cache) : Prop :=
  truthy (raceSchedule c) = true ->
  truthy (get_opt (raceSchedule c) "success") = true
  /\ truthy (get_opt (raceSchedule c) "races") = true.

Section WithHost.

Variable H : host.

(** The network: the outcome of [fetch(url)] and of [fetch(url, {method:
    'POST', body})]. *)
Variable fetch : string -> result response.
Variable fetch_post : string -> value -> result response.

Definition bool_toString (b : bool) : string := if b then "true" else "false".

(** [v === year] for a number [year]. *)
Definition strict_eq_num (v : value) (year : number) : bool :=
  match v, year with
  | VNum q, Some y => Qeq_bool q (inject_Z y)
  | _, _ => false
  end.

Definition http_error (status : Z) : exn :=
  Error ("HTTP error! status: " +:+ num_toString H (Some status)).

(** The condition of the cache check, at clock reading [now]. *)
Definition cache_hit (now : Z) (c : cache) (year : number) : result bool :=
  if truthy (raceSchedule c) then
    cachedYear <- get (raceSchedule c) "year" ;;
    if strict_eq_num cachedYear year then
      match cacheTime c with
      | Some t => Ok (negb (t =? 0) && (now - t <? cacheDuration))
      | None => Ok false
      end
    else Ok false
  else Ok false.

Definition race_schedule_url (year : number) (includeSessions : bool) : string :=
  apiUrl +:+ "/race-schedule?year=" +:+ num_toString H year
  +:+ "&include_sessions=" +:+ bool_toString includeSessions.

(** What a call resolves or rejects with, the cache after it, and the
    requests it made.  [now] is the clock at the cache check, [now'] the
    clock when the answer is stored. *)
Definition getRaceSchedule (now now' : Z) (c : cache) (year : number)
    (includeSessions : bool) : result value * cache * list string :=
  match cache_hit now c year with
  | Throw e => (Throw e, c, [])
  | Ok true => (Ok (raceSchedule c), c, [])
  | Ok false =>
      let url := race_schedule_url year includeSessions in
      match (response <- fetch url ;;
             if negb (ok response) then Throw (http_error (status response))
             else
               data <- json response ;;
               valid <- get data "success" &&& get data "races" ;;
               if truthy valid then Ok data
               else Throw (Error "Invalid response format")) with
      | Ok data => (Ok data, {| raceSchedule := data; cacheTime := Some now' |}, [url])
      | Throw e => (Throw e, c, [url])
      end
  end.

(** The body shared by the methods that answer with [data] when
    [data.success] holds. *)
Definition fetch_success (url : string) : result value :=
  response <- fetch url ;;
  if negb (ok response) then Throw (http_error (status response))
  else
    data <- json response ;;
    success <- get data "success" ;;
    if truthy success then Ok data
    else Throw (Error "Invalid response format").

Definition getNextRace : result value := fetch_success (apiUrl +:+ "/next-race").

(** The body shared by [createRaceReaction] and [joinClub]. *)
Definition post_json (url : string) (body : value) : result value :=
  response <- fetch_post url body ;;
  if negb (ok response) then
    errorData <- json response ;;
    detail <- get errorData "detail" ;;
    Throw (Error (if truthy detail then ToString H detail
                  else "HTTP error! status: " +:+ num_toString H (Some (status response))))
  else json response.

Definition createRaceReaction (reactionData : value) : result value :=
  post_json (apiUrl +:+ "/race-reactions") reactionData.

Definition joinClub (memberData : value) : result value :=
  post_json (apiUrl +:+ "/club-members") memberData.

End WithHost.

End BackendClient.

(** ** Arithmetic on numbers that may be NaN *)

(** [a - b]. *)
Definition num_sub (a b : number) : number :=
  match a, b with
  | Some x, Some y => Some (x - y)
  | _, _ => None
  end.

(** [a <= k] and [a > k] for a literal [k]: false on NaN. *)
Definition num_le (a : number) (k : Z) : bool :=
  match a with Some x => x <=? k | None => false end.

Definition num_gt (a : number) (k : Z) : bool :=
  match a with Some x => k <? x | None => false end.

(** [Math.floor(a / k)] for a positive literal [k]. *)
Definition floor_div (a : number) (k : Z) : number := option_map (fun x => x / k) a.

(** [a % k]: the remainder has the sign of [a]; NaN when [k] is 0. *)
Definition num_rem (a : number) (k : Z) : number :=
  match a with
  | Some x => if k =? 0 then None else Some (Z.rem x k)
  | None => None
  end.

(** [a + k] and [a * k]. *)
Definition num_add (a : number) (k : Z) : number := option_map (fun x => x + k) a.

Definition num_mul (a : number) (k : Z) : number := option_map (fun x => x * k) a.

(** ** The hint of an upcoming card ([getTimeUntilRace] in public/main.js) *)

Section TimeUntilRace.

Variable H : host.

(** [`${n} unit${n > 1 ? 's' : ''} away`]. *)
Definition away (n : number) (unit : string) : string :=
  num_toString H n +:+ " " +:+ unit +:+ (if num_gt n 1 then "s" else EmptyString)
  +:+ " away".

(** [now] is the clock reading of the call. *)
Definition getTimeUntilRace (now : Z) (raceDate : instant) : string :=
  let diff := num_sub raceDate (Some now) in
  if num_le diff 0 then "Race in progress or completed"
  else
    let days := floor_div diff ms_day in
    let hours := floor_div (num_rem diff ms_day) ms_hour in
    if num_gt days 7 then
      let weeks := floor_div days 7 in
      away weeks "week"
    else if num_gt days 0 then away days "day"
    else if num_gt hours 0 then away hours "hour"
    else "Less than an hour away!".

(** The last line of a card of [renderSchedule]: the hint, unless the race
    is past.  [now] is the clock reading of [renderSchedule], [later] the
    one of [getTimeUntilRace]. *)
Definition time_hint (now later : Z) (raceDate : instant) : option string :=
  let isPast := date_lt raceDate (Some now) in
  if negb isPast then Some (getTimeUntilRace later raceDate) else None.

(** ** The parts of the local countdown (the closure [update] of
    [updateCountdown]) *)

Definition countdown_days (diff : Z) : Z := diff / ms_day.
Definition countdown_hours (diff : Z) : Z := (diff mod ms_day) / ms_hour.
Definition countdown_minutes (diff : Z) : Z := (diff mod ms_hour) / ms_minute.
Definition countdown_seconds (diff : Z) : Z := (diff mod ms_minute) / 1000.

End TimeUntilRace.

(** ** Object literals used as tables

    [table[key]] on an object literal whose own members are strings: an
    own member, a member that the literal inherits from [Object.prototype]
    (a built-in function, or the prototype itself for [__proto__]), or
    [undefined]. *)

Definition Object_prototype : list string :=
  ["constructor"; "hasOwnProperty"; "isPrototypeOf"; "propertyIsEnumerable";
   "toLocaleString"; "toString"; "valueOf"; "__proto__"; "__defineGetter__";
   "__defineSetter__"; "__lookupGetter__"; "__lookupSetter__"].

Inductive member : Type :=
| Own (s : string)
| Inherited (name : string)
| Undefined.

Fixpoint own_member (table : list (string * string)) (key : string) : option string :=
  match table with
  | [] => None
  | (k, s) :: rest => if String.eqb key k then Some s else own_member rest key
  end.

Definition table_get (table : list (string * string)) (key : string) : member :=
  match own_member table key with
  | Some s => Own s
  | None => if existsb (String.eqb key) Object_prototype then Inherited key else Undefined
  end.

(** What a template shows for a value: the text of a string, or the
    string conversion of a built-in member. *)
Inductive shown : Type :=
| Text (s : string)
| Builtin (name : string).

(** [table[key] || fallback]. *)
Definition table_or (table : list (string * string)) (key : string) (fallback : shown) : shown :=
  match table_get table key with
  | Own s => if String.eqb s EmptyString then fallback else Text s
  | Inherited name => Builtin name
  | Undefined => fallback
  end.

(** [s.substring(1)]: [s] without its first UTF-16 code unit, for a string
    whose first character is inside the Basic Multilingual Plane. *)
Fixpoint skip_continuation (s : string) : string :=
  match s with
  | EmptyString => EmptyString
  | String c rest =>
      let b := nat_of_ascii c in
      if ((128 <=? b) && (b <? 192))%nat then skip_continuation rest else s
  end.

Definition substring1 (s : string) : string :=
  match s with
  | EmptyString => EmptyString
  | String _ rest => skip_continuation rest
  end.

(** ** Lists of elements

    The position of the first element that satisfies a predicate, and the
    update of the element at a position (nothing changes when the
    position is outside the list). *)

Fixpoint find_index {A} (p : A -> bool) (l : list A) : option nat :=
  match l with
  | [] => None
  | x :: rest => if p x then Some O else option_map S (find_index p rest)
  end.

Fixpoint update_nth {A} (n : nat) (f : A -> A) (l : list A) : list A :=
  match n, l with
  | _, [] => []
  | O, x :: rest => f x :: rest
  | S n', x :: rest => x :: update_nth n' f rest
  end.

(** [l.map(f)] for a callback that may throw. *)
Fixpoint mapM {A B} (f : A -> result B) (l : list A) : result (list B) :=
  match l with
  | [] => Ok []
  | x :: rest => y <- f x ;; rest' <- mapM f rest ;; Ok (y :: rest')
  end.

(** ** Sections and navigation links ([Navigation] in public/main.js) *)

Module Navigation.

(** An element of the document, as far as the navigation reads it:
    whether it is a [section] or [main] element, its [id] and [href]
    attributes, and its classes. *)
Record elem : Type := {
  sectional : bool;
  el_id : option string;
  href : option string;
  classes : list string
}.

Definition set_classes (l : list string) (e : elem) : elem :=
  {| sectional := sectional e; el_id := el_id e; href := href e; classes := l |}.

(** The closures handed to [setTimeout]: the fade-in of a shown section
    (an index into the document) and the reload of the venues. *)
Inductive timeout : Type :=
| FadeIn (target : nat)
| ReloadVenues.

(** The document in document order, and the fields of the [Navigation]
    object.  The address bar is not part of the state. *)
Record page : Type := {
  elems : list elem;
  currentSection : string;
  title : shown;
  timeouts : list timeout
}.

Definition set_elems (l : list elem) (p : page) : page :=
  {| elems := l; currentSection := currentSection p; title := title p;
     timeouts := timeouts p |}.

(** Matches ['section[id], main[id]']. *)
Definition is_section (e : elem) : bool :=
  sectional e && match el_id e with Some _ => true | None => false end.

Definition has_class (c : string) (e : elem) : bool := existsb (String.eqb c) (classes e).

(** Matches ['.nav-link']. *)
Definition is_nav_link (e : elem) : bool := has_class "nav-link" e.

Definition has_id (s : string) (e : elem) : bool :=
  match el_id e with Some s' => String.eqb s s' | None => false end.

(** [document.getElementById(s)]: the first element with this id; no
    element has the empty id. *)
Definition getElementById (s : string) (l : list elem) : option nat :=
  if String.eqb s EmptyString then None else find_index (has_id s) l.

Definition pageTitles : list (string * string) :=
  [("home", "Home | NashfyPitStop");
   ("about", "About | NashfyPitStop");
   ("watch-party", "Watch Party Venues | NashfyPitStop");
   ("blogs", "F1 News & Community | NashfyPitStop");
   ("join-club", "Join the Club | NashfyPitStop")].

Definition default_title : string := "NashfyPitStop | Kenya & East Africa F1 Community".

(** The callback of [sections.forEach] in [showSection]. *)
Definition hide (e : elem) : elem :=
  set_classes (remove_class "fade-in" (add_class "hidden" (classes e))) e.

Definition hide_sections (l : list elem) : list elem :=
  map (fun e => if is_section e then hide e else e) l.

Definition showSection (sectionId : string) (p : page) : page :=
  let hidden := hide_sections (elems p) in
  match getElementById sectionId hidden with
  | Some targetSection =>
      {| elems := update_nth targetSection
                    (fun e => set_classes (remove_class "hidden" (classes e)) e) hidden;
         currentSection := sectionId;
         title := table_or pageTitles sectionId (Text default_title);
         timeouts := timeouts p ++ [FadeIn targetSection]
                     ++ (if String.eqb sectionId "watch-party" then [ReloadVenues] else []) |}
  | None => set_elems hidden p
  end.

(** [updateActiveLink(activeLink)] for the element at index [activeLink]. *)
Definition updateActiveLink (activeLink : nat) (p : page) : page :=
  let cleared :=
    map (fun e => if is_nav_link e then set_classes (remove_class "active" (classes e)) e
                  else e) (elems p) in
  set_elems (update_nth activeLink (fun e => set_classes (add_class "active" (classes e)) e)
               cleared) p.

(** [link.getAttribute('href')]: [null] without the attribute. *)
Definition getAttribute_href (link : nat) (p : page) : option string :=
  match nth_error (elems p) link with
  | Some e => href e
  | None => None
  end.

(** The click handler that [setupNavigation] gives to the navigation link
    at index [link]. *)
Definition nav_click (link : nat) (p : page) : result page :=
  match getAttribute_href link p with
  | None => Throw TypeError
  | Some h =>
      let section := substring1 h in
      Ok (updateActiveLink link (showSection section p))
  end.

(** A section that is shown: it does not have the class [hidden]. *)
Definition visible (e : elem) : bool := negb (has_class "hidden" e).

End Navigation.

(** ** The quiz ([QuizSystem] in public/main.js) *)

Module QuizSystem.

Record question : Type := {
  q : string;
  a : list string;
  correct : Z
}.

Record button : Type := {
  btn_text : string;
  disabled : bool;
  btn_classes : list string
}.

(** A question element: its heading, its buttons, and the [correct] index
    that the click listeners of its buttons have captured. *)
Record question_el : Type := {
  heading : string;
  buttons : list button;
  correctIndex : Z
}.

(** The fields of the [QuizSystem] object, and the two elements it
    writes: the children of [#quizBox] and the text of [#quizResult]. *)
Record quiz : Type := {
  questions : list question;
  score : Z;
  quizBox : option (list question_el);
  quizResult : option string
}.

(** The questions of the constructor. *)
Definition the_questions : list question :=
  [ {| q := "Which timezone does Kenya use?"; a := ["UTC"; "EAT"; "CAT"]; correct := 1 |};
    {| q := "Which circuit is in Africa?"; a := ["Spa"; "Monza"; "Kyalami"]; correct := 2 |};
    {| q := "How many wheels on an F1 car?"; a := ["3"; "4"; "6"]; correct := 1 |} ].

Section WithHost.

Variable H : host.

Definition new_button (answer : string) : button :=
  {| btn_text := answer; disabled := false; btn_classes := ["btn-secondary"; "text-sm"; "w-full"; "text-left"] |}.

Fixpoint render_questions (index : nat) (l : list question) : list question_el :=
  match l with
  | [] => []
  | question :: rest =>
      {| heading := "Q" +:+ num_toString H (Some (Z.of_nat index + 1)) +:+ ". " +:+ q question;
         buttons := map new_button (a question);
         correctIndex := correct question |}
      :: render_questions (S index) rest
  end.

Definition renderQuiz (s : quiz) : quiz :=
  match quizBox s with
  | None => s
  | Some _ =>
      {| questions := questions s; score := score s;
         quizBox := Some (render_questions 0 (questions s));
         quizResult := quizResult s |}
  end.

(** The callback of [buttons.forEach] in [handleAnswer], along the
    buttons from [index] on; the score is threaded through. *)
Fixpoint mark_buttons (selectedIndex : nat) (correctIndex : Z) (index : nat)
    (l : list button) (score : Z) : list button * Z :=
  match l with
  | [] => ([], score)
  | btn :: rest =>
      let is_correct := Z.of_nat index =? correctIndex in
      let is_selected := Nat.eqb index selectedIndex in
      let btn' :=
        {| btn_text := btn_text btn; disabled := true;
           btn_classes :=
             if is_correct then add_class "bg-green-600" (btn_classes btn)
             else if is_selected then add_class "bg-red-600" (btn_classes btn)
             else btn_classes btn |} in
      let score' := if is_correct && is_selected then score + 1 else score in
      let '(rest', score'') := mark_buttons selectedIndex correctIndex (S index) rest score' in
      (btn' :: rest', score'')
  end.

(** [handleAnswer(questionEl, selectedIndex, correctIndex)] for the
    question element at position [questionEl] of the box. *)
Definition handleAnswer (questionEl selectedIndex : nat) (correctIndex : Z) (s : quiz) : quiz :=
  match quizBox s with
  | None => s
  | Some box =>
      match nth_error box questionEl with
      | None => s
      | Some el =>
          let '(marked, score') :=
            mark_buttons selectedIndex correctIndex 0 (buttons el) (score s) in
          let el' := {| heading := heading el; buttons := marked;
                        correctIndex := QuizSystem.correctIndex el |} in
          {| questions := questions s; score := score';
             quizBox := Some (update_nth questionEl (fun _ => el') box);
             quizResult :=
               match quizResult s with
               | Some _ =>
                   Some ("Score: " +:+ num_toString H (Some score') +:+ "/"
                         +:+ num_toString H (Some (Z.of_nat (length (questions s)))))
               | None => None
               end |}
      end
  end.

(** A click on a button runs its listener; a disabled button gets no
    click. *)
Inductive click : quiz -> quiz -> Prop :=
| click_button s box questionEl el selectedIndex btn :
    quizBox s = Some box ->
    nth_error box questionEl = Some el ->
    nth_error (buttons el) selectedIndex = Some btn ->
    disabled btn = false ->
    click s (handleAnswer questionEl selectedIndex (correctIndex el) s).

(** The quiz after the constructor has run on a page. *)
Definition constructed (box : option (list question_el)) (result : option string) : quiz :=
  renderQuiz {| questions := the_questions; score := 0; quizBox := box;
                quizResult := result |}.

Inductive quiz_reachable : quiz -> Prop :=
| quiz_reachable_constructed box result : quiz_reachable (constructed box result)
| quiz_reachable_click s s' : quiz_reachable s -> click s s' -> quiz_reachable s'.

End WithHost.

(** A question that has been answered: one of its buttons is disabled. *)
Definition answered (el : question_el) : bool := existsb disabled (buttons el).

Definition answered_count (s : quiz) : nat :=
  match quizBox s with
  | Some box => length (List.filter answered box)
  | None => O
  end.

(** The buttons of a question are disabled together. *)
Definition all_or_none (el : question_el) : bool :=
  negb (answered el) || forallb disabled (buttons el).

(** The score counts answered questions only, and the box holds one
    element per question. *)
Definition quiz_inv (s : quiz) : Prop :=
  0 <= score s <= Z.of_nat (answered_count s)
  /\ match quizBox s with
     | Some box =>
         forallb all_or_none box = true /\ length box = length (questions s)
     | None => True
     end.

End QuizSystem.

(** ** The news carousel ([loadNews], [getMockNewsData], [getNewsEmoji],
    [renderNewsCarousel] and [setupCarouselControls] in public/main.js) *)

Module NewsCarousel.

(** An entry of [newsData], as the values that the slide interpolates. *)
Record item : Type := {
  title : value;
  summary : value;
  image : shown;
  category : shown;
  url : value
}.

(** A slide: the interpolated texts, whether it carries the LIVE mark,
    and the address interpolated into the [window.open] call of its
    [onclick] attribute ([None]: the attribute clicks the link to the
    blogs section instead). *)
Record slide : Type := {
  slide_image : shown;
  slide_category : shown;
  slide_live : bool;
  slide_title : string;
  slide_summary : string;
  slide_opens : option string
}.

(** The closure state of one call of [setupCarouselControls]. *)
Record controls : Type := {
  totalSlides : Z;
  currentIndex : number
}.

(** [#carouselTrack] (its children and the transform last assigned to
    it), [#newsUpdateTime], and the controls set up so far, each with its
    listeners and its timer. *)
Record carousel_page : Type := {
  carouselTrack : option (list slide * string);
  newsUpdateTime : option string;
  carousels : list controls
}.

Definition emojiMap : list (string * string) :=
  [("autosport", "🏎️"); ("skyf1", "📺"); ("f1", "🏁"); ("bbc", "📰"); ("espn", "⚡")].

Definition categoryMap : list (string * string) :=
  [("autosport", "Race News"); ("skyf1", "Sky Sports F1"); ("f1", "Official F1");
   ("bbc", "BBC Sport"); ("espn", "ESPN F1")].

Definition getMockNewsData : list item :=
  [ {| title := VStr "Verstappen Dominates Saudi Arabian GP";
       summary := VStr "Red Bull's Max Verstappen secures another commanding victory in Jeddah";
       image := Text "🏎️"; category := Text "Race Results"; url := VStr "#blogs" |};
    {| title := VStr "New Regulations for 2025 Season";
       summary := VStr "FIA announces updated technical regulations focusing on sustainability";
       image := Text "📋"; category := Text "Regulations"; url := VStr "#blogs" |};
    {| title := VStr "Hamilton's Move to Ferrari Confirmed";
       summary := VStr "Seven-time world champion makes historic switch to Scuderia Ferrari";
       image := Text "🔴"; category := Text "Driver News"; url := VStr "#blogs" |};
    {| title := VStr "Nairobi Watch Party Venues Announced";
       summary := VStr "Check out the best spots to watch F1 races in Kenya's capital";
       image := Text "🏁"; category := Text "Community"; url := VStr "#blogs" |} ].

Section WithHost.

Variable H : host.

(** [emojiMap[source] || '📰']; the key is the string conversion of
    [source]. *)
Definition getNewsEmoji (source : value) : shown :=
  table_or emojiMap (ToString H source) (Text "📰").

(** The callback of [map] in [loadNews]. *)
Definition item_of (news : value) : result item :=
  newsTitle <- get news "title" ;;
  source <- get news "source" ;;
  newsUrl <- get news "url" ;;
  Ok {| title := if truthy newsTitle then newsTitle else VStr "F1 News";
        summary := if truthy newsTitle then newsTitle else VStr "Latest Formula 1 updates";
        image := getNewsEmoji source;
        category :=
          table_or categoryMap (ToString H source)
            (if truthy source then Text (ToString H source) else Text "F1 News");
        url := if truthy newsUrl then newsUrl else VStr "#" |}.

(** The callback of [forEach] in [renderNewsCarousel]: only a string has
    the method [startsWith]. *)
Definition slide_of (isLiveData : bool) (news : item) : result slide :=
  let newsUrl := if truthy (url news) then url news else VStr "#blogs" in
  match newsUrl with
  | VStr u =>
      let isExternal := String.prefix "http" u in
      Ok {| slide_image := image news;
            slide_category := category news;
            slide_live := isLiveData;
            slide_title := ToString H (title news);
            slide_summary := ToString H (summary news);
            slide_opens := if isExternal then Some u else None |}
  | _ => Throw TypeError
  end.

(** [`translateX(-${currentIndex * 100}%)`]. *)
Definition transform_of (currentIndex : number) : string :=
  "translateX(-" +:+ num_toString H (num_mul currentIndex 100) +:+ "%)".

Definition set_track (children : list slide) (transform : string) (p : carousel_page)
  : carousel_page :=
  {| carouselTrack := Some (children, transform); newsUpdateTime := newsUpdateTime p;
     carousels := carousels p |}.

Definition setupCarouselControls (p : carousel_page) : carousel_page :=
  match carouselTrack p with
  | None => p
  | Some (children, _) =>
      let c := {| totalSlides := Z.of_nat (length children); currentIndex := Some 0 |} in
      {| carouselTrack := Some (children, transform_of (currentIndex c));
         newsUpdateTime := newsUpdateTime p;
         carousels := carousels p ++ [c] |}
  end.

(** The slides are appended one by one; an exception leaves the ones
    appended so far. *)
Fixpoint append_slides (isLiveData : bool) (newsData : list item) (p : carousel_page)
  : result unit * carousel_page :=
  match newsData with
  | [] => (Ok tt, p)
  | news :: rest =>
      match slide_of isLiveData news with
      | Throw e => (Throw e, p)
      | Ok s =>
          match carouselTrack p with
          | Some (children, transform) =>
              append_slides isLiveData rest (set_track (children ++ [s]) transform p)
          | None => append_slides isLiveData rest p
          end
      end
  end.

Definition renderNewsCarousel (newsData : list item) (isLiveData : bool) (p : carousel_page)
  : result unit * carousel_page :=
  match carouselTrack p with
  | None => (Ok tt, p)
  | Some (_, transform) =>
      match append_slides isLiveData newsData (set_track [] transform p) with
      | (Ok _, p') => (Ok tt, setupCarouselControls p')
      | (Throw e, p') => (Throw e, p')
      end
  end.

(** [response] is the outcome of the request, its [json] the outcome of
    [JSON.parse] on the text of the body; [clock] is the text of
    [new Date().toLocaleTimeString()]. *)
Definition loadNews (response : result response) (clock : string) (p : carousel_page)
  : result unit * carousel_page :=
  let live : result bool * carousel_page :=
    match (res <- response ;;
           if negb (ok res) then
             Throw (Error ("HTTP error! status: " +:+ num_toString H (Some (status res))))
           else json res) with
    | Throw e => (Throw e, p)
    | Ok apiNews =>
        match apiNews with
        | VArr (first :: others) =>
            match mapM item_of (firstn 4 (first :: others)) with
            | Throw e => (Throw e, p)
            | Ok newsData =>
                let p1 :=
                  match newsUpdateTime p with
                  | Some _ =>
                      {| carouselTrack := carouselTrack p;
                         newsUpdateTime := Some ("Updated: " +:+ clock);
                         carousels := carousels p |}
                  | None => p
                  end in
                match renderNewsCarousel newsData true p1 with
                | (Ok _, p2) => (Ok true, p2)
                | (Throw e, p2) => (Throw e, p2)
                end
            end
        | _ => (Ok false, p)
        end
    end in
  match live with
  | (Ok true, p') => (Ok tt, p')
  | (_, p') => renderNewsCarousel getMockNewsData false p'
  end.

(** The live slides, when the request, the conversion of the first four
    entries and their rendering all succeed. *)
Definition live_slides (response : result response) : option (list slide) :=
  match response with
  | Ok res =>
      if ok res then
        match json res with
        | Ok (VArr (first :: others)) =>
            match mapM item_of (firstn 4 (first :: others)) with
            | Ok newsData =>
                match mapM (slide_of true) newsData with
                | Ok slides => Some slides
                | Throw _ => None
                end
            | Throw _ => None
            end
        | _ => None
        end
      else None
  | Throw _ => None
  end.

(** The hardcoded entries, rendered. *)
Definition mock_rendered : list slide :=
  map (fun news =>
         {| slide_image := image news; slide_category := category news;
            slide_live := false; slide_title := ToString H (title news);
            slide_summary := ToString H (summary news); slide_opens := None |})
      getMockNewsData.

(** The text of [#newsUpdateTime] once live entries are converted. *)
Definition updated (clock : string) (p : carousel_page) : option string :=
  match newsUpdateTime p with
  | Some _ => Some ("Updated: " +:+ clock)
  | None => None
  end.

(** The controls that [setupCarouselControls] creates for a number of
    slides. *)
Definition new_controls (slides : nat) : controls :=
  {| totalSlides := Z.of_nat slides; currentIndex := Some 0 |}.

(** The listeners and the timer callback of a carousel. *)
Definition prev (c : controls) : controls :=
  {| totalSlides := totalSlides c;
     currentIndex :=
       num_rem (num_add (num_add (currentIndex c) (-1)) (totalSlides c)) (totalSlides c) |}.

Definition next (c : controls) : controls :=
  {| totalSlides := totalSlides c;
     currentIndex := num_rem (num_add (currentIndex c) 1) (totalSlides c) |}.

End WithHost.

(** An entry of the API answer that [loadNews] can show: it is not [null],
    and its [url], when it has one, is a string. *)
Definition showable (news : value) : bool :=
  negb (nullish news)
  && match get_opt news "url" with
     | VStr _ => true
     | newsUrl => negb (truthy newsUrl)
     end.

(** What happens to a carousel: a click on either button, or its timer,
    which only runs when there are slides. *)
Inductive event : Type := PrevClick | NextClick | AutoAdvance.

Definition handle (e : event) (c : controls) : controls :=
  match e with
  | PrevClick => prev c
  | NextClick => next c
  | AutoAdvance => if 0 <? totalSlides c then next c else c
  end.

Definition is_click (e : event) : bool :=
  match e with PrevClick | NextClick => true | AutoAdvance => false end.

(** A carousel whose index is the index of one of its slides. *)
Definition index_in_range (c : controls) : Prop :=
  exists i, currentIndex c = Some i /\ 0 <= i < totalSlides c.

(** The controls as [setupCarouselControls] creates them, after some
    events. *)
Definition after_events (slides : nat) (events : list event) : controls :=
  fold_left (fun c e => handle e c) events (new_controls slides).

End NewsCarousel.

(** ** The watch-party venues ([loadVenues] and [renderVenues] in
    public/main.js) *)

Module Venues.

(** A card of [#venuesList], as the texts interpolated into its markup:
    the image (source and alternative text) when the venue has one, and
    the chips of the amenities (none: the block is left out). *)
Record venue_card : Type := {
  card_image : option (string * string);
  card_name : string;
  card_location : string;
  card_description : string;
  card_capacity : string;
  card_amenities : list string
}.

(** The venues of the fallback. *)
Definition fallback_venues : list value :=
  [ VObj [("name", VStr "K1 Klubhouse"); ("location", VStr "Westlands, Nairobi");
          ("city", VStr "Nairobi");
          ("description", VStr "Premium sports bar with large screens and great atmosphere");
          ("capacity", VStr "50+ people");
          ("amenities", VArr [VStr "Large Screens"; VStr "Food & Drinks"; VStr "Parking"])];
    VObj [("name", VStr "Brew Bistro"); ("location", VStr "Lavington, Nairobi");
          ("city", VStr "Nairobi");
          ("description", VStr "Cozy venue with craft beer and F1 fan community");
          ("capacity", VStr "30+ people");
          ("amenities", VArr [VStr "Craft Beer"; VStr "Snacks"; VStr "WiFi"])];
    VObj [("name", VStr "Tamarind Mombasa"); ("location", VStr "Mombasa");
          ("city", VStr "Mombasa");
          ("description", VStr "Beachfront venue with ocean views during races");
          ("capacity", VStr "40+ people");
          ("amenities", VArr [VStr "Ocean View"; VStr "Fresh Seafood"; VStr "AC"])];
    VObj [("name", VStr "Sky Lounge Kampala"); ("location", VStr "Kampala, Uganda");
          ("city", VStr "Kampala");
          ("description", VStr "Rooftop venue with city views and premium experience");
          ("capacity", VStr "60+ people");
          ("amenities", VArr [VStr "Rooftop"; VStr "Premium Bar"; VStr "City Views"])] ].

Section WithHost.

Variable H : host.

(** [String.prototype.trim]. *)
Variable trim : string -> string.

(** [amenities.length > 0 ? amenities.map(...) : '']: only an array has
    the method [map]. *)
Definition chips (amenities : value) : result (list string) :=
  len <- get amenities "length" ;;
  if gt0 H len then
    items <- as_array amenities ;;
    Ok (map (ToString H) items)
  else Ok [].

(** The callback of [forEach] in [renderVenues]. *)
Definition venue_card_of (venue : value) : result venue_card :=
  venueLocation <- get venue "location" ;;
  city <- get venue "city" ;;
  let location :=
    if truthy venueLocation then ToString H venueLocation
    else trim (ToString H (if truthy city then city else VStr EmptyString)) in
  venueAmenities <- get venue "amenities" ;;
  let amenities := if truthy venueAmenities then venueAmenities else VArr [] in
  imageUrl <- get venue "imageUrl" ;;
  name <- get venue "name" ;;
  description <- get venue "description" ;;
  capacity <- get venue "capacity" ;;
  amenityChips <- chips amenities ;;
  Ok {| card_image := if truthy imageUrl then Some (ToString H imageUrl, ToString H name)
                      else None;
        card_name := ToString H name;
        card_location := location;
        card_description := ToString H description;
        card_capacity := ToString H capacity;
        card_amenities := amenityChips |}.

(** The cards are appended one by one to the list [cards]; an exception
    leaves the ones appended so far. *)
Fixpoint append_cards (venuesData : list value) (cards : list venue_card)
  : result unit * list venue_card :=
  match venuesData with
  | [] => (Ok tt, cards)
  | venue :: rest =>
      match venue_card_of venue with
      | Ok c => append_cards rest (cards ++ [c])
      | Throw e => (Throw e, cards)
      end
  end.

(** The state is the list of cards in [#venuesList], [None] when the page
    has no such element. *)
Definition renderVenues (venuesData : value) (venuesList : option (list venue_card))
  : result unit * option (list venue_card) :=
  match venuesList with
  | None => (Ok tt, None)
  | Some _ =>
      match as_array venuesData with
      | Throw e => (Throw e, Some [])
      | Ok items =>
          let '(r, cards) := append_cards items [] in (r, Some cards)
      end
  end.

(** [sanity] is [None] when the global of cms-client.js is not defined;
    [venues] is what [sanity.getVenues()] resolves or rejects with. *)
Definition loadVenues (sanity : option JoinClub.SanityClient) (venues : result value)
    (venuesList : option (list venue_card)) : result unit * option (list venue_card) :=
  let attempt : result bool * option (list venue_card) :=
    match sanity with
    | Some client =>
        if negb (String.eqb (JoinClub.projectId client) "YOUR_PROJECT_ID") then
          match venues with
          | Throw e => (Throw e, venuesList)
          | Ok venuesData =>
              match (Ok venuesData &&& (len <- get venuesData "length" ;;
                                        Ok (VBool (gt0 H len)))) with
              | Throw e => (Throw e, venuesList)
              | Ok c =>
                  if truthy c then
                    match renderVenues venuesData venuesList with
                    | (Ok _, l) => (Ok true, l)
                    | (Throw e, l) => (Throw e, l)
                    end
                  else (Ok false, venuesList)
              end
          end
        else (Ok false, venuesList)
    | None => (Ok false, venuesList)
    end in
  match attempt with
  | (Ok true, l) => (Ok tt, l)
  | (_, l) => renderVenues (VArr fallback_venues) l
  end.

(** The cards of the fallback. *)
Definition fallback_cards : list venue_card :=
  match mapM venue_card_of fallback_venues with
  | Ok cards => cards
  | Throw _ => []
  end.

End WithHost.

End Venues.

(** [trim] for the reference host: blanks of the ASCII range. *)
Definition ref_trim (s : string) : string :=
  string_of_list_ascii
    (rev (Ref.skip_spaces (rev (Ref.skip_spaces (list_ascii_of_string s))))).

(** ** The news page ([BlogPage] in public/main.js) *)

(** [s.replace(pat, rep)] for strings: the first occurrence only. *)
Fixpoint replace_first (pat rep s : string) : string :=
  if String.prefix pat s then rep +:+ string_skip (String.length pat) s
  else match s with
       | EmptyString => EmptyString
       | String c rest => String c (replace_first pat rep rest)
       end.

(** [classList.add] and [classList.remove] with several classes. *)
Definition add_classes (cs l : list string) : list string :=
  fold_left (fun l c => add_class c l) cs l.

Definition remove_classes (cs l : list string) : list string :=
  fold_left (fun l c => remove_class c l) cs l.

(** An element is shown when it does not have the class [hidden]. *)
Definition shown_classes (l : list string) : bool := negb (existsb (String.eqb "hidden") l).

Module BlogPage.

(** *** The two tabs *)

(** The classes of the two tab buttons and of the two panels, each
    [None] when the page has no such element, and [this.currentTab]. *)
Record tabs : Type := {
  f1NewsTab : option (list string);
  nashfyNewsTab : option (list string);
  f1NewsContent : option (list string);
  nashfyNewsContent : option (list string);
  currentTab : string
}.

Definition active_classes : list string :=
  ["active"; "border-b-2"; "border-orange-500"; "text-blue-900"].

Definition activate (l : list string) : list string :=
  remove_class "text-blue-600" (add_classes active_classes l).

Definition deactivate (l : list string) : list string :=
  add_class "text-blue-600" (remove_classes active_classes l).

Definition switchTab (tabName : string) (t : tabs) : tabs :=
  if String.eqb tabName "f1News" then
    {| f1NewsTab := option_map activate (f1NewsTab t);
       nashfyNewsTab := option_map deactivate (nashfyNewsTab t);
       f1NewsContent := option_map (remove_class "hidden") (f1NewsContent t);
       nashfyNewsContent := option_map (add_class "hidden") (nashfyNewsContent t);
       currentTab := tabName |}
  else
    {| f1NewsTab := option_map deactivate (f1NewsTab t);
       nashfyNewsTab := option_map activate (nashfyNewsTab t);
       f1NewsContent := option_map (add_class "hidden") (f1NewsContent t);
       nashfyNewsContent := option_map (remove_class "hidden") (nashfyNewsContent t);
       currentTab := tabName |}.

(** A tab button that, when the page has it, is marked active or not as
    [b] says: it has the class [active] exactly when it does not have the
    class [text-blue-600]. *)
Definition tab_marked (b : bool) (el : option (list string)) : Prop :=
  match el with
  | Some l =>
      existsb (String.eqb "active") l = b
      /\ existsb (String.eqb "text-blue-600") l = negb b
  | None => True
  end.

(** *** The news of the API *)

(** A card of [#f1NewsList], as the texts interpolated into its markup. *)
Record f1_card : Type := {
  number : Z;
  source : string;
  link : string;
  headline : string
}.

(** The children of [#f1NewsList]: the message that there is no news, or
    the cards appended so far. *)
Inductive f1_content : Type :=
| NoNews
| F1Cards (cards : list f1_card).

(** The three panels (the list with its children), the number of click
    listeners on the retry button, [this.f1NewsData], and the number of
    calls of [loadF1News] that wait for their answer. *)
Record f1_state : Type := {
  loadingEl : option (list string);
  errorEl : option (list string);
  newsListEl : option (list string * f1_content);
  retryBtn : option nat;
  f1NewsData : list value;
  in_flight : nat
}.

Section WithHost.

Variable H : host.

(** The callback of [forEach] in [renderF1News]. *)
Definition f1_card_of (news : value) (index : nat) : result f1_card :=
  newsSource <- get news "source" ;;
  newsUrl <- get news "url" ;;
  newsTitle <- get news "title" ;;
  Ok {| number := Z.of_nat index + 1;
        source := ToString H (if truthy newsSource then newsSource else VStr "F1 News");
        link := ToString H newsUrl;
        headline := ToString H newsTitle |}.

Fixpoint append_f1_cards (newsData : list value) (index : nat) (cards : list f1_card)
  : result unit * list f1_card :=
  match newsData with
  | [] => (Ok tt, cards)
  | news :: rest =>
      match f1_card_of news index with
      | Ok c => append_f1_cards rest (S index) (cards ++ [c])
      | Throw e => (Throw e, cards)
      end
  end.

(** [renderF1News(newsData)] on the children of the list. *)
Definition renderF1News (newsData : list value) : result unit * f1_content :=
  match newsData with
  | [] => (Ok tt, NoNews)
  | _ =>
      let '(r, cards) := append_f1_cards (firstn 20 newsData) 0 [] in
      (r, F1Cards cards)
  end.

(** [loadF1News] up to its first [await]. *)
Definition loadF1News_start (s : f1_state) : f1_state :=
  {| loadingEl := option_map (remove_class "hidden") (loadingEl s);
     errorEl := option_map (add_class "hidden") (errorEl s);
     newsListEl := option_map (fun '(l, c) => (add_class "hidden" l, c)) (newsListEl s);
     retryBtn := retryBtn s;
     f1NewsData := f1NewsData s;
     in_flight := S (in_flight s) |}.

(** The [catch] block. *)
Definition show_error (data : list value) (newsList : option (list string * f1_content))
    (s : f1_state) : f1_state :=
  {| loadingEl := option_map (add_class "hidden") (loadingEl s);
     errorEl := option_map (remove_class "hidden") (errorEl s);
     newsListEl := newsList;
     retryBtn := option_map S (retryBtn s);
     f1NewsData := data;
     in_flight := pred (in_flight s) |}.

(** [loadF1News] from the answer of the request on; [json] is the outcome
    of [JSON.parse] on the text of the body. *)
Definition loadF1News_settle (response : result response) (s : f1_state) : f1_state :=
  match (res <- response ;;
         if negb (ok res) then
           Throw (Error ("HTTP error! status: " +:+ num_toString H (Some (status res))))
         else json res) with
  | Throw _ => show_error (f1NewsData s) (newsListEl s) s
  | Ok newsData =>
      let data := match newsData with VArr items => items | _ => [] end in
      match newsListEl s with
      | None =>
          {| loadingEl := option_map (add_class "hidden") (loadingEl s);
             errorEl := errorEl s; newsListEl := None; retryBtn := retryBtn s;
             f1NewsData := data; in_flight := pred (in_flight s) |}
      | Some (l, _) =>
          match renderF1News data with
          | (Ok _, content) =>
              {| loadingEl := option_map (add_class "hidden") (loadingEl s);
                 errorEl := errorEl s;
                 newsListEl := Some (remove_class "hidden" l, content);
                 retryBtn := retryBtn s;
                 f1NewsData := data; in_flight := pred (in_flight s) |}
          | (Throw _, content) => show_error data (Some (l, content)) s
          end
      end
  end.

(** A click on the retry button: each of its listeners is removed and
    starts a load. *)
Definition retry_click (s : f1_state) : f1_state :=
  match retryBtn s with
  | None => s
  | Some listeners =>
      Nat.iter listeners loadF1News_start
        {| loadingEl := loadingEl s; errorEl := errorEl s; newsListEl := newsListEl s;
           retryBtn := Some O; f1NewsData := f1NewsData s; in_flight := in_flight s |}
  end.

(** The news page once the constructor has started the first load, on a
    page with the given elements. *)
Definition f1_constructed (loading error : option (list string))
    (newsList : option (list string * f1_content)) (retry : bool) : f1_state :=
  loadF1News_start
    {| loadingEl := loading; errorEl := error; newsListEl := newsList;
       retryBtn := if retry then Some O else None;
       f1NewsData := []; in_flight := O |}.

Inductive f1_step : f1_state -> f1_state -> Prop :=
| f1_settle response s :
    (0 < in_flight s)%nat -> f1_step s (loadF1News_settle response s)
| f1_retry s : f1_step s (retry_click s).

Inductive f1_reachable : f1_state -> Prop :=
| f1_reachable_constructed loading error newsList retry :
    f1_reachable (f1_constructed loading error newsList retry)
| f1_reachable_step s s' : f1_reachable s -> f1_step s s' -> f1_reachable s'.

End WithHost.

(** The number of listeners on the retry button. *)
Definition listeners (s : f1_state) : nat :=
  match retryBtn s with Some n => n | None => O end.

(** An element that, when the page has it, is shown or not as [b] says. *)
Definition panel (b : bool) (el : option (list string)) : Prop :=
  match el with
  | Some l => shown_classes l = b
  | None => True
  end.

Definition list_classes (s : f1_state) : option (list string) :=
  option_map fst (newsListEl s).

(** While a load waits for its answer, only the loading panel is shown
    and the retry button has no listener; otherwise the loading panel is
    hidden, and either the list is shown, or the error panel is shown and
    the retry button, if the page has one, has exactly one listener. *)
Definition f1_inv (s : f1_state) : Prop :=
  (in_flight s = 1%nat /\ listeners s = O
   /\ panel true (loadingEl s) /\ panel false (errorEl s) /\ panel false (list_classes s))
  \/ (in_flight s = O /\ panel false (loadingEl s)
      /\ ((listeners s = O /\ panel false (errorEl s) /\ panel true (list_classes s))
          \/ ((retryBtn s = None \/ retryBtn s = Some 1%nat)
              /\ panel true (errorEl s) /\ panel false (list_classes s)))).

(** *** The news of the community *)

(** A card of [#nashfyNewsList], as the texts interpolated into its
    markup. *)
Record post_card : Type := {
  post_icon : shown;
  post_colors : shown;
  post_label : string;
  post_location : string;
  post_title : string;
  post_content : string;
  post_author : string;
  post_date : string;
  post_reactions : list string
}.

Definition typeIcons : list (string * string) :=
  [("fan-reaction", "💬"); ("gossip", "🤫"); ("watch-party", "🎉"); ("fan-opinion", "💭")].

Definition typeColors : list (string * string) :=
  [("fan-reaction", "bg-blue-100 text-blue-700");
   ("gossip", "bg-purple-100 text-purple-700");
   ("watch-party", "bg-orange-100 text-orange-700");
   ("fan-opinion", "bg-green-100 text-green-700")].

(** The posts of [loadNashfyNewsFallback]. *)
Definition nashfyNewsData : list value :=
  [
    VObj [("type", VStr "fan-reaction");
          ("title", VStr "Saudi Arabian GP - Fan Reactions");
          ("content", VStr "The energy at K1 Klubhouse was electric! Verstappen fans were celebrating while Lando supporters were thrilled with his podium finish. The crowd went wild during that final lap battle!");
          ("author", VStr "Community Reporter");
          ("date", VStr "March 8, 2025");
          ("location", VStr "Nairobi, Kenya");
          ("reactions", VArr [VStr "🔥"; VStr "🏎️"; VStr "💪"])];
    VObj [("type", VStr "gossip");
          ("title", VStr "Rumors: Hamilton-Ferrari Chemistry");
          ("content", VStr "Word around the paddock is that Lewis is already making waves at Ferrari. Some insiders say the team dynamic is shifting, and we might see a different strategy approach this season.");
          ("author", VStr "F1 Insider");
          ("date", VStr "March 7, 2025");
          ("location", VStr "East Africa F1 Community");
          ("reactions", VArr [VStr "🤫"; VStr "🔴"; VStr "💭"])];
    VObj [("type", VStr "watch-party");
          ("title", VStr "Mombasa Watch Party Recap");
          ("content", VStr "Tamarind Mombasa hosted an amazing watch party! Over 40 fans gathered, enjoying fresh seafood while watching the race. The ocean view made it even more special. Already planning the next one!");
          ("author", VStr "Event Coordinator");
          ("date", VStr "March 8, 2025");
          ("location", VStr "Mombasa, Kenya");
          ("reactions", VArr [VStr "🌊"; VStr "🍽️"; VStr "🎉"])];
    VObj [("type", VStr "fan-opinion");
          ("title", VStr "Why East Africa Needs More F1 Coverage");
          ("content", VStr "As a long-time F1 fan in Kenya, I believe we need better local coverage. The passion is here, but we need more accessible content in our timezone and language. What do you think?");
          ("author", VStr "Kipchoge M.");
          ("date", VStr "March 6, 2025");
          ("location", VStr "Nairobi, Kenya");
          ("reactions", VArr [VStr "💬"; VStr "📺"; VStr "🌍"])];
    VObj [("type", VStr "gossip");
          ("title", VStr "Red Bull Dominance - Is It Sustainable?");
          ("content", VStr "Everyone is talking about Red Bull's continued dominance. Some fans think the regulations need adjustment, while others believe it's just superior engineering. The debate is heating up in our community!");
          ("author", VStr "F1 Analyst");
          ("date", VStr "March 5, 2025");
          ("location", VStr "East Africa F1 Community");
          ("reactions", VArr [VStr "⚡"; VStr "🏆"; VStr "🤔"])];
    VObj [("type", VStr "watch-party");
          ("title", VStr "Kampala Rooftop Experience");
          ("content", VStr "Sky Lounge Kampala delivered an incredible experience! The rooftop setting with city views was perfect. Great turnout, amazing atmosphere, and the race was absolutely thrilling. Can't wait for the next GP!");
          ("author", VStr "Event Organizer");
          ("date", VStr "March 8, 2025");
          ("location", VStr "Kampala, Uganda");
          ("reactions", VArr [VStr "🏙️"; VStr "✨"; VStr "🎊"])];
    VObj [("type", VStr "fan-reaction");
          ("title", VStr "Charles Leclerc's Podium - Fan Celebration");
          ("content", VStr "Ferrari fans in Dar es Salaam were ecstatic! Charles finally got that podium finish. The watch party erupted when he crossed the line. This is what F1 community is all about!");
          ("author", VStr "Community Member");
          ("date", VStr "March 8, 2025");
          ("location", VStr "Dar es Salaam, Tanzania");
          ("reactions", VArr [VStr "🔴"; VStr "🏁"; VStr "🎉"])];
    VObj [("type", VStr "fan-opinion");
          ("title", VStr "The Future of F1 in Africa");
          ("content", VStr "With growing interest across East Africa, I believe we're ready for an African Grand Prix. The passion, the community, and the infrastructure are developing. It's only a matter of time!");
          ("author", VStr "F1 Enthusiast");
          ("date", VStr "March 4, 2025");
          ("location", VStr "Kigali, Rwanda");
          ("reactions", VArr [VStr "🌍"; VStr "🏎️"; VStr "🚀"])] ].

Section Posts.

Variable H : host.

(** [String.prototype.toUpperCase], and [toLocaleDateString('en-US',
    {year: 'numeric', month: 'long', day: 'numeric'})] of a date. *)
Variable toUpperCase : string -> string.
Variable toLocaleDateString : instant -> string.

(** The callback of [map] in [loadNashfyNews]: the post and the text that
    replaces its [date]. *)
Definition format_date (news : value) : result (value * value) :=
  date <- get news "date" ;;
  Ok (news, if truthy date then VStr (toLocaleDateString (new_Date H date))
            else VStr "Date TBD").

(** The callback of [forEach] in [renderNashfyNews], for a post and the
    value of its [date]: only a string has the method [replace], only an
    array the method [map]. *)
Definition post_card_of (news date : value) : result post_card :=
  type <- get news "type" ;;
  label <- match type with
           | VStr t => Ok (toUpperCase (replace_first "-" " " t))
           | _ => Throw TypeError
           end ;;
  location <- get news "location" ;;
  title <- get news "title" ;;
  content <- get news "content" ;;
  author <- get news "author" ;;
  reactions <- get news "reactions" ;;
  items <- as_array reactions ;;
  Ok {| post_icon := table_or typeIcons (ToString H type) (Text "📰");
        post_colors := table_or typeColors (ToString H type) (Text "bg-gray-100 text-gray-700");
        post_label := label;
        post_location := ToString H location;
        post_title := ToString H title;
        post_content := ToString H content;
        post_author := ToString H author;
        post_date := ToString H date;
        post_reactions := map (ToString H) items |}.

Definition post_of (formatted : value * value) : result post_card :=
  post_card_of (fst formatted) (snd formatted).

Fixpoint append_posts (newsData : list (value * value)) (cards : list post_card)
  : result unit * list post_card :=
  match newsData with
  | [] => (Ok tt, cards)
  | (news, date) :: rest =>
      match post_card_of news date with
      | Ok c => append_posts rest (cards ++ [c])
      | Throw e => (Throw e, cards)
      end
  end.

(** The state is the list of cards in [#nashfyNewsList], [None] when the
    page has no such element. *)
Definition renderNashfyNews (newsData : list (value * value))
    (newsList : option (list post_card)) : result unit * option (list post_card) :=
  match newsList with
  | None => (Ok tt, None)
  | Some _ => let '(r, cards) := append_posts newsData [] in (r, Some cards)
  end.

(** The posts of the fallback keep their dates. *)
Definition loadNashfyNewsFallback (newsList : option (list post_card))
  : result unit * option (list post_card) :=
  renderNashfyNews (map (fun news => (news, get_opt news "date")) nashfyNewsData) newsList.

(** [sanity] is [None] when the global of cms-client.js is not defined;
    [posts] is what [sanity.getBlogPosts()] resolves or rejects with. *)
Definition loadNashfyNews (sanity : option JoinClub.SanityClient) (posts : result value)
    (newsList : option (list post_card)) : result unit * option (list post_card) :=
  let attempt : result bool * option (list post_card) :=
    match sanity with
    | Some client =>
        if negb (String.eqb (JoinClub.projectId client) "YOUR_PROJECT_ID") then
          match posts with
          | Throw e => (Throw e, newsList)
          | Ok newsData =>
              match (Ok newsData &&& (len <- get newsData "length" ;;
                                      Ok (VBool (gt0 H len)))) with
              | Throw e => (Throw e, newsList)
              | Ok c =>
                  if truthy c then
                    match (items <- as_array newsData ;; mapM format_date items) with
                    | Throw e => (Throw e, newsList)
                    | Ok formattedNews =>
                        match renderNashfyNews formattedNews newsList with
                        | (Ok _, l) => (Ok true, l)
                        | (Throw e, l) => (Throw e, l)
                        end
                    end
                  else (Ok false, newsList)
              end
          end
        else (Ok false, newsList)
    | None => (Ok false, newsList)
    end in
  match attempt with
  | (Ok true, l) => (Ok tt, l)
  | (_, l) => loadNashfyNewsFallback l
  end.

(** The cards of the fallback. *)
Definition fallback_posts : list post_card :=
  match mapM post_of (map (fun news => (news, get_opt news "date")) nashfyNewsData) with
  | Ok cards => cards
  | Throw _ => []
  end.

End Posts.

End BlogPage.

(** ** The season controls ([setupScheduleControls] in public/main.js) *)

Section ScheduleControls.

Variable H : host.

(** The listener of [change] on [#seasonSelect]; [selected] is the value
    of the select.  The load is not awaited. *)
Definition seasonSelect_change (E : env) (selected : string) : M unit :=
  let year := parseInt H (VStr selected) in
  detached (loadRaceSchedule H E year).

(** The listener of [click] on [#refreshSchedule]; [seasonSelect] is the
    value of the select, [None] when the page has no select. *)
Definition refreshSchedule_click (E : env) (seasonSelect : option string) : M unit :=
  let selected := match seasonSelect with
                  | Some v => VStr v
                  | None => VUndefined
                  end in
  let year := parseInt H (if truthy selected then selected else VNum 2025%Q) in
  detached (loadRaceSchedule H E year).

End ScheduleControls.

(** ** The clock ([getNowInEAT], [formatTimeHHMM] and the closure
    [updateTime] of [startLocalTime] in public/main.js) *)

Section Clock.

(** [Date.prototype.getTimezoneOffset] at a time value: the minutes that
    UTC is ahead of local time. *)
Variable getTimezoneOffset : Z -> Z.

(** The text of hours and minutes, in the format of [formatTimeHHMM], of
    a local time value (the milliseconds from the epoch to the reading of
    the local clock). *)
Variable format_HHMM : Z -> string.

(** The local time value of a time value. *)
Definition local_time (t : Z) : Z := t - getTimezoneOffset t * 60000.

(** [now] is the time value of [new Date()]. *)
Definition getNowInEAT (now : Z) : instant :=
  let utc := now + getTimezoneOffset now * 60000 in
  TimeClip (utc + Ref.EAT_OFFSET_MINUTES * 60000).

(** [toLocaleTimeString] reads the local clock at the date. *)
Definition formatTimeHHMM (date : instant) : string :=
  match date with
  | Some t => format_HHMM (local_time t)
  | None => "Invalid Date"
  end.

(** The closure [updateTime], on the text of [#localTime]. *)
Definition updateTime (now : Z) (localTime : option string) : option string :=
  match localTime with
  | Some _ => Some (formatTimeHHMM (getNowInEAT now))
  | None => None
  end.

End Clock.

(** [format_HHMM] for the reference host: two digits each for the hour
    and the minute of the day of a local time value. *)
Definition ref_format_HHMM (t : Z) : string :=
  let minutes := (t / ms_minute) mod (24 * 60) in
  pad2 (num_toString Ref.ref_host (Some (minutes / 60))) +:+ ":"
  +:+ pad2 (num_toString Ref.ref_host (Some (minutes mod 60))).

(** [toUpperCase] for the reference host: the letters of the ASCII range. *)
Definition ref_toUpperCase (s : string) : string :=
  string_of_list_ascii
    (map (fun c => let n := nat_of_ascii c in
                   if ((97 <=? n) && (n <=? 122))%nat then ascii_of_nat (n - 32) else c)
         (list_ascii_of_string s)).

Definition month_names : list string :=
  ["January"; "February"; "March"; "April"; "May"; "June"; "July"; "August";
   "September"; "October"; "November"; "December"].

(** The month and the day of the month of the day [doy] (from 0) of the
    year [y], looking through the months from [months] on. *)
Fixpoint month_and_day (y : Z) (months : list Z) (doy : Z) : Z * Z :=
  match months with
  | [] => (12, doy + 1)
  | m :: rest =>
      let n := Ref.days_in_month y m in
      if doy <? n then (m, doy + 1) else month_and_day y rest (doy - n)
  end.

(** [toLocaleDateString('en-US', {year: 'numeric', month: 'long', day:
    'numeric'})] for the reference host, whose local time is East Africa
    Time. *)
Definition ref_toLocaleDateString (d : instant) : string :=
  match d with
  | None => "Invalid Date"
  | Some t =>
      let days := (t + Ref.EAT_OFFSET_MINUTES * 60000) / Ref.ms_per_day in
      let y := Ref.year_of_days days in
      let '(m, day) :=
        month_and_day y [1; 2; 3; 4; 5; 6; 7; 8; 9; 10; 11; 12]
          (days - Ref.days_from_civil y 1 1) in
      nth (Z.to_nat (m - 1)) month_names EmptyString +:+ " " +:+ Ref.Z_to_string day
      +:+ ", " +:+ Ref.Z_to_string y
  end.
(** * Properties *)

(** ** Reading properties *)

Lemma get_get_opt (v : value) (k : string) :
  nullish v = false -> get v k = Ok (get_opt v k).
Proof. destruct v; simpl; intros Hn; try discriminate; reflexivity. Qed.

Lemma get_nullish (v : value) (k : string) :
  nullish v = true -> get v k = Throw TypeError.
Proof. destruct v; simpl; intros Hn; try discriminate; reflexivity. Qed.

Lemma truthy_not_nullish (v : value) : truthy v = true -> nullish v = false.
Proof. destruct v; simpl; intros Ht; try discriminate; reflexivity. Qed.

Lemma or_else_Ok (a : value) (b : result value) :
  Ok a ||| b = if truthy a then Ok a else b.
Proof. reflexivity. Qed.

(** Case analysis along a chain of [||] whose operands are all read. *)
Ltac or_cases :=
  repeat first
    [ rewrite or_else_Ok
    | match goal with
      | Et : truthy ?v = _ |- context [truthy ?v] => rewrite Et
      end
    | match goal with
      | |- context [truthy (get_opt ?r ?k)] =>
          let E := fresh "E" in destruct (truthy (get_opt r k)) eqn:E
      end ].

(** ** Removal of the timezone suffix *)

Lemma has_char_append (c : ascii) (s t : string) :
  has_char c (s +:+ t) = has_char c s || has_char c t.
Proof.
  induction s as [|a s IH]; simpl; [reflexivity|].
  rewrite IH. now rewrite orb_assoc.
Qed.

(** A pattern whose first character does not occur is not found. *)
Lemma remove_first_absent (c : ascii) (pat s : string) :
  has_char c s = false -> remove_first (String c pat) s = s.
Proof.
  induction s as [|a s IH]; simpl; [reflexivity|].
  intros Hc. apply orb_false_elim in Hc as [Hca Hcs].
  destruct (ascii_dec c a) as [->|_].
  - now rewrite Ascii.eqb_refl in Hca.
  - f_equal. apply IH, Hcs.
Qed.

Lemma string_skip_append (s t : string) :
  string_skip (String.length s) (s +:+ t) = t.
Proof. induction s as [|a s IH]; simpl; [reflexivity|apply IH]. Qed.

Lemma append_empty_r (s : string) : s +:+ EmptyString = s.
Proof.
  induction s as [|a s IH]; [reflexivity|].
  change (String a (s +:+ EmptyString) = String a s). now rewrite IH.
Qed.

Lemma prefix_append (s t : string) : String.prefix s (s +:+ t) = true.
Proof.
  induction s as [|a s IH]; simpl; [now destruct t|].
  destruct (ascii_dec a a) as [_|Hne]; [apply IH|congruence].
Qed.

(** A pattern at the end of a string in which its first character does
    not occur before is removed there. *)
Lemma remove_first_suffix (c : ascii) (pat base : string) :
  has_char c base = false ->
  remove_first (String c pat) (base +:+ String c pat) = base.
Proof.
  induction base as [|a base IH]; intros Hc.
  - pose proof (prefix_append (String c pat) EmptyString) as Hp.
    pose proof (string_skip_append (String c pat) EmptyString) as Hs.
    rewrite append_empty_r in Hp, Hs.
    change (EmptyString +:+ String c pat) with (String c pat).
    unfold remove_first at 1. fold remove_first.
    rewrite Hp. exact Hs.
  - simpl in Hc. apply orb_false_elim in Hc as [Hca Hcs].
    simpl. destruct (ascii_dec c a) as [->|_].
    + now rewrite Ascii.eqb_refl in Hca.
    + f_equal. apply IH, Hcs.
Qed.

(** ** Dates of events *)

Section DateProperties.

Variable H : host.

Ltac read_fields Hn :=
  unfold and_then, or_else; rewrite ?(get_get_opt _ _ Hn); cbn [rbind].

(** The order of [parseRaceDate].  For an event that is not [null] or
    [undefined], it takes the first of: date and time joined by "T", date
    alone, raceDate and raceTime, raceDate alone, startDate and startTime,
    startDate alone, datetime with the first "+03:00" and the first "Z"
    removed; a field counts when it is truthy.  When none of date,
    raceDate, startDate and datetime is truthy the result is the date
    2099-12-31.  Removing the suffix gives back the local date-time when
    the suffix is "Z" or "+03:00". *)
Lemma parseRaceDate_priority (race : value) :
  nullish race = false ->
  let field := get_opt race in
  let present k := truthy (field k) = true in
  let absent k := truthy (field k) = false in
  (present "date" -> present "time" ->
   parseRaceDate H race
   = Ok (Date_parse H (ToString H (field "date") +:+ "T" +:+ ToString H (field "time"))))
  /\ (present "date" -> absent "time" ->
      parseRaceDate H race = Ok (new_Date H (field "date")))
  /\ (absent "date" -> present "raceDate" -> present "raceTime" ->
      parseRaceDate H race
      = Ok (Date_parse H (ToString H (field "raceDate") +:+ "T"
                          +:+ ToString H (field "raceTime"))))
  /\ (absent "date" -> present "raceDate" -> absent "raceTime" ->
      parseRaceDate H race = Ok (new_Date H (field "raceDate")))
  /\ (absent "date" -> absent "raceDate" -> present "startDate" -> present "startTime" ->
      parseRaceDate H race
      = Ok (Date_parse H (ToString H (field "startDate") +:+ "T"
                          +:+ ToString H (field "startTime"))))
  /\ (absent "date" -> absent "raceDate" -> present "startDate" -> absent "startTime" ->
      parseRaceDate H race = Ok (new_Date H (field "startDate")))
  /\ (absent "date" -> absent "raceDate" -> absent "startDate" -> present "datetime" ->
      forall s, field "datetime" = VStr s ->
      parseRaceDate H race
      = Ok (Date_parse H (remove_first "Z" (remove_first "+03:00" s))))
  /\ (absent "date" -> absent "raceDate" -> absent "startDate" -> absent "datetime" ->
      parseRaceDate H race = Ok (Date_parse H "2099-12-31"))
  /\ (forall base, has_char "Z" base = false -> has_char "+" base = false ->
      remove_first "Z" (remove_first "+03:00" (base +:+ "Z")) = base
      /\ remove_first "Z" (remove_first "+03:00" (base +:+ "+03:00")) = base).
Proof.
  intros Hn field present absent. subst present absent field. cbv beta.
  unfold parseRaceDate.
  repeat split; intros;
    try (read_fields Hn;
         repeat match goal with
                | Ht : truthy _ = _ |- _ => rewrite Ht; cbn [rbind]
                end;
         repeat match goal with
                | |- context [truthy (get_opt race ?k)] =>
                    destruct (truthy (get_opt race k)); cbn [rbind]
                end;
         try reflexivity).
  - match goal with Hs : get_opt race "datetime" = VStr _ |- _ => rewrite Hs end.
    reflexivity.
  - rewrite (remove_first_absent "+" "03:00" (base +:+ "Z")).
    + apply (remove_first_suffix "Z" EmptyString). assumption.
    + rewrite has_char_append. simpl has_char at 2.
      match goal with Hp : has_char "+" base = false |- _ => rewrite Hp end.
      reflexivity.
  - rewrite (remove_first_suffix "+" "03:00") by assumption.
    apply remove_first_absent. assumption.
Qed.

End DateProperties.

(** An event with only a datetime field. *)
Example parseRaceDate_datetime :
  parseRaceDate Ref.ref_host (VObj [("datetime", VStr "2025-03-09T15:00:00Z")])
  = Ok (Some 1741521600000).
Proof.
  pose proof (parseRaceDate_priority Ref.ref_host
                (VObj [("datetime", VStr "2025-03-09T15:00:00Z")]) eq_refl) as P.
  cbv zeta in P.
  destruct P as (_ & _ & _ & _ & _ & _ & P & _).
  rewrite (P eq_refl eq_refl eq_refl eq_refl "2025-03-09T15:00:00Z" eq_refl).
  vm_compute. reflexivity.
Qed.

(** C2, at the failing input: the event has a date field that cannot be
    parsed.  [parseRaceDate] returns an Invalid Date, not the date
    2099-12-31 that it returns for an event without date.  The event then
    does not sort last (it stays in front of a January race), and the
    countdown skips it instead of treating it as yet to come. *)
Theorem parseRaceDate_unparsable_date :
  let race := VObj [("raceName", VStr "Qatar Grand Prix"); ("date", VStr "TBD")] in
  let january := VObj [("raceName", VStr "January Grand Prix"); ("date", VStr "2025-01-12")] in
  parseRaceDate Ref.ref_host race = Ok None
  /\ parseRaceDate Ref.ref_host (VObj [("raceName", VStr "Qatar Grand Prix")])
     = Ok (Some 4102358400000)
  /\ parseRaceDate Ref.ref_host race <> Ok (new_Date Ref.ref_host far_future)
  /\ sortByDate Ref.ref_host (VArr [race; january]) = Ok [race; january]
  /\ find_upcoming Ref.ref_host example_now [race] = Ok VUndefined.
Proof.
  intros race january. repeat split; try (vm_compute; reflexivity).
  vm_compute. discriminate.
Qed.

(** ** The year filter *)

Lemma strict_eq_true (a b : number) : strict_eq a b = true <-> exists y, a = Some y /\ b = Some y.
Proof.
  destruct a as [x|], b as [y|]; simpl; split; try discriminate;
    try (intros (z & Ha & Hb); discriminate).
  - intros Hxy. apply Z.eqb_eq in Hxy. subst. eauto.
  - intros (z & Ha & Hb). inversion Ha; inversion Hb; subst. apply Z.eqb_refl.
Qed.

Section YearProperties.

Variable H : host.

Lemma extractYearFromRace_derived (now : Z) (race : value) :
  nullish race = false -> extractYearFromRace H now race = Ok (derived_year H now race).
Proof.
  intros Hn. unfold extractYearFromRace, derived_year.
  rewrite !(get_get_opt _ _ Hn). cbn [rbind].
  repeat match goal with
         | |- context [truthy (get_opt race ?k)] =>
             destruct (truthy (get_opt race k)); cbn [rbind]
         end; reflexivity.
Qed.

Lemma filterM_pure (p : value -> result bool) (q : value -> bool) (items : list value) :
  Forall (fun x => p x = Ok (q x)) items -> filterM p items = Ok (List.filter q items).
Proof.
  induction 1 as [|x l Hx _ IH]; simpl; [reflexivity|].
  rewrite Hx. cbn [rbind]. rewrite IH. cbn [rbind]. reflexivity.
Qed.

Lemma filterByYear_filter (clock : Z) (year : number) (items : list value) :
  Forall (fun race => nullish race = false) items ->
  filterByYear H clock year (VArr items)
  = Ok (List.filter (fun race => strict_eq (derived_year H clock race) year) items).
Proof.
  intros Hitems. unfold filterByYear. cbn [as_array rbind].
  destruct (strict_eq year (getFullYear H (Some clock))) eqn:Hy; cbn [negb].
  - apply strict_eq_true in Hy as (y & Hyear & Hcur).
    apply filterM_pure. eapply List.Forall_impl; [|exact Hitems].
    intros race Hn. cbv beta in Hn |- *.
    rewrite (extractYearFromRace_derived _ _ Hn). cbn [rbind].
    now rewrite Hyear, Hcur.
  - apply filterM_pure. eapply List.Forall_impl; [|exact Hitems].
    intros race Hn. cbv beta in Hn |- *.
    now rewrite (extractYearFromRace_derived _ _ Hn).
Qed.

(** The year filter.  On the races of the rapidapi and manual-json tiers
    (and on no other), an event is kept exactly when its derived year is
    strictly equal to the requested year.  The derived year is the calendar
    year of the first truthy field among date, raceDate and startDate (NaN
    when that field is not a date), else [parseInt] of a truthy year
    field, else the current year.  An event without any of these fields is
    kept exactly when the requested year is the current year. *)
Lemma filterByYear_derived_year (clock : Z) (year : number) (items : list value) :
  Forall (fun race => nullish race = false) items ->
  filterByYear H clock year (VArr items)
  = Ok (List.filter (fun race => strict_eq (derived_year H clock race) year) items)
  /\ (forall race,
        In race items ->
        truthy (get_opt race "date") = false ->
        truthy (get_opt race "raceDate") = false ->
        truthy (get_opt race "startDate") = false ->
        truthy (get_opt race "year") = false ->
        (In race (List.filter (fun race => strict_eq (derived_year H clock race) year) items)
         <-> year = Some (Date_year H clock)))
  /\ (forall E races dataSource,
        dataSource <> "rapidapi" -> dataSource <> "manual-json" ->
        filterSource H E year races dataSource = Ok races)
  /\ (forall E dataSource,
        clock = now E ->
        dataSource = "rapidapi" \/ dataSource = "manual-json" ->
        filterSource H E year (VArr items) dataSource
        = Ok (VArr (List.filter (fun race => strict_eq (derived_year H clock race) year) items))).
Proof.
  intros Hitems.
  pose proof (filterByYear_filter clock year items Hitems) as Hfilter.
  split; [exact Hfilter|]. split; [|split].
  - intros race Hin Hd Hr Hs Hyr. rewrite filter_In.
    unfold derived_year. rewrite Hd, Hr, Hs, Hyr.
    split.
    + intros [_ Heq]. apply strict_eq_true in Heq as (y & Hy1 & Hy2).
      congruence.
    + intros ->. split; [exact Hin|]. simpl. apply Z.eqb_refl.
  - intros E races dataSource Hne1 Hne2. unfold filterSource.
    apply String.eqb_neq in Hne1, Hne2. now rewrite Hne1, Hne2.
  - intros E dataSource -> Hsrc. unfold filterSource.
    destruct Hsrc as [-> | ->]; simpl; rewrite Hfilter; reflexivity.
Qed.

End YearProperties.

(** A list spanning two years and an event without date, filtered for
    2025 when the clock reads 2025-03-09. *)
Example filterByYear_two_years :
  filterByYear Ref.ref_host example_now (Some 2025)
    (VArr [VObj [("date", VStr "2025-03-09")]; VObj [("date", VStr "2024-03-02")];
           VObj [("raceName", VStr "Test")]])
  = Ok [VObj [("date", VStr "2025-03-09")]; VObj [("raceName", VStr "Test")]].
Proof. vm_compute. reflexivity. Qed.

(** C3, at the failing input: the clock reads 2025 and the season 2025 is
    requested.  The event has a date field that cannot be parsed; its
    derived year is NaN instead of the current year, and the event is
    dropped although the requested year is the current year. *)
Theorem filterByYear_unparsable_date :
  let race := VObj [("raceName", VStr "Qatar Grand Prix"); ("date", VStr "TBD")] in
  getFullYear Ref.ref_host (Some example_now) = Some 2025
  /\ extractYearFromRace Ref.ref_host example_now race = Ok None
  /\ filterByYear Ref.ref_host example_now (Some 2025) (VArr [race]) = Ok []
  /\ filterByYear Ref.ref_host example_now (Some 2025)
       (VArr [VObj [("raceName", VStr "Qatar Grand Prix")]])
     = Ok [VObj [("raceName", VStr "Qatar Grand Prix")]].
Proof. repeat split; vm_compute; reflexivity. Qed.

(** ** The rapidapi tier *)

Section SecondaryTier.

Variable H : host.

Lemma gt0_length (items : list value) :
  gt0 H (of_nat (length items)) = true <-> items <> [].
Proof.
  destruct items as [|x l]; unfold gt0, of_nat, ToNumber, Qlt_bool, Qle_bool; simpl.
  - split; [discriminate|congruence].
  - split; [discriminate|reflexivity].
Qed.

Lemma probe_field (data : value) (k : string) (A B : result value) :
  nullish data = false ->
  (c <- get data k &&& (r <- get data k ;; Ok (VBool (isArray r))) ;;
   if truthy c then A else B)
  = if isArray (get_opt data k) then A else B.
Proof.
  intros Hn. unfold and_then. rewrite !(get_get_opt _ _ Hn). cbn [rbind].
  destruct (get_opt data k) as [| |b|q|s|l|o]; simpl; try reflexivity.
  - destruct b; reflexivity.
  - destruct (Qeq_bool q 0) eqn:Eq; simpl; rewrite ?Eq; reflexivity.
  - destruct (String.eqb s EmptyString) eqn:Es; simpl; rewrite ?Es; reflexivity.
Qed.

Lemma probe_shapes_find (data races : value) :
  probe_shapes data = Ok races <-> List.find isArray (shape_candidates data) = Some races.
Proof.
  unfold probe_shapes, shape_candidates. cbn [List.find].
  destruct (isArray data) eqn:Ha.
  - split; congruence.
  - destruct (nullish data) eqn:Hn.
    + destruct data; try discriminate; simpl; split; discriminate.
    + rewrite !(probe_field _ _ _ _ Hn), !(get_get_opt _ _ Hn).
      destruct (isArray (get_opt data "races")); [split; congruence|].
      destruct (isArray (get_opt data "data")); [split; congruence|].
      destruct (isArray (get_opt data "schedule")); split; congruence.
Qed.

Lemma someM_true (p : value -> result bool) (items : list value) :
  someM p items = Ok true
  <-> exists before x after,
        items = before ++ x :: after
        /\ Forall (fun y => p y = Ok false) before /\ p x = Ok true.
Proof.
  induction items as [|y l IH]; simpl.
  - split; [discriminate|]. intros (b & x & a & Heq & _). now destruct b.
  - destruct (p y) as [[|]|e] eqn:Hy; cbn [rbind].
    + split; [|reflexivity]. intros _. exists [], y, l. auto.
    + rewrite IH. split.
      * intros (b & x & a & -> & Hb & Hx). exists (y :: b), x, a. auto.
      * intros (b & x & a & Heq & Hb & Hx). destruct b as [|z b].
        -- simpl in Heq. inversion Heq; subst. congruence.
        -- simpl in Heq. inversion Heq; subst. inversion Hb; subst.
           exists b, x, a. auto.
    + split; [discriminate|]. intros (b & x & a & Heq & Hb & Hx).
      destruct b as [|z b]; simpl in Heq; inversion Heq; subst.
      * congruence.
      * inversion Hb; subst. congruence.
Qed.

Lemma has_valid_name_find (race : value) :
  nullish race = false ->
  has_valid_name race
  = Ok match List.find truthy (name_candidates race) with
       | Some name => strict_ne_str name "Unknown" && strict_ne_str name "unknown"
       | None => false
       end.
Proof.
  intros Hn. unfold has_valid_name, name_candidates.
  rewrite !(get_get_opt _ _ Hn). cbn [List.find].
  or_cases; cbn [rbind]; or_cases; reflexivity.
Qed.

Lemma tier2_spec (E : env) (races : value) :
  tier2 H E = Ok races
  <-> exists res data items,
        fetch_rapidapi E = Ok res /\ ok res = true /\ json res = Ok data
        /\ List.find isArray (shape_candidates data) = Some races
        /\ races = VArr items /\ items <> []
        /\ someM has_valid_name items = Ok true.
Proof.
  unfold tier2, validate_quality.
  destruct (fetch_rapidapi E) as [res|e]; cbn [rbind].
  2:{ split; [discriminate|]. intros (r & d & i & Hf & _). discriminate. }
  destruct (ok res) eqn:Hok; cbn [negb].
  2:{ split; [discriminate|]. intros (r & d & i & Hf & Hk & _).
      inversion Hf; subst. congruence. }
  destruct (json res) as [data|e] eqn:Hj; cbn [rbind].
  2:{ split; [discriminate|]. intros (r & d & i & Hf & _ & Hd & _).
      inversion Hf; subst. congruence. }
  destruct (probe_shapes data) as [found|e] eqn:Hp; cbn [rbind].
  2:{ split; [discriminate|]. intros (r & d & i & Hf & _ & Hd & Hfind & _).
      inversion Hf; subst. rewrite Hj in Hd. inversion Hd; subst.
      apply probe_shapes_find in Hfind. congruence. }
  pose proof (proj1 (probe_shapes_find _ _) Hp) as Hfind.
  assert (Harr : isArray found = true).
  { apply List.find_some in Hfind. tauto. }
  destruct found as [| | | | |items|]; try discriminate. clear Harr.
  cbn [get String.eqb Ascii.eqb Bool.eqb rbind as_array].
  destruct (gt0 H (of_nat (length items))) eqn:Hlen.
  + apply gt0_length in Hlen.
    destruct (someM has_valid_name items) as [[|]|e] eqn:Hs; cbn [rbind].
    * split.
      -- intros Heq. inversion Heq; subst. exists res, data, items. auto 10.
      -- intros (r & d & i & Hf & _ & Hd & Hfind' & -> & _).
         inversion Hf; subst. rewrite Hj in Hd. inversion Hd; subst. congruence.
    * split; [discriminate|].
      intros (r & d & i & Hf & _ & Hd & Hfind' & -> & _ & Hs').
      inversion Hf; subst. rewrite Hj in Hd. inversion Hd; subst.
      rewrite Hfind in Hfind'. inversion Hfind'; subst. congruence.
    * split; [discriminate|].
      intros (r & d & i & Hf & _ & Hd & Hfind' & -> & _ & Hs').
      inversion Hf; subst. rewrite Hj in Hd. inversion Hd; subst.
      rewrite Hfind in Hfind'. inversion Hfind'; subst. congruence.
  + split; [discriminate|].
    intros (r & d & i & Hf & _ & Hd & Hfind' & -> & Hne & _).
    inversion Hf; subst. rewrite Hj in Hd. inversion Hd; subst.
    rewrite Hfind in Hfind'. inversion Hfind'; subst.
    apply gt0_length in Hne. congruence.
Qed.

(** C4 (amended).  The rapidapi tier probes, in this order, the response
    itself and its fields races, data and schedule, and takes the first
    that is an array, whether empty or not.  The tier succeeds exactly when
    the request succeeds with an ok status and a body that parses, this
    array exists and is not empty, and the quality check passes: for some
    event, with the check failing without exception on all events before
    it, the first truthy field among raceName, name, grandPrix and title is
    neither "Unknown" nor "unknown".  When the tier fails after the backend
    tier has failed, the result is that of the manual-json tier. *)
Theorem tier2_probe_and_quality (E : env) :
  (forall data races,
     probe_shapes data = Ok races
     <-> List.find isArray (shape_candidates data) = Some races)
  /\ (forall races,
        tier2 H E = Ok races
        <-> exists res data items,
              fetch_rapidapi E = Ok res /\ ok res = true /\ json res = Ok data
              /\ List.find isArray (shape_candidates data) = Some races
              /\ races = VArr items /\ items <> []
              /\ someM has_valid_name items = Ok true)
  /\ (forall items,
        someM has_valid_name items = Ok true
        <-> exists before race after,
              items = before ++ race :: after
              /\ Forall (fun r => has_valid_name r = Ok false) before
              /\ has_valid_name race = Ok true)
  /\ (forall race,
        nullish race = false ->
        has_valid_name race
        = Ok match List.find truthy (name_candidates race) with
             | Some name => strict_ne_str name "Unknown" && strict_ne_str name "unknown"
             | None => false
             end)
  /\ (forall year e1 e2,
        tier1 H E year = Throw e1 -> tier2 H E = Throw e2 ->
        acquireTiers H E year
        = match tier3 E with
          | Ok races => Ok (races, "manual-json")
          | Throw e => Throw e
          end).
Proof.
  split; [exact probe_shapes_find|]. split; [|split; [|split]].
  - intros races. apply tier2_spec.
  - intros items. apply someM_true.
  - exact has_valid_name_find.
  - intros year e1 e2 H1 H2. unfold acquireTiers. now rewrite H1, H2.
Qed.

End SecondaryTier.

(** C4, counterexample: the response has an empty races array and a data
    array with a well-named event.  The first array, races, is taken and
    the tier fails; the first non-empty list, data, is not used. *)
Lemma tier2_empty_first_array_counterexample :
  let data := VObj [("races", VArr []);
                    ("data", VArr [VObj [("raceName", VStr "Bahrain Grand Prix")]])] in
  let E := example_env failed failed (ok_json data) failed failed in
  probe_shapes data = Ok (VArr [])
  /\ validate_quality Ref.ref_host (get_opt data "data")
     = Ok (VArr [VObj [("raceName", VStr "Bahrain Grand Prix")]])
  /\ tier2 Ref.ref_host E = Throw (Error "API returned empty array").
Proof. repeat split; vm_compute; reflexivity. Qed.

(** ** Field resolution *)

Section NormalizationProperties.

Variable H : host.

Lemma raceName_of_truthy (race : value) (index : nat) (n : value) :
  raceName_of H race index = Ok n -> nullish race = false /\ truthy n = true.
Proof.
  unfold raceName_of. destruct (nullish race) eqn:Hn.
  - rewrite (get_nullish _ "raceName" Hn). discriminate.
  - rewrite !(get_get_opt _ _ Hn). or_cases; intros Heq; inversion Heq; subst; auto.
Qed.

Lemma country_of_truthy (race : value) (c : value) :
  country_of race = Ok c -> truthy c = true.
Proof.
  unfold country_of. destruct (nullish race) eqn:Hn.
  - rewrite (get_nullish _ "country" Hn). discriminate.
  - rewrite !(get_get_opt _ _ Hn). cbn [rbind].
    or_cases; intros Heq; inversion Heq; subst; auto.
Qed.

Lemma locality_of_cases (race : value) (l : value) :
  locality_of race = Ok l -> truthy l = true \/ l = VStr EmptyString.
Proof.
  unfold locality_of. destruct (nullish race) eqn:Hn.
  - rewrite (get_nullish _ "locality" Hn). discriminate.
  - rewrite !(get_get_opt _ _ Hn). cbn [rbind].
    or_cases; intros Heq; inversion Heq; subst; auto.
Qed.

Lemma round_of_truthy (race : value) (index : nat) (r : value) :
  round_of race index = Ok r -> truthy r = true.
Proof.
  unfold round_of. destruct (nullish race) eqn:Hn.
  - rewrite (get_nullish _ "round" Hn). discriminate.
  - rewrite !(get_get_opt _ _ Hn).
    or_cases; intros Heq; inversion Heq; subst; auto.
    unfold of_nat, truthy, Qeq_bool. simpl. 
    apply negb_true_iff, Z.eqb_neq. lia.
Qed.

(** C7.  Field resolution is idempotent: when an event resolves to the
    name, country, locality and round [e], the event in canonical shape
    made of these four values resolves to [e] again, at any position of
    the list. *)
Theorem resolve_canonical_idempotent (race : value) (index index' : nat) (e : resolved) :
  resolve H race index = Ok e ->
  resolve H (canonical e) index' = Ok e.
Proof.
  unfold resolve. intros Hres.
  destruct (raceName_of H race index) as [n|] eqn:Hname; [|discriminate].
  destruct (country_of race) as [c|] eqn:Hcountry; [|discriminate].
  destruct (locality_of race) as [l|] eqn:Hlocality; [|discriminate].
  destruct (round_of race index) as [r|] eqn:Hround; [|discriminate].
  cbn [rbind] in Hres. inversion Hres; subst e; clear Hres.
  apply raceName_of_truthy in Hname as [_ Hn].
  apply country_of_truthy in Hcountry.
  apply round_of_truthy in Hround.
  apply locality_of_cases in Hlocality.
  unfold canonical, raceName_of, country_of, locality_of, round_of.
  cbn [r_round r_name r_country r_locality].
  cbn [get lookup String.eqb Ascii.eqb Bool.eqb get_opt rbind].
  destruct Hlocality as [Hl | ->];
    repeat first [ rewrite or_else_Ok | rewrite Hn | rewrite Hcountry | rewrite Hround
                  | rewrite Hl | progress cbn [truthy rbind negb String.eqb] ];
    reflexivity.
Qed.

End NormalizationProperties.

(** C7, witness: an event of the secondary API. *)
Lemma resolve_canonical_idempotent_witness :
  let race := VObj [("raceName", VStr "Bahrain Grand Prix");
                    ("Circuit", VObj [("Location", VObj [("country", VStr "Bahrain")])]);
                    ("date", VStr "2025-03-09"); ("time", VStr "15:00:00Z")] in
  let e := {| r_round := VNum 1%Q; r_name := VStr "Bahrain Grand Prix";
              r_country := VStr "Bahrain"; r_locality := VStr EmptyString |} in
  resolve Ref.ref_host race 0 = Ok e
  /\ resolve Ref.ref_host (canonical e) 7 = Ok e.
Proof.
  intros race e.
  assert (Hres : resolve Ref.ref_host race 0 = Ok e) by (vm_compute; reflexivity).
  split; [exact Hres|].
  exact (resolve_canonical_idempotent Ref.ref_host race 0 7 e Hres).
Defined.

(** ** The join-club form *)

Section JoinClubProperties.

Import JoinClub.

Variable H : host.

(** C8.  While no write token is configured, [submitJoinClubForm] makes no
    request and resolves to an object whose [success] is [false]; the form
    handler makes no request either, and ends by showing the welcome
    message and resetting the form, with no other alert before. *)
Theorem submit_without_token (client : SanityClient) (post : result response)
    (submittedAt : string) (data : value) :
  truthy (writeToken client) = false ->
  get (fst (submitJoinClubForm H client post submittedAt data)) "success" = Ok (VBool false)
  /\ existsb is_fetch (snd (submitJoinClubForm H client post submittedAt data)) = false
  /\ exists before,
       handleSubmit H (Some client) post submittedAt data
       = before ++ [Alert welcome; FormReset]
       /\ existsb is_fetch before = false
       /\ existsb is_alert before = false.
Proof.
  intros Htoken. unfold handleSubmit, submitJoinClubForm. rewrite Htoken. cbn [negb fst snd].
  split; [reflexivity|]. split; [reflexivity|].
  destruct (String.eqb (projectId client) "YOUR_PROJECT_ID"); cbn [negb].
  - exists []. auto.
  - cbn [get lookup String.eqb Ascii.eqb Bool.eqb truthy].
    exists [ConsoleWarn "Write token not set. Form submission requires serverless function or write token.";
            ConsoleLog "Form data:" data;
            ConsoleWarn "Form submission to Sanity failed, using fallback"].
    auto.
Qed.

End JoinClubProperties.

(** C8, witness: the client as the source configures it. *)
Lemma submit_without_token_witness :
  let client := {| JoinClub.projectId := "j5jgcp4i";
                   JoinClub.writeUrl :=
                     "https://j5jgcp4i.api.sanity.io/v2024-01-01/data/mutate/production";
                   JoinClub.writeToken := VNull |} in
  let data := VObj [("name", VStr "Wanjiru"); ("email", VStr "w@example.org");
                    ("city", VStr "Nairobi")] in
  truthy (JoinClub.writeToken client) = false
  /\ get (fst (JoinClub.submitJoinClubForm Ref.ref_host client (Throw TypeError)
                 "2025-03-09T12:00:00.000Z" data)) "success" = Ok (VBool false).
Proof.
  intros client data. split; [reflexivity|].
  exact (proj1 (submit_without_token Ref.ref_host client (Throw TypeError)
                  "2025-03-09T12:00:00.000Z" data eq_refl)).
Defined.

(** ** Weather *)

Section WeatherProperties.

Variable H : host.

(** A request that fails, or a body that is not JSON: the fallback text. *)
Lemma loadWeather_exception (E : env) (w : world) (text : string) :
  weatherNairobi w = Some text ->
  (forall res, fetch_weather E = Ok res -> is_ok (json res) = false) ->
  loadWeather H E w = (Ok tt, set_weatherNairobi ("24" +:+ degC) w).
Proof.
  intros Hel Hfail. unfold loadWeather, try_catch, bind, lift. rewrite Hel.
  destruct (fetch_weather E) as [res|e]; [|reflexivity].
  specialize (Hfail res eq_refl). destruct (json res); [discriminate|reflexivity].
Qed.

(** A numeric temperature: its rounding. *)
Lemma loadWeather_number (E : env) (w : world) (text : string) (res : response)
    (data : value) (temp : Q) :
  weatherNairobi w = Some text ->
  fetch_weather E = Ok res -> json res = Ok data ->
  get_opt (get_opt data "current") "temperature_2m" = VNum temp ->
  loadWeather H E w
  = (Ok tt, set_weatherNairobi (Number_toString H (inject_Z (Math_round temp)) +:+ degC) w).
Proof.
  intros Hel Hres Hdata Htemp. unfold loadWeather, try_catch, bind, lift.
  rewrite Hel, Hres, Hdata, Htemp. reflexivity.
Qed.

(** A body without numeric temperature: no exception is thrown, so the
    [catch] block does not run and the element keeps its text. *)
Lemma loadWeather_not_number (E : env) (w : world) (text : string) (res : response)
    (data : value) :
  weatherNairobi w = Some text ->
  fetch_weather E = Ok res -> json res = Ok data ->
  is_number (get_opt (get_opt data "current") "temperature_2m") = false ->
  loadWeather H E w = (Ok tt, w).
Proof.
  intros Hel Hres Hdata Htemp. unfold loadWeather, try_catch, bind, lift.
  rewrite Hel, Hres, Hdata.
  destruct (get_opt (get_opt data "current") "temperature_2m"); try reflexivity.
  discriminate.
Qed.

(** The outcomes of [loadWeather].  When the weather element exists: a
    request that fails or a body that is not JSON makes it show "24°C"; a response
    whose [current.temperature_2m] is a number makes it show that number
    rounded, followed by "°C"; a response that parses and lacks a numeric
    [current.temperature_2m] throws nothing and leaves the element as it
    was. *)
Lemma loadWeather_outcomes (E : env) (w : world) (text : string) :
  weatherNairobi w = Some text ->
  ((forall res, fetch_weather E = Ok res -> is_ok (json res) = false) ->
   loadWeather H E w = (Ok tt, set_weatherNairobi ("24" +:+ degC) w))
  /\ (forall res data temp,
        fetch_weather E = Ok res -> json res = Ok data ->
        get_opt (get_opt data "current") "temperature_2m" = VNum temp ->
        loadWeather H E w
        = (Ok tt,
           set_weatherNairobi (Number_toString H (inject_Z (Math_round temp)) +:+ degC) w))
  /\ (forall res data,
        fetch_weather E = Ok res -> json res = Ok data ->
        is_number (get_opt (get_opt data "current") "temperature_2m") = false ->
        loadWeather H E w = (Ok tt, w)).
Proof.
  intros Hel. split; [|split].
  - apply (loadWeather_exception E w text Hel).
  - intros res data temp. apply (loadWeather_number E w text res data temp Hel).
  - intros res data. apply (loadWeather_not_number E w text res data Hel).
Qed.

End WeatherProperties.

(** C9, at the failing input: the provider answers with an error object
    (status 400) while the element shows "Loading...".  Nothing is thrown,
    the [catch] block does not run, and the element still shows
    "Loading...", not "24°C".  A temperature of 23.5 is shown as "24°C",
    and a request that fails gives "24°C". *)
Theorem loadWeather_error_body :
  let error_body :=
    VObj [("error", VBool true); ("reason", VStr "Cannot initialize WeatherVariable")] in
  let good_body := VObj [("current", VObj [("temperature_2m", VNum (47 # 2))])] in
  let answers weather := example_env failed failed failed failed weather in
  weatherNairobi example_page = Some "Loading..."
  /\ loadWeather Ref.ref_host
       (answers (Ok {| ok := false; status := 400; json := Ok error_body |}))
       example_page
     = (Ok tt, example_page)
  /\ loadWeather Ref.ref_host (answers (ok_json good_body)) example_page
     = (Ok tt, set_weatherNairobi "24°C" example_page)
  /\ loadWeather Ref.ref_host (answers failed) example_page
     = (Ok tt, set_weatherNairobi "24°C" example_page).
Proof. repeat split. Qed.

(** ** Sorting by date *)

Section SortProperties.

Variable H : host.

Lemma insert_by_date_perm (x : instant * value) (l : list (instant * value)) :
  Permutation (insert_by_date x l) (x :: l).
Proof.
  induction l as [|y l IH]; simpl; [reflexivity|].
  destruct (date_compare (fst x) (fst y)); try reflexivity.
  rewrite IH. apply perm_swap.
Qed.

Lemma sort_keyed_perm (l : list (instant * value)) : Permutation (sort_keyed l) l.
Proof.
  induction l as [|x l IH]; simpl; [reflexivity|].
  rewrite insert_by_date_perm. now constructor.
Qed.

Lemma key_le_trans (a b c : instant * value) : key_le a b -> key_le b c -> key_le a c.
Proof.
  unfold key_le, date_le.
  destruct (fst a), (fst b), (fst c); try tauto. lia.
Qed.

Lemma insert_by_date_sorted (x : instant * value) (l : list (instant * value)) :
  key_valid x -> Forall key_valid l ->
  StronglySorted key_le l -> StronglySorted key_le (insert_by_date x l).
Proof.
  intros [tx Hx] Hvalid Hsorted.
  induction Hsorted as [|y l Hl IH Hy]; simpl.
  - repeat constructor.
  - inversion Hvalid as [|? ? [ty Hty] Hvl]; subst.
    assert (Hcmp : date_compare (fst x) (fst y) = Z.compare tx ty)
      by (now rewrite Hx, Hty).
    rewrite Hcmp.
    destruct (Z.compare_spec tx ty) as [Heq|Hlt|Hgt].
    + assert (Hxy : key_le x y) by (unfold key_le; rewrite Hx, Hty; simpl; lia).
      constructor; [now constructor|].
      constructor; [exact Hxy|].
      eapply List.Forall_impl; [|exact Hy]. intros z. now apply key_le_trans.
    + assert (Hxy : key_le x y) by (unfold key_le; rewrite Hx, Hty; simpl; lia).
      constructor; [now constructor|].
      constructor; [exact Hxy|].
      eapply List.Forall_impl; [|exact Hy]. intros z. now apply key_le_trans.
    + constructor; [now apply IH|].
      eapply Permutation_Forall; [symmetry; apply insert_by_date_perm|].
      constructor; [|exact Hy].
      unfold key_le. rewrite Hx, Hty. simpl. lia.
Qed.

Lemma sort_keyed_sorted (l : list (instant * value)) :
  Forall key_valid l -> StronglySorted key_le (sort_keyed l).
Proof.
  induction 1 as [|x l Hx Hl IH]; simpl; [constructor|].
  apply insert_by_date_sorted; [exact Hx| |exact IH].
  eapply Permutation_Forall; [symmetry; apply sort_keyed_perm|exact Hl].
Qed.

Lemma with_dates_spec (items : list value) (keyed : list (instant * value)) :
  with_dates H items = Ok keyed ->
  map snd keyed = items
  /\ Forall (fun k => parseRaceDate H (snd k) = Ok (fst k)) keyed.
Proof.
  revert keyed. induction items as [|r items IH]; simpl; intros keyed Hk.
  - inversion Hk; subst. split; constructor.
  - destruct (parseRaceDate H r) as [d|] eqn:Hd; [|discriminate]. cbn [rbind] in Hk.
    destruct (with_dates H items) as [rest|]; [|discriminate]. cbn [rbind] in Hk.
    inversion Hk; subst. destruct (IH rest eq_refl) as [Hm Hf].
    split; simpl; [now rewrite Hm|]. constructor; [exact Hd|exact Hf].
Qed.

Lemma with_dates_total (items : list value) :
  Forall (readable H) items -> exists keyed, with_dates H items = Ok keyed.
Proof.
  induction 1 as [|r items Hr _ [rest Hrest]]; simpl; [eauto|].
  unfold readable in Hr. destruct (parseRaceDate H r); [|discriminate].
  rewrite Hrest. cbn [rbind]. eauto.
Qed.

Lemma sortByDate_total (items : list value) :
  Forall (readable H) items -> exists sorted, sortByDate H (VArr items) = Ok sorted.
Proof.
  intros Hr. unfold sortByDate. cbn [as_array rbind].
  destruct items as [|a [|b items]]; eauto.
  destruct (with_dates_total _ Hr) as [keyed ->]. cbn [rbind]. eauto.
Qed.

Lemma sortByDate_perm (items sorted : list value) :
  sortByDate H (VArr items) = Ok sorted -> Permutation sorted items.
Proof.
  unfold sortByDate. cbn [as_array rbind].
  destruct items as [|a [|b items]]; try (intros Heq; inversion Heq; reflexivity).
  destruct (with_dates H (a :: b :: items)) as [keyed|] eqn:Hk; [|discriminate].
  cbn [rbind]. intros Heq. inversion Heq; subst.
  apply with_dates_spec in Hk as [<- _].
  apply Permutation_map, sort_keyed_perm.
Qed.

Lemma has_valid_date_readable (race : value) : has_valid_date H race -> readable H race.
Proof. intros [t Ht]. unfold readable. now rewrite Ht. Qed.

Lemma sortByDate_sorted (items sorted : list value) :
  Forall (has_valid_date H) items ->
  sortByDate H (VArr items) = Ok sorted ->
  StronglySorted (by_date H) sorted.
Proof.
  intros Hvalid. unfold sortByDate. cbn [as_array rbind].
  destruct items as [|a [|b items]].
  - intros Heq. inversion Heq. constructor.
  - intros Heq. inversion Heq. repeat constructor.
  - destruct (with_dates H (a :: b :: items)) as [keyed|] eqn:Hk; [|discriminate].
    cbn [rbind]. intros Heq. inversion Heq; subst. clear Heq.
    apply with_dates_spec in Hk as [Hsnd Hparse].
    assert (Hkv : Forall key_valid keyed).
    { rewrite <- Hsnd in Hvalid.
      rewrite List.Forall_forall in Hvalid. rewrite List.Forall_forall in Hparse.
      apply List.Forall_forall.
      intros k Hin. destruct (Hvalid (snd k)) as [t Ht]; [now apply in_map|].
      exists t. specialize (Hparse k Hin). congruence. }
    assert (Hparse' : Forall (fun k => parseRaceDate H (snd k) = Ok (fst k)) (sort_keyed keyed))
      by (eapply Permutation_Forall; [symmetry; apply sort_keyed_perm|exact Hparse]).
    pose proof (sort_keyed_sorted keyed Hkv) as Hsorted.
    induction Hsorted as [|k l Hl IH Hk]; simpl; constructor.
    + apply IH. now inversion Hparse'.
    + inversion Hparse' as [|? ? Hpk Hpl]; subst.
      rewrite List.Forall_forall in Hk. rewrite List.Forall_forall in Hpl.
      apply List.Forall_forall. intros r Hin. apply in_map_iff in Hin as (k' & <- & Hin').
      specialize (Hk k' Hin'). specialize (Hpl k' Hin').
      unfold key_le, date_le in Hk.
      destruct (fst k) as [x|] eqn:Hx; [|tauto].
      destruct (fst k') as [y|] eqn:Hy; [|tauto].
      exists x, y. auto.
Qed.

End SortProperties.

(** ** Rendering the schedule *)

Section RenderProperties.

Variable H : host.

Lemma readable_not_nullish (race : value) : readable H race -> nullish race = false.
Proof.
  unfold readable, parseRaceDate. destruct (nullish race) eqn:Hn; [|reflexivity].
  rewrite (get_nullish _ "date" Hn). discriminate.
Qed.

Lemma resolve_total (race : value) (index : nat) :
  nullish race = false -> exists e, resolve H race index = Ok e.
Proof.
  intros Hn. unfold resolve.
  assert (Hname : exists v, raceName_of H race index = Ok v).
  { unfold raceName_of. rewrite !(get_get_opt _ _ Hn). or_cases; eauto. }
  assert (Hcountry : exists v, country_of race = Ok v).
  { unfold country_of. rewrite !(get_get_opt _ _ Hn). cbn [rbind]. or_cases; eauto. }
  assert (Hlocality : exists v, locality_of race = Ok v).
  { unfold locality_of. rewrite !(get_get_opt _ _ Hn). cbn [rbind]. or_cases; eauto. }
  assert (Hround : exists v, round_of race index = Ok v).
  { unfold round_of. rewrite !(get_get_opt _ _ Hn). or_cases; eauto. }
  destruct Hname as [n ->], Hcountry as [c ->], Hlocality as [l ->], Hround as [r ->].
  cbn [rbind]. eauto.
Qed.

Lemma card_of_resolve (now : Z) (race : value) (index : nat) (d : instant) :
  parseRaceDate H race = Ok d ->
  exists e,
    resolve H race index = Ok e
    /\ card_of H now race index
       = Ok (RaceCard (r_round e) (if date_lt d (Some now) then "Done" else "Upcoming")
                      (r_country e) (r_locality e) (r_name e) d).
Proof.
  intros Hd.
  assert (Hn : nullish race = false)
    by (apply readable_not_nullish; unfold readable; now rewrite Hd).
  destruct (resolve_total race index Hn) as [e He]. exists e. split; [exact He|].
  unfold card_of. rewrite Hd. cbn [rbind]. unfold resolve in He.
  destruct (raceName_of H race index); [|discriminate]. cbn [rbind] in He |- *.
  destruct (country_of race); [|discriminate]. cbn [rbind] in He |- *.
  destruct (locality_of race); [|discriminate]. cbn [rbind] in He |- *.
  destruct (round_of race index); [|discriminate]. cbn [rbind] in He |- *.
  inversion He; subst. reflexivity.
Qed.

Lemma forEach_card_run (now : Z) (l : list value) :
  Forall (readable H) l ->
  forall (index : nat) (w : world) (cs : list card),
    scheduleList w = Some (Cards cs) ->
    exists cards,
      forEach_card H now l index w = (Ok tt, set_scheduleList (Cards (cs ++ cards)) w)
      /\ Forall2 (fun r c => parseRaceDate H r = Ok (card_date c)) l cards.
Proof.
  induction 1 as [|r l Hr _ IH]; intros index w cs Hw.
  - exists []. rewrite app_nil_r. split; [|constructor].
    simpl. unfold ret. f_equal. destruct w; simpl in *. now subst.
  - unfold readable in Hr.
    destruct (parseRaceDate H r) as [d|] eqn:Hd; [|discriminate].
    destruct (card_of_resolve now r index d Hd) as (e & _ & Hcard).
    remember (RaceCard (r_round e) (if date_lt d (Some now) then "Done" else "Upcoming")
                       (r_country e) (r_locality e) (r_name e) d) as c eqn:Hc.
    assert (Hdate : card_date c = d) by (now subst c).
    cbn [forEach_card]. unfold bind at 1, lift at 1. rewrite Hcard.
    unfold bind at 1, modify at 1.
    assert (Happ : append_card c w = set_scheduleList (Cards (cs ++ [c])) w)
      by (unfold append_card; now rewrite Hw).
    rewrite Happ.
    destruct (IH (S index) (set_scheduleList (Cards (cs ++ [c])) w) (cs ++ [c]) eq_refl)
      as (cards & Hrun & Hdates).
    exists (c :: cards). split.
    + rewrite Hrun. rewrite <- app_assoc. reflexivity.
    + constructor; [now rewrite Hdate|exact Hdates].
Qed.

Lemma renderSchedule_run (now : Z) (items : list value) (year : number) (w : world)
    (content : list_content) :
  scheduleList w = Some content ->
  Forall (readable H) items ->
  exists sorted cards,
    sortByDate H (VArr items) = Ok sorted
    /\ renderSchedule H now (VArr items) year w
       = (Ok (VArr sorted), set_scheduleList (Cards cards) (with_heading H year w))
    /\ Forall2 (fun r c => parseRaceDate H r = Ok (card_date c)) sorted cards.
Proof.
  intros Hw Hr.
  destruct (sortByDate_total H items Hr) as [sorted Hsorted].
  assert (Hrs : Forall (readable H) sorted)
    by (eapply Permutation_Forall;
        [symmetry; apply (sortByDate_perm H _ _ Hsorted)|exact Hr]).
  destruct (forEach_card_run now sorted Hrs 0
              (set_scheduleList (Cards []) (with_heading H year w)) [] eq_refl)
    as (cards & Hrun & Hdates).
  exists sorted, cards. split; [exact Hsorted|]. split; [|exact Hdates].
  unfold renderSchedule. rewrite Hw.
  unfold bind at 1. unfold with_heading in Hrun |- *.
  destruct (when_present scheduleHeading _ w) as [[[]|e] w1] eqn:Hh.
  2:{ unfold when_present in Hh. destruct (scheduleHeading w); discriminate. }
  unfold bind at 1, modify at 1. unfold bind at 1, lift at 1. rewrite Hsorted.
  unfold bind at 1. cbn [snd] in Hrun. rewrite Hrun. reflexivity.
Qed.

End RenderProperties.

(** ** Order of the rendered schedule *)

Section OrderProperties.

Variable H : host.

Lemma dates_sorted (sorted : list value) (dates : list instant) :
  Forall2 (fun r d => parseRaceDate H r = Ok d) sorted dates ->
  StronglySorted (by_date H) sorted ->
  StronglySorted date_le dates.
Proof.
  induction 1 as [|r d l ds Hrd Hl IH]; intros Hs; [constructor|].
  inversion Hs as [|? ? Hsl Hr]; subst. constructor; [now apply IH|].
  clear IH Hs Hsl. induction Hl as [|r' d' l ds Hrd' _ IH]; [constructor|].
  inversion Hr as [|? ? (x & y & Hx & Hy & Hxy) Hr']; subst.
  constructor; [|now apply IH].
  rewrite Hx in Hrd. rewrite Hy in Hrd'. inversion Hrd; inversion Hrd'; subst.
  exact Hxy.
Qed.

(** The order of the rendered schedule.  When the schedule list is on the
    page and every event of the array has a valid date, [renderSchedule] sorts the array in
    place (the result is a permutation of the input) and renders one card
    per event in that order, and the dates of the cards, which are those
    that [parseRaceDate] returns, are in non-decreasing order.  Events with
    date and time fields and events with a datetime field may be mixed. *)
Lemma renderSchedule_ascending (clock : Z) (items : list value) (year : number)
    (w : world) (content : list_content) :
  scheduleList w = Some content ->
  Forall (has_valid_date H) items ->
  exists sorted w',
    renderSchedule H clock (VArr items) year w = (Ok (VArr sorted), w')
    /\ Permutation sorted items
    /\ Forall2 (fun r d => parseRaceDate H r = Ok d) sorted (rendered_dates w')
    /\ StronglySorted date_le (rendered_dates w').
Proof.
  intros Hw Hvalid.
  assert (Hr : Forall (readable H) items)
    by (eapply List.Forall_impl; [apply has_valid_date_readable|exact Hvalid]).
  destruct (renderSchedule_run H clock items year w content Hw Hr)
    as (sorted & cards & Hsort & Hrun & Hdates).
  exists sorted, (set_scheduleList (Cards cards) (with_heading H year w)).
  assert (Hdates' : Forall2 (fun r d => parseRaceDate H r = Ok d) sorted (map card_date cards)).
  { clear -Hdates. induction Hdates; simpl; constructor; auto. }
  split; [exact Hrun|]. split; [exact (sortByDate_perm H _ _ Hsort)|].
  unfold rendered_dates. cbn [scheduleList set_scheduleList].
  split; [exact Hdates'|].
  apply (dates_sorted sorted); [exact Hdates'|].
  exact (sortByDate_sorted H items sorted Hvalid Hsort).
Qed.

End OrderProperties.

(** An event with date and time fields, one with a datetime field and one
    with a date only, out of order. *)
Example renderSchedule_mixed_shapes :
  let items := [VObj [("raceName", VStr "Australian Grand Prix");
                      ("datetime", VStr "2025-04-06T09:00:00+03:00")];
                VObj [("raceName", VStr "Bahrain Grand Prix");
                      ("date", VStr "2025-03-09"); ("time", VStr "15:00:00Z")];
                VObj [("raceName", VStr "Saudi Arabian Grand Prix");
                      ("date", VStr "2025-03-23")]] in
  rendered_dates
    (snd (renderSchedule Ref.ref_host example_now (VArr items) (Some 2025) example_page))
  = [Some 1741532400000; Some 1742688000000; Some 1743919200000].
Proof. vm_compute. reflexivity. Qed.

(** No order of dates among which one is invalid is non-decreasing. *)
Lemma invalid_date_not_sorted (l : list instant) :
  In None l -> (2 <= length l)%nat -> ~ StronglySorted date_le l.
Proof.
  induction l as [|d l IH]; intros Hin Hlen Hs; [destruct Hin|].
  inversion Hs as [|? ? Hl Hd]; subst.
  destruct Hin as [-> | Hin].
  - destruct l as [|d' l]; [simpl in Hlen; lia|].
    inversion Hd as [|? ? Hle _]; subst. exact Hle.
  - destruct l as [|d' [|d'' l]]; [destruct Hin| |].
    + destruct Hin as [-> | []]. inversion Hd as [|? ? Hle _]; subst.
      unfold date_le in Hle. now destruct d.
    + apply IH; [exact Hin|simpl; lia|exact Hl].
Qed.

(** C6, at the failing input: the second event has a date that cannot be
    parsed.  The comparator answers NaN for it, the array is left as it
    is, and the May event is rendered before the January event.  In
    whatever order a sort leaves these three events, their dates are not
    in non-decreasing order. *)
Theorem renderSchedule_unparsable_date :
  let items := [VObj [("raceName", VStr "May Grand Prix"); ("date", VStr "2025-05-04")];
                VObj [("raceName", VStr "Postponed Grand Prix"); ("date", VStr "TBD")];
                VObj [("raceName", VStr "January Grand Prix"); ("date", VStr "2025-01-12")]] in
  let w' := snd (renderSchedule Ref.ref_host example_now (VArr items) (Some 2025)
                   example_page) in
  rendered_dates w' = [Some 1746316800000; None; Some 1736640000000]
  /\ 1736640000000 < 1746316800000
  /\ ~ StronglySorted date_le (rendered_dates w')
  /\ forall dates,
       Permutation dates [Some 1746316800000; None; Some 1736640000000] ->
       ~ StronglySorted date_le dates.
Proof.
  intros items w'.
  assert (Hd : rendered_dates w' = [Some 1746316800000; None; Some 1736640000000])
    by (vm_compute; reflexivity).
  assert (Hperm : forall dates,
             Permutation dates [Some 1746316800000; None; Some 1736640000000] ->
             ~ StronglySorted date_le dates).
  { intros dates Hp. apply invalid_date_not_sorted.
    - apply (Permutation_in _ (Permutation_sym Hp)). simpl. auto.
    - pose proof (Permutation_length Hp) as Hl.
      destruct dates as [|a [|b l0]]; try discriminate. simpl. lia. }
  split; [exact Hd|]. split; [lia|]. split; [|exact Hperm].
  rewrite Hd. apply Hperm. reflexivity.
Qed.

(** ** The countdown target *)

Section CountdownProperties.

Variable H : host.




Lemma countdown_name_chain (race : value) :
  nullish race = false ->
  get race "raceName" ||| get race "name" ||| get race "grandPrix" ||| get race "title"
  ||| Ok (VStr "Next Race")
  = Ok (countdown_name race).
Proof.
  intros Hn. unfold countdown_name, name_candidates.
  rewrite !(get_get_opt _ _ Hn). cbn [List.find]. or_cases; reflexivity.
Qed.

(** The fallback of [startRaceCountdown] once a next race is found. *)
Lemma countdown_from_races_found (clock : Z) (items sorted : list value) (next : value)
    (t : Z) (w : world) :
  sortByDate H (VArr items) = Ok sorted ->
  find_upcoming H clock sorted = Ok next ->
  truthy next = true ->
  parseRaceDate H next = Ok (Some t) ->
  countdown_from_races H clock (VArr items) w = (Ok tt, countdown_to H clock next t w).
Proof.
  intros Hs Hf Ht Hp. unfold countdown_from_races, countdown_to.
  unfold bind at 1, lift at 1. rewrite Hs.
  unfold bind at 1, lift at 1. rewrite Hf. rewrite Ht.
  unfold bind at 1, lift at 1. rewrite Hp.
  unfold bind at 1, lift at 1.
  rewrite (countdown_name_chain next (truthy_not_nullish _ Ht)).
  set (m := (_ ;;; _)).
  assert (Hok : fst (m w) = Ok tt).
  { subst m. unfold bind, when_present, updateCountdown, modify.
    destruct (nextRaceName w); cbn [nextRaceCountdown set_nextRaceName];
      destruct (nextRaceCountdown w); reflexivity. }
  destruct (m w) as [r w'] eqn:Hm. cbn [fst snd] in Hok |- *. now subst r.
Qed.



Lemma upcoming_has_valid_date (clock : Z) (race : value) :
  upcoming H clock race -> has_valid_date H race.
Proof. intros (t & Ht & _). now exists t. Qed.





End CountdownProperties.



(** An event whose date is invalid between two events that lie ahead of
    the clock reading: every comparison of neighbours answers 0, the
    array stays as it is, and the countdown goes to the event of May although
    the event of April is earlier. *)
Example startRaceCountdown_invalid_date_selection :
  let E := example_env failed failed failed failed failed in
  let may := VObj [("raceName", VStr "May Grand Prix"); ("date", VStr "2025-05-04")] in
  let postponed := VObj [("raceName", VStr "Postponed Grand Prix"); ("date", VStr "TBD")] in
  let april := VObj [("raceName", VStr "April Grand Prix"); ("date", VStr "2025-04-06")] in
  let w' := snd (startRaceCountdown Ref.ref_host E (VArr [may; postponed; april])
                   example_page) in
  sortByDate Ref.ref_host (VArr [may; postponed; april]) = Ok [may; postponed; april]
  /\ nextRaceName w' = Some "May Grand Prix - Countdown"
  /\ parseRaceDate Ref.ref_host may = Ok (Some 1746316800000)
  /\ parseRaceDate Ref.ref_host april = Ok (Some 1743897600000)
  /\ now E < 1743897600000 < 1746316800000.
Proof.
  intros E may postponed april w'.
  repeat split; try (vm_compute; reflexivity).
Qed.

(** ** Framing *)

Section Framing.

Variable H : host.
Variable R : world -> world -> Prop.

Lemma g_ret {A} (F : frame R) (a : A) : guarantees R (ret a).
Proof. intros w. apply (frame_refl R F). Qed.

Lemma g_lift {A} (F : frame R) (r : result A) : guarantees R (lift r).
Proof. intros w. apply (frame_refl R F). Qed.

Lemma g_bind {A B} (F : frame R) (m : M A) (k : A -> M B) :
  guarantees R m -> (forall a, guarantees R (k a)) -> guarantees R (bind m k).
Proof.
  intros Hm Hk w. unfold bind. specialize (Hm w).
  destruct (m w) as [[a|e] w1]; cbn [snd] in *; [|exact Hm].
  eapply (frame_trans R F); [exact Hm|apply Hk].
Qed.

Lemma g_try_catch {A} (F : frame R) (m : M A) (h : exn -> M A) :
  guarantees R m -> (forall e, guarantees R (h e)) -> guarantees R (try_catch m h).
Proof.
  intros Hm Hh w. unfold try_catch. specialize (Hm w).
  destruct (m w) as [[a|e] w1]; cbn [snd] in *; [exact Hm|].
  eapply (frame_trans R F); [exact Hm|apply Hh].
Qed.

Lemma g_detached (F : frame R) (m : M unit) : guarantees R m -> guarantees R (detached m).
Proof. intros Hm. apply (g_try_catch F); [exact Hm|]. intros e. apply (g_ret F). Qed.

Lemma g_modify (f : world -> world) : (forall w, R w (f w)) -> guarantees R (modify f).
Proof. intros Hf w. apply Hf. Qed.

Lemma g_when_present {A} (F : frame R) (el : world -> option A) (f : world -> world) :
  (forall w, R w (f w)) -> guarantees R (when_present el f).
Proof.
  intros Hf w. unfold when_present. destruct (el w); cbn [snd];
    [apply Hf|apply (frame_refl R F)].
Qed.

(** A block that runs only if an element is present. *)
Lemma g_if_present {A B} (F : frame R) (el : world -> option A) (b : B) (m : M B) :
  guarantees R m ->
  guarantees R (fun w => match el w with None => (Ok b, w) | Some _ => m w end).
Proof.
  intros Hm w. destruct (el w); [apply Hm|apply (frame_refl R F)].
Qed.

Lemma g_update_countdown_el (F : frame R) (f : element -> element) :
  guarantees R (modify (update_countdown_el f)).
Proof.
  intros w. unfold modify, update_countdown_el. cbn [snd].
  destruct (nextRaceCountdown w);
    [apply (frame_nextRaceCountdown R F)|apply (frame_refl R F)].
Qed.

Lemma start_after_update (cb : callback) (f : element -> element) (w : world) :
  start_countdownInterval cb (update_countdown_el f (clear_countdownInterval w))
  = update_countdown_el f (start_countdownInterval cb (clear_countdownInterval w)).
Proof.
  unfold update_countdown_el, clear_countdownInterval, start_countdownInterval.
  destruct (countdownInterval w), (nextRaceCountdown w) eqn:Hel; cbn; rewrite ?Hel;
    reflexivity.
Qed.

Lemma g_updateCountdown (F : frame R) (clock : Z) (targetDate : instant) (raceName : value) :
  guarantees R (updateCountdown H clock targetDate raceName).
Proof.
  intros w. unfold updateCountdown.
  destruct (nextRaceCountdown w) eqn:Hel; [|apply (frame_refl R F)].
  unfold bind, modify. cbn [snd]. rewrite start_after_update.
  eapply (frame_trans R F); [apply (frame_restart R F (LocalUpdate targetDate)); reflexivity|].
  apply (g_update_countdown_el F).
Qed.

Lemma g_restart (F : frame R) (cb : callback) :
  is_countdown cb = true ->
  guarantees R (modify clear_countdownInterval ;;; modify (start_countdownInterval cb)).
Proof. intros Hcb w. apply (frame_restart R F cb w Hcb). Qed.

(** Decomposition of a handler into its writes. *)
Ltac frame_steps F :=
  repeat first
    [ apply (g_ret F)
    | apply (g_lift F)
    | apply (g_updateCountdown F)
    | apply (g_update_countdown_el F)
    | apply (g_restart F); reflexivity
    | apply (g_when_present F); intros ?;
      first [ apply (frame_scheduleList R F) | apply (frame_scheduleHeading R F)
            | apply (frame_nextRaceName R F) | apply (frame_nextRaceCountdown R F)
            | apply (frame_weatherNairobi R F) ]
    | apply g_modify; intros ?;
      first [ apply (frame_scheduleList R F) | apply (frame_scheduleHeading R F)
            | apply (frame_nextRaceName R F) | apply (frame_nextRaceCountdown R F)
            | apply (frame_weatherNairobi R F) ]
    | apply (g_detached F)
    | apply (g_if_present F)
    | apply (g_bind F); [|intros ?]
    | apply (g_try_catch F); [|intros ?]
    | match goal with
      | |- guarantees _ (if ?b then _ else _) => destruct b
      | |- guarantees _ (match ?x with _ => _ end) => destruct x
      end ].

Lemma g_backend_then (F : frame R) (race nextRaceData : value) :
  guarantees R (backend_then H race nextRaceData).
Proof. unfold backend_then. frame_steps F. Qed.

Lemma g_backend_catch (F : frame R) (clock : Z) (race : value) :
  guarantees R (backend_catch H clock race).
Proof. unfold backend_catch. frame_steps F. Qed.

Lemma g_backend_update (F : frame R) (clock : Z) (settled : result value) (race : value) :
  guarantees R (backend_update H clock settled race).
Proof.
  unfold backend_update. frame_steps F;
    first [apply (g_backend_then F) | apply (g_backend_catch F)].
Qed.

Lemma g_updateCountdownFromBackend_sync (F : frame R) (countdown race : value) :
  guarantees R (updateCountdownFromBackend_sync H countdown race).
Proof. unfold updateCountdownFromBackend_sync. frame_steps F. Qed.

Lemma g_updateCountdownFromBackend (F : frame R) (clock : Z) (settled : result value)
    (countdown race : value) :
  guarantees R (updateCountdownFromBackend H clock settled countdown race).
Proof.
  unfold updateCountdownFromBackend. frame_steps F;
    first [apply (g_updateCountdownFromBackend_sync F) | apply (g_backend_update F)].
Qed.

Lemma g_countdown_from_backend (F : frame R) (E : env) :
  guarantees R (countdown_from_backend H E).
Proof.
  unfold countdown_from_backend. frame_steps F; apply (g_updateCountdownFromBackend F).
Qed.

Lemma g_countdown_from_races (F : frame R) (clock : Z) (races : value) :
  guarantees R (countdown_from_races H clock races).
Proof. unfold countdown_from_races. frame_steps F. Qed.

Lemma g_startRaceCountdown (F : frame R) (E : env) (races : value) :
  guarantees R (startRaceCountdown H E races).
Proof.
  unfold startRaceCountdown. frame_steps F;
    first [apply (g_countdown_from_backend F) | apply (g_countdown_from_races F)].
Qed.

Lemma g_loadWeather (F : frame R) (E : env) : guarantees R (loadWeather H E).
Proof. unfold loadWeather. frame_steps F. Qed.

Lemma g_append_card (F : frame R) (c : card) : guarantees R (modify (append_card c)).
Proof.
  intros w. unfold modify, append_card. cbn [snd].
  destruct (scheduleList w) as [[|]|];
    first [apply (frame_scheduleList R F) | apply (frame_refl R F)].
Qed.

Lemma g_forEach_card (F : frame R) (clock : Z) (l : list value) (index : nat) :
  guarantees R (forEach_card H clock l index).
Proof.
  revert index. induction l as [|r l IH]; intros index; cbn [forEach_card].
  - apply (g_ret F).
  - apply (g_bind F); [apply (g_lift F)|]. intros c.
    apply (g_bind F); [apply (g_append_card F)|]. intros _. apply IH.
Qed.

Lemma g_renderSchedule (F : frame R) (clock : Z) (races : value) (year : number) :
  guarantees R (renderSchedule H clock races year).
Proof. unfold renderSchedule. frame_steps F. apply (g_forEach_card F). Qed.

Lemma g_renderMockSchedule (F : frame R) : guarantees R (renderMockSchedule H).
Proof. unfold renderMockSchedule. frame_steps F. Qed.

Lemma g_loadRaceSchedule (F : frame R) (E : env) (year : number) :
  (forall e w, R w (add_log e w)) ->
  guarantees R (loadRaceSchedule H E year).
Proof.
  intros Hlog. unfold loadRaceSchedule.
  apply (g_bind F); [frame_steps F|]. intros _.
  destruct (acquireTiers H E year) as [[races dataSource]|e];
    [|apply (g_renderMockSchedule F)].
  apply (g_bind F); [apply (g_lift F)|]. intros kept.
  apply (g_bind F); [apply (g_lift F)|]. intros len.
  apply (g_bind F); [apply g_modify; intros w; apply Hlog|]. intros _.
  destruct (gt0 H len); [|frame_steps F].
  apply (g_bind F); [apply (g_renderSchedule F)|]. intros sorted.
  destruct (strict_eq year (getFullYear H (Some (now E)))); [|apply (g_ret F)].
  apply (g_detached F), (g_startRaceCountdown F).
Qed.

End Framing.

(** ** The countdown timer *)

Section TimerProperties.

Variable H : host.

Lemma countdown_inv_timers (w w' : world) :
  timers w' = timers w -> countdownInterval w' = countdownInterval w ->
  countdown_inv w -> countdown_inv w'.
Proof. unfold countdown_inv. intros -> ->. auto. Qed.

(** After the stored handle is cancelled no countdown timer runs. *)
Lemma clear_no_countdown (w : world) (j : positive) (cb : callback) :
  countdown_inv w ->
  timers (clear_countdownInterval w) !! j = Some cb -> is_countdown cb = false.
Proof.
  intros Hinv Hj. destruct (is_countdown cb) eqn:Hcb; [exfalso|reflexivity].
  unfold clear_countdownInterval in Hj.
  destruct (countdownInterval w) as [i|] eqn:Hi.
  - cbn [timers set_timers] in Hj. apply lookup_delete_Some in Hj as [Hne Hj].
    specialize (Hinv j cb Hj Hcb). congruence.
  - specialize (Hinv j cb Hj Hcb). congruence.
Qed.

Lemma restart_inv (cb : callback) (w : world) :
  countdown_inv w -> countdown_inv (start_countdownInterval cb (clear_countdownInterval w)).
Proof.
  intros Hinv j cb' Hj Hcb'. unfold start_countdownInterval in *.
  cbn [timers countdownInterval set_timers] in *.
  apply lookup_insert_Some in Hj as [[<- _] | [_ Hj]]; [reflexivity|].
  pose proof (clear_no_countdown w j cb' Hinv Hj). congruence.
Qed.

Lemma frame_countdown_inv : frame keeps_countdown_inv.
Proof.
  split; unfold keeps_countdown_inv.
  - auto.
  - auto.
  - intros c w. now apply countdown_inv_timers.
  - intros t w. now apply countdown_inv_timers.
  - intros t w. now apply countdown_inv_timers.
  - intros e w. now apply countdown_inv_timers.
  - intros t w. now apply countdown_inv_timers.
  - intros cb w _. apply restart_inv.
Qed.

Lemma startLocalTime_inv (w : world) :
  countdown_inv w -> countdown_inv (snd (startLocalTime w)).
Proof.
  intros Hinv j cb Hj Hcb. unfold startLocalTime, modify in *.
  cbn [snd timers countdownInterval set_timers] in *.
  apply lookup_insert_Some in Hj as [[_ <-] | [_ Hj]]; [discriminate|].
  exact (Hinv j cb Hj Hcb).
Qed.

Lemma step_inv (w w' : world) : step H w w' -> countdown_inv w -> countdown_inv w'.
Proof.
  pose proof frame_countdown_inv as F.
  destruct 1.
  - apply startLocalTime_inv.
  - apply (g_loadWeather H _ F).
  - apply (g_loadRaceSchedule H _ F). intros e w0. unfold keeps_countdown_inv.
    now apply countdown_inv_timers.
  - apply (g_startRaceCountdown H _ F).
  - apply (g_updateCountdown H _ F).
  - apply (g_updateCountdownFromBackend_sync H _ F).
  - intros Hinv j cb Hj Hcb. cbn [timers countdownInterval set_timers] in *.
    apply lookup_insert_Some in Hj as [[_ <-] | [_ Hj]]; [discriminate|].
    exact (Hinv j cb Hj Hcb).
  - intros Hinv j cb' Hj Hcb'. cbn [timers countdownInterval set_timers] in *.
    apply lookup_delete_Some in Hj as [_ Hj]. exact (Hinv j cb' Hj Hcb').
  - apply (g_update_countdown_el _ F).
  - apply (g_backend_update H _ F).
Qed.

Lemma reachable_inv (w : world) : reachable H w -> countdown_inv w.
Proof.
  induction 1 as [w [Ht _]|w w' _ IH Hstep].
  - intros i cb Hi. rewrite Ht in Hi. now rewrite lookup_empty in Hi.
  - exact (step_inv w w' Hstep IH).
Qed.

Lemma countdown_timers_lookup (w : world) (i : positive) (cb : callback) :
  countdown_timers w !! i = Some cb <-> timers w !! i = Some cb /\ is_countdown cb = true.
Proof. unfold countdown_timers. now rewrite map_lookup_filter_Some. Qed.

Lemma inv_size (w : world) : countdown_inv w -> (size (countdown_timers w) <= 1)%nat.
Proof.
  intros Hinv.
  assert (Hkey : forall j cb, countdown_timers w !! j = Some cb -> countdownInterval w = Some j).
  { intros j cb Hj. apply countdown_timers_lookup in Hj as [Hj Hcb]. eauto. }
  destruct (countdownInterval w) as [i|] eqn:Hi.
  - destruct (countdown_timers w !! i) as [cb|] eqn:Hcb.
    + assert (Hm : countdown_timers w = {[i := cb]}).
      { apply map_eq. intros j. destruct (decide (j = i)) as [->|Hne].
        - now rewrite lookup_singleton_eq.
        - rewrite lookup_singleton_ne by congruence.
          destruct (countdown_timers w !! j) eqn:Hj; [|reflexivity].
          specialize (Hkey _ _ Hj). congruence. }
      rewrite Hm, map_size_singleton. lia.
    + assert (Hm : countdown_timers w = ∅).
      { apply map_empty. intros j.
        destruct (countdown_timers w !! j) eqn:Hj; [|reflexivity].
        specialize (Hkey _ _ Hj). congruence. }
      rewrite Hm, map_size_empty. lia.
  - assert (Hm : countdown_timers w = ∅).
    { apply map_empty. intros j.
      destruct (countdown_timers w !! j) eqn:Hj; [|reflexivity].
      specialize (Hkey _ _ Hj). congruence. }
    rewrite Hm, map_size_empty. lia.
Qed.

(** The countdown timers after a restart: the new one only. *)
Lemma restart_countdown_timers (cb : callback) (w : world) :
  countdown_inv w -> is_countdown cb = true ->
  exists k,
    countdownInterval (start_countdownInterval cb (clear_countdownInterval w)) = Some k
    /\ countdown_timers (start_countdownInterval cb (clear_countdownInterval w))
       = {[k := cb]}.
Proof.
  intros Hinv Hcb. exists (fresh (dom (timers (clear_countdownInterval w)))).
  split; [reflexivity|].
  apply map_eq. intros j.
  destruct (countdown_timers (start_countdownInterval cb (clear_countdownInterval w)) !! j)
    as [cb'|] eqn:Hj.
  - apply countdown_timers_lookup in Hj as [Hj Hcb'].
    unfold start_countdownInterval in Hj. cbn [timers set_timers] in Hj.
    apply lookup_insert_Some in Hj as [[<- <-] | [_ Hj]].
    + now rewrite lookup_singleton_eq.
    + pose proof (clear_no_countdown w j cb' Hinv Hj). congruence.
  - symmetry. destruct (decide (j = fresh (dom (timers (clear_countdownInterval w)))))
      as [->|Hne]; [|now rewrite lookup_singleton_ne by congruence].
    exfalso.
    assert (Hsome : countdown_timers (start_countdownInterval cb (clear_countdownInterval w))
                    !! fresh (dom (timers (clear_countdownInterval w))) = Some cb).
    { apply countdown_timers_lookup. split; [|exact Hcb].
      unfold start_countdownInterval. cbn [timers set_timers]. apply lookup_insert_eq. }
    congruence.
Qed.

Lemma update_countdown_el_timers (f : element -> element) (w : world) :
  timers (update_countdown_el f w) = timers w
  /\ countdownInterval (update_countdown_el f w) = countdownInterval w.
Proof. unfold update_countdown_el. destruct (nextRaceCountdown w); split; reflexivity. Qed.

Lemma frame_countdown_el : frame keeps_countdown_el.
Proof.
  split; unfold keeps_countdown_el.
  - auto.
  - auto.
  - intros c w. exact (fun Hel => Hel).
  - intros t w. exact (fun Hel => Hel).
  - intros t w. exact (fun Hel => Hel).
  - intros e w _. discriminate.
  - intros t w. exact (fun Hel => Hel).
  - intros cb w _. unfold start_countdownInterval, clear_countdownInterval.
    destruct (countdownInterval w); exact (fun Hel => Hel).
Qed.

Lemma countdown_timers_same (w w' : world) :
  timers w' = timers w -> countdown_timers w' = countdown_timers w.
Proof. unfold countdown_timers. now intros ->. Qed.

(** [updateCountdown] replaces the countdown timer. *)
Lemma updateCountdown_timers (clock : Z) (targetDate : instant) (raceName : value)
    (w : world) :
  countdown_inv w -> nextRaceCountdown w <> None ->
  exists k,
    countdownInterval (snd (updateCountdown H clock targetDate raceName w)) = Some k
    /\ countdown_timers (snd (updateCountdown H clock targetDate raceName w))
       = {[k := LocalUpdate targetDate]}.
Proof.
  intros Hinv Hel. unfold updateCountdown.
  destruct (nextRaceCountdown w) as [el|]; [|congruence].
  unfold bind, modify. cbn [snd]. rewrite start_after_update.
  destruct (restart_countdown_timers (LocalUpdate targetDate) w Hinv eq_refl)
    as (k & Hk & Hm).
  exists k. split.
  - now rewrite (proj2 (update_countdown_el_timers _ _)).
  - rewrite <- Hm. apply countdown_timers_same.
    exact (proj1 (update_countdown_el_timers _ _)).
Qed.

(** The synchronous part of [updateCountdownFromBackend] replaces the
    countdown timer. *)
Lemma updateCountdownFromBackend_sync_timers (countdown race : value) (w : world) :
  countdown_inv w -> nextRaceCountdown w <> None -> nullish race = false ->
  fst (updateCountdownFromBackend_sync H countdown race w) = Ok tt
  /\ exists k,
       countdownInterval (snd (updateCountdownFromBackend_sync H countdown race w)) = Some k
       /\ countdown_timers (snd (updateCountdownFromBackend_sync H countdown race w))
          = {[k := BackendUpdate race]}.
Proof.
  intros Hinv Hel Hn. unfold updateCountdownFromBackend_sync.
  destruct (nextRaceCountdown w) as [el|]; [|congruence].
  set (named := fun w0 : world => match nextRaceName w0 with
                                   | Some _ => _ w0
                                   | None => (Ok tt, w0)
                                   end).
  assert (Hnamed : exists w1, named w = (Ok tt, w1)
                              /\ timers w1 = timers w
                              /\ countdownInterval w1 = countdownInterval w).
  { subst named. cbv beta. destruct (nextRaceName w); [|eauto].
    unfold bind, lift, modify. rewrite (get_get_opt _ _ Hn). rewrite or_else_Ok.
    destruct (truthy (get_opt race "raceName")); eauto. }
  destruct Hnamed as (w1 & Hw1 & Ht & Hc).
  unfold bind, modify. rewrite !Hw1. cbn [fst snd]. split; [reflexivity|].
  assert (Hinv1 : countdown_inv w1) by (eapply countdown_inv_timers; eauto).
  exact (restart_countdown_timers (BackendUpdate race) w1 Hinv1 eq_refl).
Qed.

(** The [then] callback writes to the two elements only. *)
Lemma backend_then_timers (race nextRaceData : value) (w : world) :
  timers (snd (backend_then H race nextRaceData w)) = timers w
  /\ countdownInterval (snd (backend_then H race nextRaceData w)) = countdownInterval w
  /\ (nextRaceCountdown w <> None ->
      nextRaceCountdown (snd (backend_then H race nextRaceData w)) <> None).
Proof.
  unfold backend_then, bind, lift, modify, ret, update_countdown_el.
  repeat match goal with
         | |- context [match ?x with _ => _ end] => destruct x eqn:?
         | |- context [if ?x then _ else _] => destruct x eqn:?
         end; cbn; repeat split; auto; try congruence.
Qed.

(** The [catch] callback leaves the page as it is, or replaces the
    countdown timer by a local one. *)
Lemma backend_catch_timers (clock : Z) (race : value) (w : world) :
  countdown_inv w -> nextRaceCountdown w <> None -> nullish race = false ->
  snd (backend_catch H clock race w) = w
  \/ exists k,
       countdownInterval (snd (backend_catch H clock race w)) = Some k
       /\ countdown_timers (snd (backend_catch H clock race w))
          = {[k := LocalUpdate (new_Date H (get_opt race "datetime"))]}.
Proof.
  intros Hinv Hel Hn. unfold backend_catch, bind, lift.
  rewrite !(get_get_opt _ _ Hn).
  destruct (truthy (get_opt race "datetime")); [right|now left].
  exact (updateCountdown_timers clock _ _ w Hinv Hel).
Qed.

(** The settlement of the request of the closure [update] keeps the
    timers, or replaces the countdown timer by a local one. *)
Lemma backend_update_timers (clock : Z) (settled : result value) (race : value) (w : world) :
  countdown_inv w -> nextRaceCountdown w <> None -> nullish race = false ->
  (timers (snd (backend_update H clock settled race w)) = timers w
   /\ countdownInterval (snd (backend_update H clock settled race w)) = countdownInterval w)
  \/ exists k,
       countdownInterval (snd (backend_update H clock settled race w)) = Some k
       /\ countdown_timers (snd (backend_update H clock settled race w))
          = {[k := LocalUpdate (new_Date H (get_opt race "datetime"))]}.
Proof.
  intros Hinv Hel Hn.
  assert (Hdetached : forall (m : M unit) (w0 : world),
             snd (detached m w0) = snd (m w0)).
  { intros m w0. unfold detached, try_catch, ret. now destruct (m w0) as [[|] ?]. }
  unfold backend_update. rewrite Hdetached.
  destruct settled as [nextRaceData|e].
  - unfold try_catch.
    destruct (backend_then_timers race nextRaceData w) as (Ht & Hc & Hp).
    destruct (backend_then H race nextRaceData w) as [[u|e] w1]; cbn [snd] in *;
      [now left|].
    assert (Hinv1 : countdown_inv w1) by (eapply countdown_inv_timers; eauto).
    destruct (backend_catch_timers clock race w1 Hinv1 (Hp Hel) Hn) as [->|Hk];
      [now left|now right].
  - destruct (backend_catch_timers clock race w Hinv Hel Hn) as [->|Hk];
      [now left|now right].
Qed.

(** [updateCountdownFromBackend], with the settlement of its first
    request, replaces the countdown timer. *)
Lemma updateCountdownFromBackend_timers (clock : Z) (settled : result value)
    (countdown race : value) (w : world) :
  countdown_inv w -> nextRaceCountdown w <> None -> nullish race = false ->
  exists k cb,
    countdownInterval (snd (updateCountdownFromBackend H clock settled countdown race w))
    = Some k
    /\ countdown_timers (snd (updateCountdownFromBackend H clock settled countdown race w))
       = {[k := cb]}
    /\ (cb = BackendUpdate race
        \/ cb = LocalUpdate (new_Date H (get_opt race "datetime"))).
Proof.
  intros Hinv Hel Hn.
  destruct (updateCountdownFromBackend_sync_timers countdown race w Hinv Hel Hn)
    as (Hok & k & Hk & Hm).
  pose proof (g_updateCountdownFromBackend_sync H _ frame_countdown_inv countdown race w Hinv)
    as Hinv1.
  pose proof (g_updateCountdownFromBackend_sync H _ frame_countdown_el countdown race w Hel)
    as Hel1.
  unfold updateCountdownFromBackend.
  destruct (nextRaceCountdown w) as [el|]; [|congruence].
  unfold bind.
  destruct (updateCountdownFromBackend_sync H countdown race w) as [r w1].
  cbn [fst snd] in *. subst r.
  destruct (backend_update_timers clock settled race w1 Hinv1 Hel1 Hn)
    as [[Ht Hc]|(k' & Hk' & Hm')].
  - exists k, (BackendUpdate race). split; [congruence|]. split; [|now left].
    rewrite <- Hm. now apply countdown_timers_same.
  - exists k', (LocalUpdate (new_Date H (get_opt race "datetime"))). auto.
Qed.

Lemma detached_fst (m : M unit) (w : world) : fst (detached m w) = Ok tt.
Proof. unfold detached, try_catch, ret. destruct (m w) as [[[]|e] w1]; reflexivity. Qed.

Lemma updateCountdownFromBackend_fst (clock : Z) (settled : result value)
    (countdown race : value) (w : world) :
  nullish race = false ->
  fst (updateCountdownFromBackend H clock settled countdown race w) = Ok tt.
Proof.
  intros Hn. unfold updateCountdownFromBackend, updateCountdownFromBackend_sync.
  destruct (nextRaceCountdown w) eqn:Hel; [|reflexivity].
  unfold bind, lift, modify. rewrite Hel, (get_get_opt _ _ Hn). unfold or_else.
  cbn [rbind].
  destruct (nextRaceName w); [destruct (truthy (get_opt race "raceName"))|];
    cbn [fst snd]; unfold backend_update; apply detached_fst.
Qed.

(** [startRaceCountdown] either leaves the backend aside, or starts the
    backend countdown for the race of the answer, once the name element
    is written. *)
Lemma countdown_from_backend_cases (E : env) (w : world) :
  (exists w1, countdown_from_backend H E w = (Ok false, w1))
  \/ exists nextRaceData w0,
       backend_getNextRace E = Ok nextRaceData
       /\ nullish (get_opt nextRaceData "race") = false
       /\ timers w0 = timers w
       /\ countdownInterval w0 = countdownInterval w
       /\ nextRaceCountdown w0 = nextRaceCountdown w
       /\ countdown_from_backend H E w
          = (Ok true,
             snd (updateCountdownFromBackend H (now E) (backend_getNextRace_update E)
                    (get_opt nextRaceData "countdown") (get_opt nextRaceData "race") w0)).
Proof.
  unfold countdown_from_backend.
  set (started := updateCountdownFromBackend H (now E) (backend_getNextRace_update E)).
  destruct (backend_getNextRace E) as [nextRaceData|e]; [|left; eexists; reflexivity].
  destruct (nullish nextRaceData) eqn:Hnd.
  { left. destruct nextRaceData; try discriminate Hnd; eexists; reflexivity. }
  unfold try_catch, bind, lift, ret, modify.
  rewrite !(get_get_opt _ _ Hnd). unfold and_then. cbn [rbind].
  destruct (truthy nextRaceData) eqn:Htd; cbn [rbind]; rewrite ?Htd;
    [|left; eexists; reflexivity].
  destruct (truthy (get_opt nextRaceData "success")) eqn:Hts; rewrite ?Hts;
    [|left; eexists; reflexivity].
  destruct (truthy (get_opt nextRaceData "race")) eqn:Htr; [|left; eexists; reflexivity].
  pose proof (truthy_not_nullish _ Htr) as Hnr.
  rewrite !(get_get_opt _ _ Hnr). unfold or_else. cbn [rbind].
  assert (Hnamed : exists w0,
             match nextRaceName w with
             | Some _ =>
                 match
                   (if truthy (get_opt (get_opt nextRaceData "race") "raceName")
                    then Ok (get_opt (get_opt nextRaceData "race") "raceName")
                    else Ok (VStr "Next Race"))
                 with
                 | Ok a => (Ok tt, set_nextRaceName (ToString H a) w)
                 | Throw e => (Throw e, w)
                 end
             | None => (Ok tt, w)
             end = (Ok tt, w0)
             /\ timers w0 = timers w
             /\ countdownInterval w0 = countdownInterval w
             /\ nextRaceCountdown w0 = nextRaceCountdown w).
  { destruct (nextRaceName w); [|eauto].
    destruct (truthy (get_opt (get_opt nextRaceData "race") "raceName")); eauto 6. }
  destruct Hnamed as (w0 & -> & Ht & Hc & Hel).
  destruct (if truthy (get_opt nextRaceData "countdown") then _ else _) as [positive|e];
    [|left; eexists; reflexivity].
  destruct (truthy positive); [|left; eexists; reflexivity].
  right. exists nextRaceData, w0. repeat (split; [assumption || reflexivity|]).
  pose proof (updateCountdownFromBackend_fst (now E) (backend_getNextRace_update E)
                (get_opt nextRaceData "countdown") (get_opt nextRaceData "race") w0 Hnr)
    as Hok.
  fold started in Hok.
  destruct (started (get_opt nextRaceData "countdown") (get_opt nextRaceData "race") w0)
    as [r w2]. cbn [fst snd] in *. now subst r.
Qed.


(** C10.  In every state that the page reaches, at most one countdown
    interval timer is running.  On such a state, when the countdown
    element exists, [updateCountdown] and [updateCountdownFromBackend]
    (for a race that is not [null] or [undefined]) cancel the stored
    interval and leave exactly one countdown timer running, the new one,
    whose handle is stored: for [updateCountdownFromBackend] this holds
    after its synchronous part, and after the settlement of the request
    that its closure starts, whose [catch] may replace the timer once
    more by a local one.  The same holds of [startRaceCountdown] whenever
    it selects a target, through the backend or from the list. *)
Theorem one_countdown_timer (w : world) :
  reachable H w ->
  (size (countdown_timers w) <= 1)%nat
  /\ (forall clock targetDate raceName el,
        nextRaceCountdown w = Some el ->
        exists k,
          countdownInterval (snd (updateCountdown H clock targetDate raceName w)) = Some k
          /\ countdown_timers (snd (updateCountdown H clock targetDate raceName w))
             = {[k := LocalUpdate targetDate]})
  /\ (forall countdown race el,
        nextRaceCountdown w = Some el -> nullish race = false ->
        exists k,
          countdownInterval (snd (updateCountdownFromBackend_sync H countdown race w))
          = Some k
          /\ countdown_timers (snd (updateCountdownFromBackend_sync H countdown race w))
             = {[k := BackendUpdate race]})
  /\ (forall clock settled countdown race el,
        nextRaceCountdown w = Some el -> nullish race = false ->
        exists k cb,
          countdownInterval
            (snd (updateCountdownFromBackend H clock settled countdown race w)) = Some k
          /\ countdown_timers
               (snd (updateCountdownFromBackend H clock settled countdown race w))
             = {[k := cb]}
          /\ (cb = BackendUpdate race
              \/ cb = LocalUpdate (new_Date H (get_opt race "datetime"))))
  /\ (forall E races el,
        nextRaceCountdown w = Some el ->
        (size (countdown_timers (snd (startRaceCountdown H E races w))) <= 1)%nat
        /\ (forall nextRaceData,
              backend_getNextRace E = Ok nextRaceData ->
              fst (countdown_from_backend H E w) = Ok true ->
              exists k cb,
                countdownInterval (snd (startRaceCountdown H E races w)) = Some k
                /\ countdown_timers (snd (startRaceCountdown H E races w)) = {[k := cb]}
                /\ (cb = BackendUpdate (get_opt nextRaceData "race")
                    \/ cb = LocalUpdate
                              (new_Date H (get_opt (get_opt nextRaceData "race")
                                             "datetime"))))
        /\ (forall w1 items sorted next t,
              countdown_from_backend H E w = (Ok false, w1) ->
              races = VArr items ->
              sortByDate H races = Ok sorted ->
              find_upcoming H (now E) sorted = Ok next ->
              truthy next = true ->
              parseRaceDate H next = Ok (Some t) ->
              exists k,
                countdownInterval (snd (startRaceCountdown H E races w)) = Some k
                /\ countdown_timers (snd (startRaceCountdown H E races w))
                   = {[k := LocalUpdate (Some t)]})).
Proof.
  intros Hreach. pose proof (reachable_inv w Hreach) as Hinv.
  split; [exact (inv_size w Hinv)|].
  split; [|split; [|split]].
  - intros clock targetDate raceName el Hel.
    apply (updateCountdown_timers clock targetDate raceName w Hinv). congruence.
  - intros countdown race el Hel Hn.
    apply (updateCountdownFromBackend_sync_timers countdown race w Hinv); congruence.
  - intros clock settled countdown race el Hel Hn.
    apply (updateCountdownFromBackend_timers clock settled countdown race w Hinv);
      congruence.
  - intros E races el Hel.
    assert (Hel' : nextRaceCountdown w <> None) by congruence.
    split; [|split].
    + apply inv_size. exact (g_startRaceCountdown H _ frame_countdown_inv E races w Hinv).
    + intros nextRaceData Hdata Hstarted.
      destruct (countdown_from_backend_cases E w)
        as [[w1 Hfalse]|(data & w0 & Hdata' & Hn & Ht & Hc & He & Hrun)].
      { rewrite Hfalse in Hstarted. discriminate Hstarted. }
      rewrite Hdata in Hdata'. injection Hdata' as <-.
      unfold startRaceCountdown, bind, ret. rewrite Hrun. cbn [snd].
      apply updateCountdownFromBackend_timers; [|congruence|exact Hn].
      eapply countdown_inv_timers; eauto.
    + intros w1 items sorted next t Hbackend -> Hs Hf Htruthy Hp.
      assert (Hw : startRaceCountdown H E (VArr items) w
                   = countdown_from_races H (now E) (VArr items) w1).
      { unfold startRaceCountdown, bind. now rewrite Hbackend. }
      rewrite Hw, (countdown_from_races_found H (now E) items sorted next t w1 Hs Hf Htruthy Hp).
      cbn [snd].
      pose proof (g_countdown_from_backend H _ frame_countdown_inv E w Hinv) as Hinv1.
      pose proof (g_countdown_from_backend H _ frame_countdown_el E w Hel') as Hel1.
      rewrite Hbackend in Hinv1, Hel1. cbn [snd] in Hinv1, Hel1.
      unfold countdown_to, bind, when_present, modify.
      destruct (nextRaceName w1); cbn [snd];
        apply updateCountdown_timers; auto.
Qed.

End TimerProperties.

(** C10, witness: the clock is started and, with the backend down, the
    countdown to the next of the hardcoded races; one countdown timer
    then runs beside the clock.  The backend comes back and a countdown to
    its race is started: the timer of the first countdown is gone, and
    the one countdown timer that runs is the new one. *)
Lemma one_countdown_timer_witness :
  let down := example_env failed failed failed failed failed in
  let race := VObj [("raceName", VStr "Chinese Grand Prix");
                    ("datetime", VStr "2025-03-23T07:00:00Z")] in
  let countdown := VObj [("total_seconds", VNum 1180800%Q); ("days", VNum 13%Q);
                         ("hours", VNum 16%Q); ("minutes", VNum 0%Q);
                         ("seconds", VNum 0%Q)] in
  let nextRaceData := VObj [("success", VBool true); ("race", race);
                            ("countdown", countdown)] in
  let w := snd (startRaceCountdown Ref.ref_host down (VArr mockRaces)
                  (snd (startLocalTime example_page))) in
  let w' := snd (updateCountdownFromBackend Ref.ref_host example_now (Ok nextRaceData)
                   countdown race w) in
  reachable Ref.ref_host w
  /\ map_to_list (timers w)
     = [(2%positive, LocalUpdate (Some 1742749200000)); (1%positive, ClockTick)]
  /\ map_to_list (timers w')
     = [(2%positive, BackendUpdate race); (1%positive, ClockTick)]
  /\ exists k cb,
       countdownInterval w' = Some k
       /\ countdown_timers w' = {[k := cb]}
       /\ (cb = BackendUpdate race
           \/ cb = LocalUpdate (new_Date Ref.ref_host (get_opt race "datetime"))).
Proof.
  intros down race countdown nextRaceData w w'.
  assert (Hr : reachable Ref.ref_host w).
  { apply (reachable_step _ (snd (startLocalTime example_page))).
    - apply (reachable_step _ example_page).
      + apply reachable_initial. split; reflexivity.
      + apply step_startLocalTime.
    - apply step_startRaceCountdown. }
  split; [exact Hr|]. split; [vm_compute; reflexivity|]. split; [vm_compute; reflexivity|].
  destruct (one_countdown_timer Ref.ref_host w Hr) as (_ & _ & _ & Hfull & _).
  exact (Hfull example_now (Ok nextRaceData) countdown race
           {| textContent := "14d 2h 0m"; classList := [] |}
           ltac:(vm_compute; reflexivity) eq_refl).
Defined.

(** ** Acquisition of the schedule *)

Section AcquisitionProperties.

Variable H : host.

Lemma and_then_Ok (a : value) (b : result value) :
  Ok a &&& b = if truthy a then b else Ok a.
Proof. reflexivity. Qed.

Lemma tier1_nonempty (E : env) (year : number) (races : value) :
  tier1 H E year = Ok races -> gt0 H (get_opt races "length") = true.
Proof.
  unfold tier1. destruct (backend_getRaceSchedule E year) as [bd|]; [|discriminate].
  cbn [rbind].
  destruct (truthy bd) eqn:Hbd.
  2:{ repeat (rewrite and_then_Ok, Hbd). cbn [rbind]. rewrite Hbd. discriminate. }
  pose proof (truthy_not_nullish _ Hbd) as Hn.
  rewrite !(get_get_opt _ _ Hn). rewrite and_then_Ok, Hbd.
  destruct (truthy (get_opt bd "success")) eqn:Hs.
  2:{ repeat (rewrite and_then_Ok, Hs). cbn [rbind]. rewrite Hs. discriminate. }
  rewrite and_then_Ok, Hs.
  destruct (truthy (get_opt bd "races")) eqn:Hr.
  2:{ repeat (rewrite and_then_Ok, Hr). cbn [rbind]. rewrite Hr. discriminate. }
  pose proof (truthy_not_nullish _ Hr) as Hnr.
  rewrite and_then_Ok, Hr. cbn [rbind]. rewrite (get_get_opt _ _ Hnr). cbn [rbind truthy].
  destruct (gt0 H (get_opt (get_opt bd "races") "length")) eqn:Hlen; [|discriminate].
  intros Heq. inversion Heq; subst. exact Hlen.
Qed.

Lemma frame_console : frame keeps_console.
Proof.
  split; unfold keeps_console; intros; try reflexivity.
  - congruence.
  - unfold start_countdownInterval, clear_countdownInterval.
    destruct (countdownInterval w); reflexivity.
Qed.

Lemma detached_ok (m : M unit) (w : world) : fst (detached m w) = Ok tt.
Proof. unfold detached, try_catch, ret. destruct (m w) as [[[]|e] w']; reflexivity. Qed.

Lemma when_present_ok {A} (el : world -> option A) (f : world -> world) (w : world) :
  fst (when_present el f w) = Ok tt.
Proof. unfold when_present. destruct (el w); reflexivity. Qed.

Lemma renderSchedule_ok (clock : Z) (items : list value) (year : number) (w : world) :
  Forall (readable H) items ->
  exists races', fst (renderSchedule H clock (VArr items) year w) = Ok races'.
Proof.
  intros Hr. destruct (scheduleList w) as [content|] eqn:Hw.
  - destruct (renderSchedule_run H clock items year w content Hw Hr)
      as (sorted & cards & _ & Hrun & _).
    rewrite Hrun. eauto.
  - unfold renderSchedule. rewrite Hw. eauto.
Qed.

Lemma filterSource_readable (E : env) (year : number) (items : list value)
    (dataSource : string) :
  Forall (readable H) items ->
  exists kept,
    filterSource H E year (VArr items) dataSource = Ok (VArr kept)
    /\ Forall (readable H) kept.
Proof.
  intros Hr. unfold filterSource.
  destruct (String.eqb dataSource "rapidapi" || String.eqb dataSource "manual-json").
  - rewrite filterByYear_filter
      by (eapply List.Forall_impl; [apply readable_not_nullish|exact Hr]).
    cbn [rbind]. eexists. split; [reflexivity|].
    rewrite List.Forall_forall in Hr. apply List.Forall_forall.
    intros r Hin. apply filter_In in Hin as [Hin _]. auto.
  - eauto.
Qed.

(** The run of [loadRaceSchedule] after a tier has delivered an array of
    readable events. *)
Lemma loadRaceSchedule_acquired (E : env) (year : number) (w : world)
    (items : list value) (dataSource : string) :
  acquireTiers H E year = Ok (VArr items, dataSource) ->
  Forall (readable H) items ->
  exists kept,
    filterSource H E year (VArr items) dataSource = Ok (VArr kept)
    /\ fst (loadRaceSchedule H E year w) = Ok tt
    /\ console (snd (loadRaceSchedule H E year w))
       = console w ++ [FinalParsed year (of_nat (length kept)) dataSource]
    /\ (kept = [] ->
        forall content, scheduleList w = Some content ->
        scheduleList (snd (loadRaceSchedule H E year w)) = Some (Markup no_races_markup)).
Proof.
  intros Hacq Hr.
  destruct (filterSource_readable E year items dataSource Hr) as (kept & Hkept & Hrk).
  exists kept. split; [exact Hkept|].
  unfold loadRaceSchedule. rewrite Hacq. unfold bind, lift, modify.
  destruct (when_present scheduleList (set_scheduleList (Markup loading_markup)) w)
    as [r0 w0] eqn:Hload.
  assert (Hr0 : r0 = Ok tt)
    by (pose proof (when_present_ok scheduleList
                      (set_scheduleList (Markup loading_markup)) w) as Hk;
        now rewrite Hload in Hk).
  assert (Hc0 : console w0 = console w).
  { pose proof (g_when_present _ frame_console scheduleList
                  (set_scheduleList (Markup loading_markup)) (fun _ => eq_refl) w) as Hk.
    now rewrite Hload in Hk. }
  assert (Hs0 : forall content, scheduleList w = Some content -> scheduleList w0 <> None).
  { intros content Hw. unfold when_present in Hload. rewrite Hw in Hload.
    inversion Hload; subst. discriminate. }
  subst r0. rewrite Hkept. cbn [get String.eqb Ascii.eqb Bool.eqb].
  set (w1 := add_log (FinalParsed year (of_nat (length kept)) dataSource) w0).
  assert (Hc1 : console w1 = console w ++ [FinalParsed year (of_nat (length kept)) dataSource])
    by (subst w1; cbn [console add_log]; now rewrite Hc0).
  assert (Hs1 : scheduleList w1 = scheduleList w0) by reflexivity.
  destruct (gt0 H (of_nat (length kept))) eqn:Hlen.
  - apply gt0_length in Hlen.
    destruct (renderSchedule_ok (now E) kept year w1 Hrk) as [races' Hrender].
    pose proof (g_renderSchedule H _ frame_console (now E) (VArr kept) year w1) as Hcr.
    destruct (renderSchedule H (now E) (VArr kept) year w1) as [r2 w2].
    cbn [fst snd] in Hrender, Hcr. subst r2. unfold keeps_console in Hcr.
    destruct (strict_eq year (getFullYear H (Some (now E)))).
    + split; [apply detached_ok|]. split; [|intros Hnil; congruence].
      pose proof (g_detached _ frame_console _
                    (g_startRaceCountdown H _ frame_console E races') w2) as Hcd.
      unfold keeps_console in Hcd. congruence.
    + split; [reflexivity|]. split; [|intros Hnil; congruence].
      cbn [snd ret]. congruence.
  - split; [apply when_present_ok|]. split.
    + pose proof (g_when_present _ frame_console scheduleList
                    (set_scheduleList (Markup no_races_markup)) (fun _ => eq_refl) w1) as Hk.
      unfold keeps_console in Hk. congruence.
    + intros _ content Hw. unfold when_present.
      destruct (scheduleList w1) eqn:Hs; [reflexivity|].
      exfalso. apply (Hs0 content Hw). congruence.
Qed.

(** The run of [loadRaceSchedule] when the three tiers throw. *)
Lemma loadRaceSchedule_fallback (E : env) (year : number) (w : world) (e : exn) :
  acquireTiers H E year = Throw e ->
  loadRaceSchedule H E year w = (Ok tt, snd (renderMockSchedule H (loading w)))
  /\ console (snd (loadRaceSchedule H E year w)) = console w
  /\ (forall content, scheduleList w = Some content ->
      scheduleList (snd (loadRaceSchedule H E year w))
      = Some (Cards (map (mock_card H) mockRaces))).
Proof.
  intros Hacq.
  assert (Hrun : loadRaceSchedule H E year w
                 = (Ok tt, snd (renderMockSchedule H (loading w)))).
  { unfold loadRaceSchedule, loading, renderMockSchedule. rewrite Hacq.
    unfold bind, when_present.
    destruct (scheduleList w) eqn:Hw; cbn [snd scheduleList set_scheduleList];
      rewrite ?Hw; reflexivity. }
  rewrite Hrun. split; [reflexivity|]. cbn [snd]. split.
  - unfold renderMockSchedule, loading, when_present.
    destruct (scheduleList w) eqn:Hw; cbn [snd scheduleList set_scheduleList];
      rewrite ?Hw; reflexivity.
  - intros content Hw. unfold renderMockSchedule, loading, when_present.
    rewrite Hw. reflexivity.
Qed.

(** C1 (amended).  For every requested year and every outcome of the three
    tiers: the races and the source tag are those of the first tier that
    does not throw (backend-fastf1, rapidapi, manual-json); the list of the
    backend tier and of the rapidapi tier is not empty; when the tier
    delivers an array of events whose dates can be read, [loadRaceSchedule]
    throws nothing, logs the source tag with the number of races left by
    the year filter, and shows "No races found for this season." when none
    is left; when the three tiers throw, it throws nothing, logs nothing
    and renders exactly the three hardcoded races. *)
Theorem loadRaceSchedule_tiers (E : env) (year : number) (w : world) :
  (forall races,
     tier1 H E year = Ok races ->
     acquireTiers H E year = Ok (races, "backend-fastf1")
     /\ gt0 H (get_opt races "length") = true)
  /\ (forall e1 races,
        tier1 H E year = Throw e1 -> tier2 H E = Ok races ->
        acquireTiers H E year = Ok (races, "rapidapi")
        /\ exists items, races = VArr items /\ items <> [])
  /\ (forall e1 e2 races,
        tier1 H E year = Throw e1 -> tier2 H E = Throw e2 -> tier3 E = Ok races ->
        acquireTiers H E year = Ok (races, "manual-json"))
  /\ (forall e1 e2 e3,
        tier1 H E year = Throw e1 -> tier2 H E = Throw e2 -> tier3 E = Throw e3 ->
        loadRaceSchedule H E year w = (Ok tt, snd (renderMockSchedule H (loading w)))
        /\ console (snd (loadRaceSchedule H E year w)) = console w
        /\ length mockRaces = 3%nat
        /\ forall content,
             scheduleList w = Some content ->
             scheduleList (snd (loadRaceSchedule H E year w))
             = Some (Cards (map (mock_card H) mockRaces)))
  /\ (forall items dataSource,
        acquireTiers H E year = Ok (VArr items, dataSource) ->
        Forall (readable H) items ->
        exists kept,
          filterSource H E year (VArr items) dataSource = Ok (VArr kept)
          /\ fst (loadRaceSchedule H E year w) = Ok tt
          /\ console (snd (loadRaceSchedule H E year w))
             = console w ++ [FinalParsed year (of_nat (length kept)) dataSource]
          /\ (kept = [] ->
              forall content, scheduleList w = Some content ->
              scheduleList (snd (loadRaceSchedule H E year w))
              = Some (Markup no_races_markup))).
Proof.
  split; [|split; [|split; [|split]]].
  - intros races H1. split; [|exact (tier1_nonempty E year races H1)].
    unfold acquireTiers. now rewrite H1.
  - intros e1 races H1 H2. split; [unfold acquireTiers; now rewrite H1, H2|].
    apply tier2_spec in H2 as (res & data & items & _ & _ & _ & _ & Hr & Hne & _).
    eauto.
  - intros e1 e2 races H1 H2 H3. unfold acquireTiers. now rewrite H1, H2, H3.
  - intros e1 e2 e3 H1 H2 H3.
    assert (Hacq : acquireTiers H E year = Throw e3)
      by (unfold acquireTiers; now rewrite H1, H2, H3).
    destruct (loadRaceSchedule_fallback E year w e3 Hacq) as (Hrun & Hc & Hs).
    auto.
  - intros items dataSource. apply loadRaceSchedule_acquired.
Qed.

End AcquisitionProperties.

(** C1, counterexample: the backend and RapidAPI are down, the manual file
    is served and holds the season 2024, and the season 2025 is requested.
    The tertiary tier succeeds, but the year filter leaves an empty list:
    the page shows "No races found for this season." *)
Lemma loadRaceSchedule_empty_counterexample :
  let manualData :=
    VObj [("races",
           VArr [VObj [("round", VNum 1%Q); ("raceName", VStr "Bahrain Grand Prix");
                       ("country", VStr "Bahrain"); ("date", VStr "2024-03-02");
                       ("time", VStr "15:00:00Z")]])] in
  let E := example_env failed failed failed (ok_json manualData) failed in
  acquireTiers Ref.ref_host E (Some 2025) = Ok (get_opt manualData "races", "manual-json")
  /\ filterSource Ref.ref_host E (Some 2025) (get_opt manualData "races") "manual-json"
     = Ok (VArr [])
  /\ loadRaceSchedule Ref.ref_host E (Some 2025) example_page
     = (Ok tt,
        add_log (FinalParsed (Some 2025) (of_nat 0) "manual-json")
                (set_scheduleList (Markup no_races_markup) example_page)).
Proof. repeat split; vm_compute; reflexivity. Qed.

(** * Further properties *)

(** ** The backend client *)

Section BackendClientProperties.

Import BackendClient.

Variable H : host.

(** A payload that [getRaceSchedule] accepts: [data.success && data.races]. *)
Lemma accepted_payload (data : value) (valid : value) :
  get data "success" &&& get data "races" = Ok valid -> truthy valid = true ->
  truthy (get_opt data "success") = true /\ truthy (get_opt data "races") = true
  /\ truthy data = true.
Proof.
  intros Hv Ht. destruct data; try discriminate Hv.
  all: try (vm_compute in Hv; injection Hv as <-; discriminate Ht).
  unfold and_then in Hv. cbn [get rbind get_opt] in *.
  destruct (truthy (lookup "success" props)) eqn:Es.
  - injection Hv as <-. auto.
  - injection Hv as <-. congruence.
Qed.

Lemma getRaceSchedule_fetched (fetch : string -> result response) (now now' : Z)
    (c : cache) (year : number) (includeSessions : bool) :
  cache_hit now c year = Ok false ->
  snd (getRaceSchedule H fetch now now' c year includeSessions)
  = [race_schedule_url H year includeSessions]
  /\ match fst (fst (getRaceSchedule H fetch now now' c year includeSessions)) with
     | Ok data =>
         snd (fst (getRaceSchedule H fetch now now' c year includeSessions))
         = {| raceSchedule := data; cacheTime := Some now' |}
         /\ truthy (get_opt data "success") = true
         /\ truthy (get_opt data "races") = true
         /\ truthy data = true
     | Throw _ => snd (fst (getRaceSchedule H fetch now now' c year includeSessions)) = c
     end.
Proof.
  intros Hh. unfold getRaceSchedule. rewrite Hh.
  destruct (fetch _) as [response|e]; cbn [rbind]; [|cbn [fst snd]; auto].
  destruct (ok response); cbn [negb]; [|cbn [fst snd]; auto].
  destruct (json response) as [data|e]; cbn [rbind]; [|cbn [fst snd]; auto].
  destruct (get data "success" &&& get data "races") as [valid|e] eqn:Ev;
    cbn [rbind]; [|cbn [fst snd]; auto].
  destruct (truthy valid) eqn:Et; cbn [fst snd]; [|auto].
  split; [reflexivity|]. split; [reflexivity|].
  exact (accepted_payload data valid Ev Et).
Qed.

Lemma cache_hit_total (now : Z) (c : cache) (year : number) :
  exists b, cache_hit now c year = Ok b.
Proof.
  unfold cache_hit. destruct (truthy (raceSchedule c)) eqn:Et; [|eauto].
  rewrite (get_get_opt _ _ (truthy_not_nullish _ Et)). cbn [rbind].
  destruct (strict_eq_num _ year); [|eauto].
  destruct (cacheTime c); eauto.
Qed.

(** X1.  A schedule that [getRaceSchedule] has answered with, and whose
    [year] field is the requested year, is served from the cache to every
    call for that year made less than five minutes after it was stored:
    the call makes no request and leaves the cache as it is, whatever
    [includeSessions] asks for.  From five minutes on, the call makes
    exactly one request. *)
Theorem getRaceSchedule_cache_round_trip
    (fetch fetch' : string -> result response) (now now' later later' : Z)
    (c c1 : cache) (year : number) (includeSessions includeSessions' : bool)
    (data : value) (requests : list string) :
  getRaceSchedule H fetch now now' c year includeSessions = (Ok data, c1, requests) ->
  strict_eq_num (get_opt data "year") year = true ->
  requests <> [] ->
  now' <> 0 ->
  (later - now' < cacheDuration ->
   getRaceSchedule H fetch' later later' c1 year includeSessions' = (Ok data, c1, []))
  /\ (cacheDuration <= later - now' ->
      snd (getRaceSchedule H fetch' later later' c1 year includeSessions')
      = [race_schedule_url H year includeSessions']).
Proof.
  intros Hcall Hyear Hreq Hnow.
  destruct (cache_hit_total now c year) as [[|] Hh].
  { unfold getRaceSchedule in Hcall. rewrite Hh in Hcall.
    injection Hcall as _ _ <-. now contradiction Hreq. }
  destruct (getRaceSchedule_fetched fetch now now' c year includeSessions Hh) as [_ Hout].
  rewrite Hcall in Hout. cbn [fst snd] in Hout. destruct Hout as (-> & _ & _ & Ht).
  assert (Hhit : cache_hit later {| raceSchedule := data; cacheTime := Some now' |} year
                 = Ok (later - now' <? cacheDuration)).
  { unfold cache_hit. cbn [raceSchedule cacheTime]. rewrite Ht.
    rewrite (get_get_opt _ _ (truthy_not_nullish _ Ht)). cbn [rbind]. rewrite Hyear.
    destruct (Z.eqb_spec now' 0) as [E|_]; [contradiction|]. reflexivity. }
  split.
  - intros Hfresh. unfold getRaceSchedule. rewrite Hhit.
    destruct (Z.ltb_spec (later - now') cacheDuration) as [_|Hge]; [reflexivity|lia].
  - intros Hstale.
    apply getRaceSchedule_fetched. rewrite Hhit.
    destruct (Z.ltb_spec (later - now') cacheDuration) as [Hlt|_]; [lia|reflexivity].
Qed.

(** X2.  [getRaceSchedule] resolves only with a payload whose [success]
    and [races] are truthy, and that payload is then the cached one; a
    call that rejects leaves the cache untouched; a call makes at most
    one request.  The cache therefore never holds a payload that was not
    accepted. *)
Theorem getRaceSchedule_accepts_only_valid
    (fetch : string -> result response) (now now' : Z) (c : cache) (year : number)
    (includeSessions : bool) :
  cache_ok c ->
  let '(answer, c1, requests) := getRaceSchedule H fetch now now' c year includeSessions in
  cache_ok c1
  /\ (length requests <= 1)%nat
  /\ match answer with
     | Ok data =>
         truthy (get_opt data "success") = true
         /\ truthy (get_opt data "races") = true
         /\ raceSchedule c1 = data
     | Throw _ => c1 = c
     end.
Proof.
  intros Hc.
  destruct (cache_hit_total now c year) as [[|] Hh].
  - unfold getRaceSchedule. rewrite Hh.
    assert (Ht : truthy (raceSchedule c) = true).
    { unfold cache_hit in Hh. destruct (truthy (raceSchedule c)); [reflexivity|discriminate]. }
    destruct (Hc Ht) as [Hs Hr]. cbn [length]. auto 6.
  - destruct (getRaceSchedule_fetched fetch now now' c year includeSessions Hh) as [Hreq Hout].
    destruct (getRaceSchedule H fetch now now' c year includeSessions) as [[answer c1] requests].
    cbn [fst snd] in *. subst requests. cbn [length].
    destruct answer as [data|e].
    + destruct Hout as (-> & Hs & Hr & _). cbn [raceSchedule].
      split; [intros _; cbn [raceSchedule]; auto|]. auto.
    + subst c1. auto.
Qed.

(** X3.  Whenever the request for the next race fails - in transport, by
    its HTTP status, by a body that is not JSON, or by a [success] flag
    that is not set - [getNextRace] rejects, and [startRaceCountdown]
    computes the countdown from the races it was given. *)
Theorem startRaceCountdown_backend_down
    (fetch : string -> result response) (E : env) (races : value) (w : world) :
  backend_getNextRace E = getNextRace H fetch ->
  match fetch (apiUrl +:+ "/next-race") with
  | Throw _ => True
  | Ok response =>
      ok response = false
      \/ match json response with
         | Throw _ => True
         | Ok data => truthy (get_opt data "success") = false
         end
  end ->
  is_ok (getNextRace H fetch) = false
  /\ startRaceCountdown H E races w = countdown_from_races H (now E) races w.
Proof.
  intros HE Hfail.
  assert (Hrej : is_ok (getNextRace H fetch) = false).
  { unfold getNextRace, fetch_success.
    destruct (fetch _) as [response|e]; [|reflexivity]. cbn [rbind].
    destruct Hfail as [->|Hfail]; [reflexivity|].
    destruct (ok response); [|reflexivity]. cbn [negb].
    destruct (json response) as [data|e]; [|reflexivity]. cbn [rbind].
    destruct (nullish data) eqn:En.
    - rewrite (get_nullish _ _ En). reflexivity.
    - rewrite (get_get_opt _ _ En). cbn [rbind]. rewrite Hfail. reflexivity. }
  split; [exact Hrej|].
  unfold startRaceCountdown, countdown_from_backend, try_catch, bind, lift.
  rewrite HE. destruct (getNextRace H fetch); [discriminate Hrej|]. reflexivity.
Qed.

(** X4.  [joinClub] and [createRaceReaction] never resolve on a response
    that is not ok: they reject with the [detail] of the JSON error body
    when it has one, with the HTTP status otherwise, and with the parse
    error itself when the error body is not JSON. *)
Theorem post_json_rejects
    (fetch_post : string -> value -> result response) (url : string) (body : value)
    (response : response) :
  fetch_post url body = Ok response ->
  ok response = false ->
  match json response with
  | Throw e => post_json H fetch_post url body = Throw e
  | Ok errorData =>
      if nullish errorData then post_json H fetch_post url body = Throw TypeError
      else if truthy (get_opt errorData "detail") then
        post_json H fetch_post url body
        = Throw (Error (ToString H (get_opt errorData "detail")))
      else
        post_json H fetch_post url body
        = Throw (Error ("HTTP error! status: " +:+ num_toString H (Some (status response))))
  end.
Proof.
  intros Hf Hok. unfold post_json. rewrite Hf. cbn [rbind]. rewrite Hok. cbn [negb].
  destruct (json response) as [errorData|e]; [|reflexivity]. cbn [rbind].
  destruct (nullish errorData) eqn:En.
  - rewrite (get_nullish _ _ En). reflexivity.
  - rewrite (get_get_opt _ _ En). cbn [rbind].
    destruct (truthy (get_opt errorData "detail")); reflexivity.
Qed.

End BackendClientProperties.

(** X1, witness: a first call at 12:00:00.000 stores the schedule of 2025;
    a second call, four minutes later, asks for sessions. *)
Lemma getRaceSchedule_cache_round_trip_witness :
  let data := VObj [("success", VBool true); ("races", VArr [VObj [("round", VNum 1%Q)]]);
                    ("count", VNum 1%Q); ("year", VNum 2025%Q)] in
  let fetch := fun _ : string => ok_json data in
  let fetch' := fun _ : string => @failed response in
  let c1 := {| BackendClient.raceSchedule := data;
               BackendClient.cacheTime := Some 1741521600250 |} in
  BackendClient.getRaceSchedule Ref.ref_host fetch 1741521600000 1741521600250
    BackendClient.empty_cache (Some 2025) false
  = (Ok data, c1,
     ["http://localhost:8000/api/race-schedule?year=2025&include_sessions=false"])
  /\ BackendClient.getRaceSchedule Ref.ref_host fetch' 1741521840000 1741521840250
       c1 (Some 2025) true
     = (Ok data, c1, []).
Proof.
  intros data fetch fetch' c1.
  assert (Hcall : BackendClient.getRaceSchedule Ref.ref_host fetch 1741521600000 1741521600250
                    BackendClient.empty_cache (Some 2025) false
                  = (Ok data, c1,
                     ["http://localhost:8000/api/race-schedule?year=2025&include_sessions=false"]))
    by (vm_compute; reflexivity).
  split; [exact Hcall|].
  apply (proj1 (getRaceSchedule_cache_round_trip Ref.ref_host fetch fetch'
                  1741521600000 1741521600250 1741521840000 1741521840250
                  BackendClient.empty_cache c1 (Some 2025) false true data _ Hcall
                  ltac:(vm_compute; reflexivity) ltac:(discriminate) ltac:(discriminate))).
  vm_compute. reflexivity.
Defined.

(** X2, witness: the first call of a page, on the empty cache. *)
Lemma getRaceSchedule_accepts_only_valid_witness :
  let data := VObj [("success", VBool true); ("races", VArr []); ("year", VNum 2025%Q)] in
  let fetch := fun _ : string => ok_json data in
  BackendClient.cache_ok BackendClient.empty_cache
  /\ BackendClient.cache_ok
       (snd (fst (BackendClient.getRaceSchedule Ref.ref_host fetch 1000 1001
                    BackendClient.empty_cache (Some 2025) false))).
Proof.
  intros data fetch.
  assert (H0 : BackendClient.cache_ok BackendClient.empty_cache) by (intros Ht; discriminate Ht).
  split; [exact H0|].
  pose proof (getRaceSchedule_accepts_only_valid Ref.ref_host fetch 1000 1001
                BackendClient.empty_cache (Some 2025) false H0) as Hv.
  destruct (BackendClient.getRaceSchedule Ref.ref_host fetch 1000 1001
              BackendClient.empty_cache (Some 2025) false) as [[answer c1] requests].
  exact (proj1 Hv).
Defined.

(** X3, witness: the backend answers 503. *)
Lemma startRaceCountdown_backend_down_witness :
  let fetch := fun _ : string =>
    Ok {| ok := false; status := 503; json := Throw SyntaxError |} in
  let E := example_env failed (BackendClient.getNextRace Ref.ref_host fetch)
             failed failed failed in
  startRaceCountdown Ref.ref_host E (VArr mockRaces) example_page
  = countdown_from_races Ref.ref_host example_now (VArr mockRaces) example_page.
Proof.
  intros fetch E.
  exact (proj2 (startRaceCountdown_backend_down Ref.ref_host fetch E (VArr mockRaces)
                  example_page eq_refl (or_introl eq_refl))).
Defined.

(** X4, witness: a validation error of the backend, whose [detail] is a
    list of objects. *)
Lemma post_json_rejects_witness :
  let errorData := VObj [("detail", VArr [VObj [("msg", VStr "field required")]])] in
  let response := {| ok := false; status := 422; json := Ok errorData |} in
  BackendClient.joinClub Ref.ref_host (fun _ _ => Ok response) (VObj [])
  = Throw (Error "[object Object]").
Proof.
  intros errorData response.
  exact (post_json_rejects Ref.ref_host (fun _ _ => Ok response)
           (BackendClient.apiUrl +:+ "/club-members") (VObj []) response eq_refl eq_refl).
Defined.

(** ** The join-club form, whatever the outcome of the submission *)

Section JoinClubOutcomes.

Import JoinClub.

Variable H : host.

Lemma submitJoinClubForm_effects (client : SanityClient) (post : result response)
    (submittedAt : string) (formData : value) :
  existsb is_alert (snd (submitJoinClubForm H client post submittedAt formData)) = false
  /\ (length (List.filter is_fetch (snd (submitJoinClubForm H client post submittedAt formData)))
      <= 1)%nat.
Proof.
  unfold submitJoinClubForm.
  destruct (truthy (writeToken client)); cbn [negb]; [|cbn; auto].
  destruct (mutation_of submittedAt formData) as [mutation|e]; [|cbn; auto].
  destruct post as [response|e]; cbn [rbind]; [|cbn; auto].
  destruct (ok response); cbn [negb]; [|cbn; auto].
  destruct (json response); cbn; auto.
Qed.

(** X5.  Whatever the client, the answer of the content API and the form
    data, [handleSubmit] ends by showing the welcome message and resetting
    the form; nothing before that is an alert, and at most one request is
    made.  The user is told of success also when the submission failed. *)
Theorem handleSubmit_always_welcomes (sanity : option SanityClient)
    (post : result response) (submittedAt : string) (data : value) :
  exists before,
    handleSubmit H sanity post submittedAt data = before ++ [Alert welcome; FormReset]
    /\ existsb is_alert before = false
    /\ (length (List.filter is_fetch before) <= 1)%nat.
Proof.
  unfold handleSubmit. destruct sanity as [client|]; [|exists []; cbn; auto].
  destruct (String.eqb (projectId client) "YOUR_PROJECT_ID"); cbn [negb];
    [exists []; cbn; auto|].
  destruct (submitJoinClubForm_effects client post submittedAt data) as [Ha Hf].
  destruct (submitJoinClubForm H client post submittedAt data) as [result effects].
  cbn [snd] in Ha, Hf.
  destruct (get result "success") as [success|e].
  - destruct (truthy success).
    + exists effects. auto.
    + exists (effects ++ [ConsoleWarn "Form submission to Sanity failed, using fallback"]).
      rewrite <- app_assoc. split; [reflexivity|].
      rewrite existsb_app, Ha, List.filter_app, length_app. cbn. split; [reflexivity|lia].
  - exists (effects ++ [ConsoleWarn "Error submitting form to Sanity:"]).
    rewrite <- app_assoc. split; [reflexivity|].
    rewrite existsb_app, Ha, List.filter_app, length_app. cbn. split; [reflexivity|lia].
Qed.

(** X6.  With a write token configured, [submitJoinClubForm] makes exactly
    one request: to the write URL, with the token as bearer credential,
    and with a body that creates a [clubMember] document carrying the
    form's [name], [email] and [city], with status [pending].  It never
    rejects, and its answer has [success: true] exactly when the response
    is ok and its body is JSON. *)
Theorem submit_with_token (client : SanityClient) (post : result response)
    (submittedAt : string) (formData : value) :
  truthy (writeToken client) = true ->
  nullish formData = false ->
  let document :=
    VObj [("_type", VStr "clubMember"); ("name", get_opt formData "name");
          ("email", get_opt formData "email"); ("city", get_opt formData "city");
          ("submittedAt", VStr submittedAt); ("status", VStr "pending")] in
  let body := VObj [("mutations", VArr [VObj [("create", document)]])] in
  List.filter is_fetch (snd (submitJoinClubForm H client post submittedAt formData))
  = [Fetch (writeUrl client) ("Bearer " +:+ ToString H (writeToken client)) body]
  /\ exists success : bool,
       get (fst (submitJoinClubForm H client post submittedAt formData)) "success"
       = Ok (VBool success)
       /\ (success = true <->
           exists response data,
             post = Ok response /\ ok response = true /\ json response = Ok data).
Proof.
  intros Htoken Hdata document body. unfold submitJoinClubForm, mutation_of.
  rewrite Htoken. cbn [negb]. rewrite !(get_get_opt _ _ Hdata). cbn [rbind].
  fold document. fold body.
  destruct post as [response|e]; cbn [rbind].
  - destruct (ok response) eqn:Eok; cbn [negb].
    + destruct (json response) as [data|e] eqn:Ej; cbn [rbind fst snd].
      * split; [reflexivity|]. exists true. split; [reflexivity|].
        split; [intros _; eauto|reflexivity].
      * split; [reflexivity|]. exists false. split; [reflexivity|].
        split; [discriminate|]. intros (r & d & Hr & _ & Hj).
        injection Hr as <-. congruence.
    + cbn [fst snd]. split; [reflexivity|]. exists false. split; [reflexivity|].
      split; [discriminate|]. intros (r & d & Hr & Ho & _). injection Hr as <-. congruence.
  - cbn [fst snd]. split; [reflexivity|]. exists false. split; [reflexivity|].
    split; [discriminate|]. intros (r & d & Hr & _). discriminate Hr.
Qed.

End JoinClubOutcomes.

(** X6, witness: a client with a token, and the content API answering 401. *)
Lemma submit_with_token_witness :
  let client := {| JoinClub.projectId := "j5jgcp4i";
                   JoinClub.writeUrl :=
                     "https://j5jgcp4i.api.sanity.io/v2024-01-01/data/mutate/production";
                   JoinClub.writeToken := VStr "sk-test" |} in
  let formData := VObj [("name", VStr "Wanjiku"); ("email", VStr "w@example.org");
                        ("city", VStr "Nairobi")] in
  let post := Ok {| ok := false; status := 401; json := Throw SyntaxError |} in
  JoinClub.submitJoinClubForm Ref.ref_host client post "2025-03-09T15:00:00.000Z" formData
  = (VObj [("success", VBool false); ("error", VStr "Submission failed: 401")],
     [JoinClub.Fetch "https://j5jgcp4i.api.sanity.io/v2024-01-01/data/mutate/production"
        "Bearer sk-test"
        (VObj [("mutations",
                VArr [VObj [("create",
                             VObj [("_type", VStr "clubMember"); ("name", VStr "Wanjiku");
                                   ("email", VStr "w@example.org"); ("city", VStr "Nairobi");
                                   ("submittedAt", VStr "2025-03-09T15:00:00.000Z");
                                   ("status", VStr "pending")])]])]);
      JoinClub.ConsoleError "Error submitting form:"])
  /\ List.filter JoinClub.is_fetch
       (snd (JoinClub.submitJoinClubForm Ref.ref_host client post
               "2025-03-09T15:00:00.000Z" formData))
     = [JoinClub.Fetch (JoinClub.writeUrl client)
          ("Bearer " +:+ ToString Ref.ref_host (JoinClub.writeToken client))
          (VObj [("mutations",
                  VArr [VObj [("create",
                               VObj [("_type", VStr "clubMember");
                                     ("name", get_opt formData "name");
                                     ("email", get_opt formData "email");
                                     ("city", get_opt formData "city");
                                     ("submittedAt", VStr "2025-03-09T15:00:00.000Z");
                                     ("status", VStr "pending")])]])])].
Proof.
  intros client formData post. split; [vm_compute; reflexivity|].
  exact (proj1 (submit_with_token Ref.ref_host client post "2025-03-09T15:00:00.000Z"
                  formData eq_refl eq_refl)).
Defined.

(** ** The hint of an upcoming card *)

Section TimeUntilRaceProperties.

Variable H : host.

(** X7.  For a race that starts after the clock reading, the hint counts
    whole hours below one day, whole days from one day up to (but not
    including) eight days, and whole weeks from eight days on; below one
    hour it reads "Less than an hour away!".  The count shown is never
    zero: it is at least 1, at most 23 hours and at most 7 days (seven
    days are "7 days away", not a week). *)
Theorem getTimeUntilRace_units (now t : Z) :
  now < t ->
  let diff := t - now in
  (diff < ms_hour -> getTimeUntilRace H now (Some t) = "Less than an hour away!")
  /\ (ms_hour <= diff < ms_day ->
      getTimeUntilRace H now (Some t) = away H (Some (diff / ms_hour)) "hour"
      /\ 1 <= diff / ms_hour <= 23)
  /\ (ms_day <= diff < 8 * ms_day ->
      getTimeUntilRace H now (Some t) = away H (Some (diff / ms_day)) "day"
      /\ 1 <= diff / ms_day <= 7)
  /\ (8 * ms_day <= diff ->
      getTimeUntilRace H now (Some t) = away H (Some (diff / (7 * ms_day))) "week"
      /\ 1 <= diff / (7 * ms_day)).
Proof.
  intros Hlt diff. assert (Hpos : 0 < diff) by (unfold diff; lia).
  assert (E : getTimeUntilRace H now (Some t)
              = if 7 <? diff / ms_day then away H (Some (diff / ms_day / 7)) "week"
                else if 0 <? diff / ms_day then away H (Some (diff / ms_day)) "day"
                else if 0 <? diff mod ms_day / ms_hour
                     then away H (Some (diff mod ms_day / ms_hour)) "hour"
                     else "Less than an hour away!").
  { unfold getTimeUntilRace, num_sub, num_le, floor_div, num_rem, num_gt. fold diff.
    destruct (Z.leb_spec diff 0) as [Hle|_]; [lia|].
    change (ms_day =? 0) with false. cbn [option_map].
    rewrite (Z.rem_mod_nonneg diff ms_day) by (unfold ms_day; lia). reflexivity. }
  rewrite E. clear E. unfold ms_day, ms_hour in *.
  assert (Hm : 0 <= diff mod (1000 * 60 * 60 * 24) < 1000 * 60 * 60 * 24)
    by (apply Z.mod_pos_bound; lia).
  split; [|split; [|split]].
  - intros Hh.
    rewrite (Z.div_small diff (1000 * 60 * 60 * 24)) by lia. cbn [Z.ltb Z.compare].
    rewrite Z.mod_small by lia. rewrite Z.div_small by lia. reflexivity.
  - intros [Hlo Hhi].
    rewrite (Z.div_small diff (1000 * 60 * 60 * 24)) by lia. cbn [Z.ltb Z.compare].
    rewrite Z.mod_small by lia.
    assert (1 <= diff / (1000 * 60 * 60)) by (apply Z.div_le_lower_bound; lia).
    assert (diff / (1000 * 60 * 60) < 24) by (apply Z.div_lt_upper_bound; lia).
    destruct (Z.ltb_spec 0 (diff / (1000 * 60 * 60))); [|lia].
    split; [reflexivity|lia].
  - intros [Hlo Hhi].
    assert (1 <= diff / (1000 * 60 * 60 * 24)) by (apply Z.div_le_lower_bound; lia).
    assert (diff / (1000 * 60 * 60 * 24) < 8) by (apply Z.div_lt_upper_bound; lia).
    destruct (Z.ltb_spec 7 (diff / (1000 * 60 * 60 * 24))); [lia|].
    destruct (Z.ltb_spec 0 (diff / (1000 * 60 * 60 * 24))); [|lia].
    split; [reflexivity|lia].
  - intros Hlo.
    assert (8 <= diff / (1000 * 60 * 60 * 24)) by (apply Z.div_le_lower_bound; lia).
    destruct (Z.ltb_spec 7 (diff / (1000 * 60 * 60 * 24))); [|lia].
    rewrite Z.div_div by lia.
    replace (1000 * 60 * 60 * 24 * 7) with (7 * (1000 * 60 * 60 * 24)) by lia.
    split; [reflexivity|]. apply Z.div_le_lower_bound; lia.
Qed.

(** X8.  A race whose date is invalid is not past: its card is marked
    "Upcoming", and the hint under it reads "Less than an hour away!",
    whatever the clock. *)
Theorem invalid_date_card (now later : Z) (race : value) (index : nat) :
  parseRaceDate H race = Ok None ->
  (exists round country locality raceName,
     card_of H now race index
     = Ok (RaceCard round "Upcoming" country locality raceName None))
  /\ time_hint H now later None = Some "Less than an hour away!".
Proof.
  intros Hd. split; [|reflexivity].
  destruct (card_of_resolve H now race index None Hd) as (e & _ & Hc).
  cbn [date_lt] in Hc. eauto.
Qed.

Lemma remove_class_not_In (c : string) (l : list string) : ~ In c (remove_class c l).
Proof.
  unfold remove_class. intros Hin. apply List.filter_In in Hin as [_ Hc].
  rewrite String.eqb_refl in Hc. discriminate Hc.
Qed.

Lemma remove_class_In (c c' : string) (l : list string) :
  In c' (remove_class c l) -> In c' l.
Proof. unfold remove_class. intros Hin. now apply List.filter_In in Hin. Qed.

Lemma add_class_In (c : string) (l : list string) : In c (add_class c l).
Proof.
  unfold add_class. destruct (existsb (String.eqb c) l) eqn:Ee.
  - apply existsb_exists in Ee as (c' & Hin & Heq). apply String.eqb_eq in Heq. now subst.
  - apply in_or_app. right. now left.
Qed.

Lemma add_class_keeps (c c' : string) (l : list string) : In c' l -> In c' (add_class c l).
Proof.
  unfold add_class. destruct (existsb (String.eqb c) l); [auto|].
  intros Hin. apply in_or_app. now left.
Qed.

Lemma mod_mod_multiple (a n k : Z) : 0 < n -> 0 < k -> a mod n = (a mod (n * k)) mod n.
Proof.
  intros Hn Hk. rewrite Z.rem_mul_r by lia.
  rewrite (Z.mul_comm n), Z.mod_add by lia. now rewrite Z.mod_mod by lia.
Qed.

(** X9.  The closure [update] of [updateCountdown] splits the time left
    into days, hours below 24, minutes below 60 and seconds below 60 that
    add up to the time left, less than a second short; it shows days,
    hours and minutes when a day or more is left, hours, minutes and
    seconds when an hour or more is left, and padded minutes and seconds
    otherwise; the element then has neither of the two classes of the
    "RACE DAY!" state. *)
Theorem local_update_parts (now t : Z) (el : element) :
  now < t ->
  let diff := t - now in
  let d := countdown_days diff in
  let h := countdown_hours diff in
  let m := countdown_minutes diff in
  let s := countdown_seconds diff in
  0 <= d /\ 0 <= h < 24 /\ 0 <= m < 60 /\ 0 <= s < 60
  /\ d * ms_day + h * ms_hour + m * ms_minute + s * 1000 <= diff
     < d * ms_day + h * ms_hour + m * ms_minute + s * 1000 + 1000
  /\ textContent (local_update H now (Some t) el)
     = (if 0 <? d then
          num_toString H (Some d) +:+ "d " +:+ num_toString H (Some h) +:+ "h "
          +:+ num_toString H (Some m) +:+ "m"
        else if 0 <? h then
          num_toString H (Some h) +:+ "h " +:+ num_toString H (Some m) +:+ "m "
          +:+ num_toString H (Some s) +:+ "s"
        else pad2 (num_toString H (Some m)) +:+ ":" +:+ pad2 (num_toString H (Some s)))
  /\ ~ In "text-red-600" (classList (local_update H now (Some t) el))
  /\ ~ In "animate-pulse" (classList (local_update H now (Some t) el)).
Proof.
  intros Hlt diff d h m s. assert (Hpos : 0 < diff) by (unfold diff; lia).
  assert (Hday : 0 <= diff mod ms_day < ms_day) by (apply Z.mod_pos_bound; reflexivity).
  assert (Hhour : 0 <= diff mod ms_hour < ms_hour) by (apply Z.mod_pos_bound; reflexivity).
  assert (Hmin : 0 <= diff mod ms_minute < ms_minute) by (apply Z.mod_pos_bound; reflexivity).
  assert (Eh : diff mod ms_hour = (diff mod ms_day) mod ms_hour).
  { exact (mod_mod_multiple diff ms_hour 24 eq_refl eq_refl). }
  assert (Em : diff mod ms_minute = (diff mod ms_hour) mod ms_minute).
  { exact (mod_mod_multiple diff ms_minute 60 eq_refl eq_refl). }
  pose proof (Z.div_mod diff ms_day ltac:(discriminate)) as E1.
  pose proof (Z.div_mod (diff mod ms_day) ms_hour ltac:(discriminate)) as E2.
  pose proof (Z.div_mod (diff mod ms_hour) ms_minute ltac:(discriminate)) as E3.
  pose proof (Z.div_mod (diff mod ms_minute) 1000 ltac:(discriminate)) as E4.
  pose proof (Z.mod_pos_bound (diff mod ms_minute) 1000 ltac:(reflexivity)) as B4.
  pose proof (Z.mod_pos_bound (diff mod ms_hour) ms_minute ltac:(reflexivity)) as B3.
  pose proof (Z.mod_pos_bound (diff mod ms_day) ms_hour ltac:(reflexivity)) as B2.
  rewrite <- Em in E3, B3. rewrite <- Eh in E2, B2.
  fold d in E1. fold h in E2. fold m in E3. fold s in E4.
  unfold countdown_days, countdown_hours, countdown_minutes, countdown_seconds in d, h, m, s.
  unfold ms_day, ms_hour, ms_minute in *.
  assert (Hd : 0 <= d) by (apply Z.div_pos; lia).
  assert (Hh : 0 <= h < 24)
    by (split; [apply Z.div_pos; lia|apply Z.div_lt_upper_bound; lia]).
  assert (Hm : 0 <= m < 60)
    by (split; [apply Z.div_pos; lia|apply Z.div_lt_upper_bound; lia]).
  assert (Hs : 0 <= s < 60)
    by (split; [apply Z.div_pos; lia|apply Z.div_lt_upper_bound; lia]).
  split; [exact Hd|]. split; [exact Hh|]. split; [exact Hm|]. split; [exact Hs|].
  split; [lia|].
  unfold local_update. fold diff. destruct (Z.leb_spec diff 0) as [Hle|_]; [lia|].
  unfold ms_day, ms_hour, ms_minute. fold d h m s.
  assert (Hclasses :
            ~ In "text-red-600" (classList (remove_pulse el))
            /\ ~ In "animate-pulse" (classList (remove_pulse el))).
  { unfold remove_pulse. cbn [classList]. split.
    - intros Hin. apply remove_class_In in Hin. exact (remove_class_not_In _ _ Hin).
    - apply remove_class_not_In. }
  destruct (0 <? d); [|destruct (0 <? h)]; cbn [set_text textContent classList];
    (split; [reflexivity|exact Hclasses]).
Qed.

(** X10.  From the start time on, the closure shows "RACE DAY!" and the
    element has both classes of that state, whatever classes it had. *)
Theorem local_update_race_day (now t : Z) (el : element) :
  t <= now ->
  textContent (local_update H now (Some t) el) = "RACE DAY!"
  /\ In "text-red-600" (classList (local_update H now (Some t) el))
  /\ In "animate-pulse" (classList (local_update H now (Some t) el)).
Proof.
  intros Hle. unfold local_update.
  destruct (Z.leb_spec (t - now) 0) as [_|Hgt]; [|lia].
  unfold add_pulse, set_text. cbn [textContent classList].
  split; [reflexivity|]. split; [|apply add_class_In].
  apply add_class_keeps, add_class_In.
Qed.

End TimeUntilRaceProperties.

(** X7, witness: 36 hours before the start. *)
Lemma getTimeUntilRace_units_witness :
  let now := 1741402800000 in
  let t := 1741532400000 in
  getTimeUntilRace Ref.ref_host now (Some t) = "1 day away"
  /\ getTimeUntilRace Ref.ref_host now (Some t)
     = away Ref.ref_host (Some ((t - now) / ms_day)) "day"
  /\ 1 <= (t - now) / ms_day <= 7.
Proof.
  intros now t. split; [vm_compute; reflexivity|].
  destruct (getTimeUntilRace_units Ref.ref_host now t eq_refl) as (_ & _ & Hday & _).
  apply Hday. split; [vm_compute; discriminate|vm_compute; reflexivity].
Defined.

(** X8, witness: a race whose date is still to be decided. *)
Lemma invalid_date_card_witness :
  let race := VObj [("raceName", VStr "Qatar Grand Prix"); ("date", VStr "TBD")] in
  card_of Ref.ref_host example_now race 0
  = Ok (RaceCard (VNum 1%Q) "Upcoming" (VStr "Unknown") (VStr EmptyString)
                 (VStr "Qatar Grand Prix") None)
  /\ time_hint Ref.ref_host example_now example_now None = Some "Less than an hour away!".
Proof.
  intros race. split; [vm_compute; reflexivity|].
  assert (Hd : parseRaceDate Ref.ref_host race = Ok None) by (vm_compute; reflexivity).
  exact (proj2 (invalid_date_card Ref.ref_host example_now example_now race 0 Hd)).
Defined.

(** X9, witness: 30 hours before the start. *)
Lemma local_update_parts_witness :
  let now := 1741424400000 in
  let t := 1741532400000 in
  let el := {| textContent := "--"; classList := ["animate-pulse"] |} in
  local_update Ref.ref_host now (Some t) el = {| textContent := "1d 6h 0m"; classList := [] |}
  /\ 0 <= countdown_hours (t - now) < 24.
Proof.
  intros now t el. split; [vm_compute; reflexivity|].
  destruct (local_update_parts Ref.ref_host now t el eq_refl) as (_ & Hh & _).
  exact Hh.
Defined.

(** X10, witness: one second after the start. *)
Lemma local_update_race_day_witness :
  let now := 1741532401000 in
  let t := 1741532400000 in
  let el := {| textContent := "00:01"; classList := [] |} in
  local_update Ref.ref_host now (Some t) el
  = {| textContent := "RACE DAY!"; classList := ["text-red-600"; "animate-pulse"] |}
  /\ In "animate-pulse" (classList (local_update Ref.ref_host now (Some t) el)).
Proof.
  intros now t el. split; [vm_compute; reflexivity|].
  assert (Hle : t <= now) by (vm_compute; discriminate).
  exact (proj2 (proj2 (local_update_race_day Ref.ref_host now t el Hle))).
Defined.

(** ** Sections and navigation links *)

Section NavigationProperties.

Import Navigation.

Lemma existsb_remove_class (c c' : string) (l : list string) :
  existsb (String.eqb c) (remove_class c' l)
  = negb (String.eqb c c') && existsb (String.eqb c) l.
Proof.
  unfold remove_class. induction l as [|x l IH]; cbn [List.filter existsb].
  - now rewrite andb_false_r.
  - destruct (String.eqb_spec c' x) as [->|Hne]; cbn [negb existsb]; rewrite IH.
    + destruct (String.eqb c x); reflexivity.
    + destruct (String.eqb_spec c x) as [->|_]; [|reflexivity].
      destruct (String.eqb_spec x c') as [->|_]; [contradiction|reflexivity].
Qed.

Lemma existsb_add_class (c c' : string) (l : list string) :
  existsb (String.eqb c) (add_class c' l) = String.eqb c c' || existsb (String.eqb c) l.
Proof.
  unfold add_class. destruct (existsb (String.eqb c') l) eqn:Ee.
  - destruct (String.eqb_spec c c') as [->|_]; [now rewrite Ee|reflexivity].
  - rewrite existsb_app. cbn [existsb]. rewrite orb_false_r. apply orb_comm.
Qed.

Lemma nth_error_update_nth {A} (f : A -> A) (l : list A) (n i : nat) :
  nth_error (update_nth n f l) i
  = if Nat.eqb i n then option_map f (nth_error l i) else nth_error l i.
Proof.
  revert n i. induction l as [|x l IH]; intros n i.
  - destruct n, i; cbn; try reflexivity; now destruct (Nat.eqb i n).
  - destruct n, i; cbn [update_nth nth_error Nat.eqb option_map]; try reflexivity.
    apply IH.
Qed.

Lemma find_index_map {A} (p : A -> bool) (f : A -> A) (l : list A) :
  (forall x, p (f x) = p x) -> find_index p (map f l) = find_index p l.
Proof.
  intros Hp. induction l as [|x l IH]; [reflexivity|].
  cbn [map find_index]. now rewrite Hp, IH.
Qed.

Lemma getElementById_hide_sections (s : string) (l : list elem) :
  getElementById s (hide_sections l) = getElementById s l.
Proof.
  unfold getElementById, hide_sections. destruct (String.eqb s EmptyString); [reflexivity|].
  apply find_index_map. intros e. now destruct (is_section e).
Qed.

Lemma nth_error_hide_sections (l : list elem) (i : nat) :
  nth_error (hide_sections l) i
  = option_map (fun e => if is_section e then hide e else e) (nth_error l i).
Proof. unfold hide_sections. apply nth_error_map. Qed.

Lemma hide_not_visible (e : elem) : visible (hide e) = false.
Proof.
  unfold visible, has_class, hide. cbn [classes set_classes].
  rewrite existsb_remove_class, existsb_add_class. reflexivity.
Qed.

Lemma find_index_bound {A} (p : A -> bool) (l : list A) (i : nat) :
  find_index p l = Some i -> exists x, nth_error l i = Some x.
Proof.
  revert i. induction l as [|x l IH]; intros i; [discriminate|].
  cbn [find_index]. destruct (p x).
  - intros [= <-]. now exists x.
  - destruct (find_index p l) as [j|]; [|discriminate]. intros [= <-].
    destruct (IH j eq_refl) as [y Hy]. now exists y.
Qed.

Lemma showSection_visible (sectionId : string) (p : page) (i : nat) (e : elem) :
  nth_error (elems (showSection sectionId p)) i = Some e -> is_section e = true ->
  (visible e = true <-> getElementById sectionId (elems p) = Some i).
Proof.
  unfold showSection. rewrite getElementById_hide_sections.
  destruct (getElementById sectionId (elems p)) as [target|] eqn:Et.
  - cbn [elems]. rewrite nth_error_update_nth, nth_error_hide_sections.
    destruct (Nat.eqb_spec i target) as [->|Hne].
    + destruct (nth_error (elems p) target) as [e0|]; [|discriminate].
      cbn [option_map]. intros [= <-] _. split; [reflexivity|intros _].
      unfold visible, has_class. cbn [classes set_classes].
      rewrite existsb_remove_class. reflexivity.
    + destruct (nth_error (elems p) i) as [e0|]; [|discriminate].
      cbn [option_map]. intros [= <-] Hs.
      assert (Hs0 : is_section e0 = true).
      { destruct (is_section e0) eqn:E0; [reflexivity|]. congruence. }
      rewrite Hs0, hide_not_visible. split; [discriminate|]. intros [= ->]. contradiction.
  - cbn [elems set_elems]. rewrite nth_error_hide_sections.
    destruct (nth_error (elems p) i) as [e0|]; [|discriminate].
    cbn [option_map]. intros [= <-] Hs.
    assert (Hs0 : is_section e0 = true).
    { destruct (is_section e0) eqn:E0; [reflexivity|]. congruence. }
    rewrite Hs0, hide_not_visible. split; discriminate.
Qed.

(** X11.  After [showSection(sectionId)], a section is shown exactly when
    it is the first element of the document with that id.  So when no
    element has the id, or the first one that has it is not a section,
    no section is shown; and in the first case the current section, the
    title and the pending timeouts stay as they were. *)
Theorem showSection_shows_target (sectionId : string) (p : page) :
  let p' := showSection sectionId p in
  (forall i e,
     nth_error (elems p') i = Some e -> is_section e = true ->
     (visible e = true <-> getElementById sectionId (elems p) = Some i))
  /\ (getElementById sectionId (elems p) = None ->
      currentSection p' = currentSection p /\ title p' = title p
      /\ timeouts p' = timeouts p).
Proof.
  intros p'. split; [apply showSection_visible|].
  subst p'. unfold showSection. rewrite getElementById_hide_sections.
  intros ->. auto.
Qed.

Lemma updateActiveLink_nth (link : nat) (p : page) (j : nat) :
  nth_error (elems (updateActiveLink link p)) j
  = option_map
      (fun e =>
         let cleared :=
           if is_nav_link e then set_classes (remove_class "active" (classes e)) e else e in
         if Nat.eqb j link then set_classes (add_class "active" (classes cleared)) cleared
         else cleared)
      (nth_error (elems p) j).
Proof.
  unfold updateActiveLink. cbn [elems set_elems].
  rewrite nth_error_update_nth, nth_error_map.
  destruct (nth_error (elems p) j) as [e|]; cbn [option_map]; now destruct (Nat.eqb j link).
Qed.

(** X12.  A click on a navigation link leaves exactly that link active
    among the navigation links, and shows exactly the section that its
    [href] names after the first character - no section at all when no
    section has that id. *)
Theorem nav_click_activates_link (link : nat) (p : page) (e : elem) (h : string) :
  nth_error (elems p) link = Some e ->
  is_nav_link e = true ->
  href e = Some h ->
  exists p',
    nav_click link p = Ok p'
    /\ (forall j e',
          nth_error (elems p') j = Some e' -> is_nav_link e' = true ->
          (has_class "active" e' = true <-> j = link))
    /\ (forall j e',
          nth_error (elems p') j = Some e' -> is_section e' = true ->
          (visible e' = true <-> getElementById (substring1 h) (elems p) = Some j)).
Proof.
  intros He Hnav Hh. unfold nav_click, getAttribute_href. rewrite He, Hh.
  eexists. split; [reflexivity|]. split.
  - intros j e'. rewrite updateActiveLink_nth.
    destruct (nth_error (elems (showSection (substring1 h) p)) j) as [e1|]; [|discriminate].
    cbn [option_map]. intros [= <-].
    destruct (Nat.eqb_spec j link) as [->|Hne].
    + intros _. split; [reflexivity|intros _].
      unfold has_class. cbn [classes set_classes]. rewrite existsb_add_class. reflexivity.
    + destruct (is_nav_link e1) eqn:E1.
      * intros _. unfold has_class. cbn [classes set_classes].
        rewrite existsb_remove_class. cbn. split; [discriminate|contradiction].
      * intros Hn. congruence.
  - intros j e'. rewrite updateActiveLink_nth.
    destruct (nth_error (elems (showSection (substring1 h) p)) j) as [e1|] eqn:E1;
      [|discriminate].
    cbn [option_map]. intros [= <-] Hs.
    rewrite <- (showSection_visible (substring1 h) p j e1 E1).
    + unfold visible, has_class.
      destruct (is_nav_link e1), (Nat.eqb j link); cbn [classes set_classes];
        rewrite ?existsb_add_class, ?existsb_remove_class; reflexivity.
    + revert Hs. unfold is_section.
      destruct (is_nav_link e1), (Nat.eqb j link); cbn [sectional el_id set_classes]; auto.
Qed.

End NavigationProperties.

(** X12, witness: a page with two sections and their two links. *)
Lemma nav_click_activates_link_witness :
  let section name cs :=
    {| Navigation.sectional := true; Navigation.el_id := Some name;
       Navigation.href := None; Navigation.classes := cs |} in
  let link target cs :=
    {| Navigation.sectional := false; Navigation.el_id := None;
       Navigation.href := Some target; Navigation.classes := cs |} in
  let p := {| Navigation.elems :=
                [link "#home" ["nav-link"; "active"]; link "#about" ["nav-link"];
                 section "home" []; section "about" ["hidden"]];
              Navigation.currentSection := "home";
              Navigation.title := Text "Home | NashfyPitStop";
              Navigation.timeouts := [] |} in
  Navigation.nav_click 1 p
  = Ok {| Navigation.elems :=
            [link "#home" ["nav-link"]; link "#about" ["nav-link"; "active"];
             section "home" ["hidden"]; section "about" []];
          Navigation.currentSection := "about";
          Navigation.title := Text "About | NashfyPitStop";
          Navigation.timeouts := [Navigation.FadeIn 3] |}
  /\ exists p', Navigation.nav_click 1 p = Ok p'.
Proof.
  intros section link p. split; [vm_compute; reflexivity|].
  destruct (nav_click_activates_link 1 p (link "#about" ["nav-link"]) "#about"
              eq_refl eq_refl eq_refl) as (p' & Hp & _).
  exists p'. exact Hp.
Defined.

(** ** The quiz *)

Section QuizProperties.

Import QuizSystem.

Variable H : host.

Lemma mark_buttons_nth (selectedIndex : nat) (correctIndex : Z) (l : list button) :
  forall (index : nat) (score : Z) (i : nat),
    nth_error (fst (mark_buttons selectedIndex correctIndex index l score)) i
    = option_map
        (fun btn =>
           {| btn_text := btn_text btn; disabled := true;
              btn_classes :=
                if Z.of_nat (index + i) =? correctIndex
                then add_class "bg-green-600" (btn_classes btn)
                else if Nat.eqb (index + i) selectedIndex
                     then add_class "bg-red-600" (btn_classes btn)
                     else btn_classes btn |})
        (nth_error l i).
Proof.
  induction l as [|btn rest IH]; intros index score i.
  - destruct i; reflexivity.
  - cbn [mark_buttons].
    destruct (mark_buttons selectedIndex correctIndex (S index) rest _) as [rest' score'']
      eqn:Em.
    destruct i as [|i]; cbn [fst nth_error option_map].
    + now rewrite Nat.add_0_r.
    + specialize (IH (S index) (if (Z.of_nat index =? correctIndex)
                                     && Nat.eqb index selectedIndex
                                  then score + 1 else score) i).
      rewrite Em in IH. cbn [fst] in IH. rewrite IH.
      now replace (S index + i)%nat with (index + S i)%nat by lia.
Qed.

Lemma mark_buttons_score (selectedIndex : nat) (correctIndex : Z) (l : list button) :
  forall (index : nat) (score : Z),
    snd (mark_buttons selectedIndex correctIndex index l score)
    = if (index <=? selectedIndex)%nat && (selectedIndex <? index + length l)%nat
         && (Z.of_nat selectedIndex =? correctIndex)
      then score + 1 else score.
Proof.
  induction l as [|btn rest IH]; intros index score.
  - cbn [mark_buttons snd length].
    destruct (Nat.leb_spec index selectedIndex), (Nat.ltb_spec selectedIndex (index + 0));
      cbn [andb]; try reflexivity; lia.
  - cbn [mark_buttons].
    destruct (mark_buttons selectedIndex correctIndex (S index) rest _) as [rest' score'']
      eqn:Em.
    cbn [snd length].
    specialize (IH (S index) (if (Z.of_nat index =? correctIndex)
                                   && Nat.eqb index selectedIndex
                                then score + 1 else score)).
    rewrite Em in IH. cbn [snd] in IH. rewrite IH. clear IH Em.
    destruct (Nat.eqb_spec index selectedIndex) as [->|Hne].
    + destruct (Nat.leb_spec (S selectedIndex) selectedIndex); [lia|]. cbn [andb].
      rewrite andb_true_r.
      destruct (Nat.leb_spec selectedIndex selectedIndex); [|lia].
      destruct (Nat.ltb_spec selectedIndex (selectedIndex + S (length rest))); [|lia].
      reflexivity.
    + rewrite andb_false_r.
      destruct (Nat.leb_spec (S index) selectedIndex), (Nat.leb_spec index selectedIndex),
        (Nat.ltb_spec selectedIndex (S index + length rest)),
        (Nat.ltb_spec selectedIndex (index + S (length rest)));
        cbn [andb]; try reflexivity; lia.
Qed.

Lemma mark_buttons_length (selectedIndex : nat) (correctIndex : Z) (l : list button) :
  forall (index : nat) (score : Z),
    length (fst (mark_buttons selectedIndex correctIndex index l score)) = length l.
Proof.
  induction l as [|btn rest IH]; intros index score; [reflexivity|].
  cbn [mark_buttons].
  specialize (IH (S index) (if (Z.of_nat index =? correctIndex)
                                 && Nat.eqb index selectedIndex
                              then score + 1 else score)).
  destruct (mark_buttons selectedIndex correctIndex (S index) rest _) as [rest' score''].
  cbn [fst length] in *. now rewrite IH.
Qed.

Lemma mark_buttons_disabled (selectedIndex : nat) (correctIndex : Z) (l : list button)
    (index : nat) (score : Z) :
  forallb disabled (fst (mark_buttons selectedIndex correctIndex index l score)) = true.
Proof.
  apply forallb_forall. intros btn Hin. apply In_nth_error in Hin as [i Hi].
  rewrite mark_buttons_nth in Hi. destruct (nth_error l i); [|discriminate].
  cbn [option_map] in Hi. injection Hi as <-. reflexivity.
Qed.

Lemma handleAnswer_run (s : quiz) (box : list question_el) (questionEl : nat)
    (el : question_el) (selectedIndex : nat) (btn : button) :
  quizBox s = Some box ->
  nth_error box questionEl = Some el ->
  nth_error (buttons el) selectedIndex = Some btn ->
  handleAnswer H questionEl selectedIndex (correctIndex el) s
  = let score' := score s + (if Z.of_nat selectedIndex =? correctIndex el then 1 else 0) in
    let el' :=
      {| heading := heading el;
         buttons := fst (mark_buttons selectedIndex (correctIndex el) 0 (buttons el) (score s));
         correctIndex := correctIndex el |} in
    {| questions := questions s; score := score';
       quizBox := Some (update_nth questionEl (fun _ => el') box);
       quizResult :=
         match quizResult s with
         | Some _ =>
             Some ("Score: " +:+ num_toString H (Some score') +:+ "/"
                   +:+ num_toString H (Some (Z.of_nat (length (questions s)))))
         | None => None
         end |}.
Proof.
  intros Hbox Hel Hbtn. unfold handleAnswer. rewrite Hbox, Hel.
  pose proof (mark_buttons_score selectedIndex (correctIndex el) (buttons el) 0 (score s))
    as Hscore.
  destruct (mark_buttons selectedIndex (correctIndex el) 0 (buttons el) (score s))
    as [marked score'].
  cbn [fst snd] in *.
  assert (Hin : (selectedIndex < length (buttons el))%nat)
    by (apply nth_error_Some; congruence).
  assert (Hs : score' = score s + (if Z.of_nat selectedIndex =? correctIndex el then 1 else 0)).
  { rewrite Hscore. cbn [Nat.leb Nat.add andb].
    destruct (Nat.ltb_spec selectedIndex (length (buttons el))); [|lia]. cbn [andb].
    destruct (Z.of_nat selectedIndex =? correctIndex el); lia. }
  now rewrite Hs.
Qed.

(** X13.  A click on an enabled button of a question adds one to the
    score exactly when the button is the correct one; it disables every
    button of the question, marks the correct button green and a wrong
    selection red, leaves the classes of the other buttons and the other
    questions as they were, and writes the score over the number of
    questions into the result element. *)
Theorem handleAnswer_outcome (s : quiz) (box : list question_el) (questionEl : nat)
    (el : question_el) (selectedIndex : nat) (btn : button) :
  quizBox s = Some box ->
  nth_error box questionEl = Some el ->
  nth_error (buttons el) selectedIndex = Some btn ->
  let s' := handleAnswer H questionEl selectedIndex (correctIndex el) s in
  score s' = score s + (if Z.of_nat selectedIndex =? correctIndex el then 1 else 0)
  /\ (forall text, quizResult s = Some text ->
      quizResult s'
      = Some ("Score: " +:+ num_toString H (Some (score s')) +:+ "/"
              +:+ num_toString H (Some (Z.of_nat (length (questions s))))))
  /\ exists box' el',
       quizBox s' = Some box'
       /\ nth_error box' questionEl = Some el'
       /\ (forall other, other <> questionEl -> nth_error box' other = nth_error box other)
       /\ forallb disabled (buttons el') = true
       /\ length (buttons el') = length (buttons el)
       /\ forall i before after,
            nth_error (buttons el) i = Some before ->
            nth_error (buttons el') i = Some after ->
            (Z.of_nat i = correctIndex el -> In "bg-green-600" (btn_classes after))
            /\ (i = selectedIndex -> Z.of_nat i <> correctIndex el ->
                In "bg-red-600" (btn_classes after))
            /\ (i <> selectedIndex -> Z.of_nat i <> correctIndex el ->
                btn_classes after = btn_classes before).
Proof.
  intros Hbox Hel Hbtn s'. subst s'.
  rewrite (handleAnswer_run s box questionEl el selectedIndex btn Hbox Hel Hbtn).
  cbn [score quizResult quizBox].
  split; [reflexivity|]. split; [intros text ->; reflexivity|].
  eexists. eexists. split; [reflexivity|].
  split.
  { rewrite nth_error_update_nth, Nat.eqb_refl, Hel. reflexivity. }
  split.
  { intros other Hne. rewrite nth_error_update_nth.
    destruct (Nat.eqb_spec other questionEl); [contradiction|reflexivity]. }
  cbn [buttons]. split; [apply mark_buttons_disabled|]. split; [apply mark_buttons_length|].
  intros i before after Hb Ha. rewrite mark_buttons_nth, Hb in Ha.
  cbn [option_map Nat.add] in Ha.
  injection Ha as <-. cbn [btn_classes]. repeat split.
  - intros Hc. apply Z.eqb_eq in Hc. rewrite Hc. apply add_class_In.
  - intros -> Hc. apply Z.eqb_neq in Hc. rewrite Hc, Nat.eqb_refl. apply add_class_In.
  - intros Hi Hc. apply Z.eqb_neq in Hc. apply Nat.eqb_neq in Hi. now rewrite Hc, Hi.
Qed.

Lemma render_questions_length (l : list question) (index : nat) :
  length (render_questions H index l) = length l.
Proof.
  revert index. induction l as [|x l IH]; intros index; [reflexivity|].
  cbn [render_questions length]. now rewrite IH.
Qed.

Lemma render_questions_fresh (l : list question) (index : nat) :
  forallb (fun el => negb (answered el)) (render_questions H index l) = true.
Proof.
  revert index. induction l as [|x l IH]; intros index; [reflexivity|].
  cbn [render_questions forallb]. rewrite IH, andb_true_r.
  unfold answered. cbn [buttons]. induction (a x) as [|y ys IHy]; [reflexivity|].
  cbn [map existsb new_button disabled orb]. exact IHy.
Qed.

Lemma update_nth_length {A} (f : A -> A) (l : list A) (n : nat) :
  length (update_nth n f l) = length l.
Proof.
  revert n. induction l as [|x l IH]; intros [|n]; cbn [update_nth length]; auto.
Qed.

Lemma filter_update_nth (box : list question_el) (n : nat) (el el' : question_el) :
  nth_error box n = Some el -> answered el = false -> answered el' = true ->
  length (List.filter answered (update_nth n (fun _ => el') box))
  = S (length (List.filter answered box)).
Proof.
  revert n. induction box as [|x box IH]; intros [|n]; cbn [nth_error]; try discriminate.
  - intros [= ->] Hel Hel'. cbn [update_nth List.filter]. now rewrite Hel, Hel'.
  - intros Hn Hel Hel'. cbn [update_nth List.filter].
    destruct (answered x); cbn [length]; now rewrite (IH n Hn Hel Hel').
Qed.

Lemma filter_length_le {A} (p : A -> bool) (l : list A) :
  (length (List.filter p l) <= length l)%nat.
Proof.
  induction l as [|x l IH]; [reflexivity|]. cbn [List.filter]. destruct (p x); cbn [length]; lia.
Qed.

Lemma forallb_update_nth {A} (p : A -> bool) (l : list A) (n : nat) (y : A) :
  forallb p l = true -> p y = true -> forallb p (update_nth n (fun _ => y) l) = true.
Proof.
  revert n. induction l as [|x l IH]; intros [|n] Hl Hy; cbn [update_nth forallb] in *;
    try reflexivity.
  - apply andb_true_iff in Hl as [_ Hl]. now rewrite Hy, Hl.
  - apply andb_true_iff in Hl as [Hx Hl]. now rewrite Hx, (IH n Hl Hy).
Qed.

Lemma click_inv (s s' : quiz) : click H s s' -> quiz_inv s -> quiz_inv s'.
Proof.
  intros Hc [Hscore Hbox]. destruct Hc as [s box questionEl el selectedIndex btn Hb Hel Hbtn Hd].
  rewrite Hb in Hbox. destruct Hbox as [Hall Hlen].
  assert (Hfresh : answered el = false).
  { assert (Hc : all_or_none el = true).
    { apply (proj1 (forallb_forall all_or_none box) Hall el).
      exact (nth_error_In box questionEl Hel). }
    unfold all_or_none in Hc. destruct (answered el); [|reflexivity]. cbn [negb orb] in Hc.
    pose proof (proj1 (forallb_forall disabled (buttons el)) Hc btn
                  (nth_error_In _ selectedIndex Hbtn)). congruence. }
  rewrite (handleAnswer_run s box questionEl el selectedIndex btn Hb Hel Hbtn).
  set (el' := {| heading := heading el;
                 buttons := fst (mark_buttons selectedIndex (correctIndex el) 0
                                   (buttons el) (score s));
                 correctIndex := correctIndex el |}).
  assert (Hdis : forallb disabled (buttons el') = true) by apply mark_buttons_disabled.
  assert (Hlen' : length (buttons el') = length (buttons el)) by apply mark_buttons_length.
  assert (Hans : answered el' = true).
  { unfold answered. apply existsb_exists.
    assert (Hk : (selectedIndex < length (buttons el'))%nat).
    { rewrite Hlen'. apply nth_error_Some. congruence. }
    destruct (nth_error (buttons el') selectedIndex) as [b|] eqn:Eb;
      [|apply nth_error_None in Eb; lia].
    exists b. split; [exact (nth_error_In _ _ Eb)|].
    exact (proj1 (forallb_forall disabled (buttons el')) Hdis b (nth_error_In _ _ Eb)). }
  unfold quiz_inv, answered_count. cbn [score quizBox questions].
  rewrite (filter_update_nth box questionEl el el' Hel Hfresh Hans).
  unfold answered_count in Hscore. rewrite Hb in Hscore.
  split; [destruct (Z.of_nat selectedIndex =? correctIndex el); lia|].
  split; [|now rewrite update_nth_length].
  apply forallb_update_nth; [exact Hall|]. unfold all_or_none. now rewrite Hdis, orb_true_r.
Qed.

Lemma constructed_inv (box : option (list question_el)) (result : option string) :
  quiz_inv (constructed H box result).
Proof.
  unfold constructed, renderQuiz, quiz_inv, answered_count. cbn [quizBox].
  destruct box as [box|]; cbn [score quizBox questions]; [|split; [lia|exact I]].
  pose proof (render_questions_fresh the_questions 0) as Hf.
  split.
  - assert (E : List.filter answered (render_questions H 0 the_questions) = []).
    { induction (render_questions H 0 the_questions) as [|x l IH]; [reflexivity|].
      cbn [forallb] in Hf. apply andb_true_iff in Hf as [Hx Hl].
      cbn [List.filter]. destruct (answered x); [discriminate Hx|]. exact (IH Hl). }
    rewrite E. cbn. lia.
  - split; [|apply render_questions_length].
    apply forallb_forall. intros el Hin.
    pose proof (proj1 (forallb_forall _ _) Hf el Hin) as Hel.
    unfold all_or_none. now rewrite Hel.
Qed.

(** X14.  However the buttons are clicked, the score is never negative
    and never more than the number of questions answered, which is never
    more than the number of questions: a question is answered at most
    once, since its buttons are disabled together. *)
Theorem quiz_score_bounded (s : quiz) :
  quiz_reachable H s ->
  0 <= score s <= Z.of_nat (answered_count s)
  /\ (answered_count s <= length (questions s))%nat.
Proof.
  intros Hr.
  assert (Hinv : quiz_inv s).
  { induction Hr as [box result|s s' _ IH Hc]; [apply constructed_inv|].
    exact (click_inv s s' Hc IH). }
  destruct Hinv as [Hscore Hbox]. split; [exact Hscore|].
  unfold answered_count in *. destruct (quizBox s) as [box|]; [|lia].
  destruct Hbox as [_ <-]. apply filter_length_le.
Qed.

End QuizProperties.

(** X13, witness: the second answer of the second question is chosen,
    the third one is correct. *)
Lemma handleAnswer_outcome_witness :
  let s := QuizSystem.constructed Ref.ref_host (Some []) (Some EmptyString) in
  let s' := QuizSystem.handleAnswer Ref.ref_host 1 1 2 s in
  option_map (map (fun el => map QuizSystem.btn_classes (QuizSystem.buttons el)))
    (QuizSystem.quizBox s')
  = Some [[["btn-secondary"; "text-sm"; "w-full"; "text-left"];
           ["btn-secondary"; "text-sm"; "w-full"; "text-left"];
           ["btn-secondary"; "text-sm"; "w-full"; "text-left"]];
          [["btn-secondary"; "text-sm"; "w-full"; "text-left"];
           ["btn-secondary"; "text-sm"; "w-full"; "text-left"; "bg-red-600"];
           ["btn-secondary"; "text-sm"; "w-full"; "text-left"; "bg-green-600"]];
          [["btn-secondary"; "text-sm"; "w-full"; "text-left"];
           ["btn-secondary"; "text-sm"; "w-full"; "text-left"];
           ["btn-secondary"; "text-sm"; "w-full"; "text-left"]]]
  /\ QuizSystem.quizResult s' = Some "Score: 0/3"
  /\ QuizSystem.score s' = QuizSystem.score s + 0.
Proof.
  intros s s'. split; [vm_compute; reflexivity|]. split; [vm_compute; reflexivity|].
  assert (Hbox : QuizSystem.quizBox s
                 = Some (QuizSystem.render_questions Ref.ref_host 0 QuizSystem.the_questions))
    by reflexivity.
  exact (proj1 (handleAnswer_outcome Ref.ref_host s _ 1
                  {| QuizSystem.heading := "Q2. Which circuit is in Africa?";
                     QuizSystem.buttons :=
                       map QuizSystem.new_button ["Spa"; "Monza"; "Kyalami"];
                     QuizSystem.correctIndex := 2 |}
                  1 (QuizSystem.new_button "Monza") Hbox
                  ltac:(vm_compute; reflexivity) ltac:(vm_compute; reflexivity))).
Defined.

(** X14, witness: the quiz after one wrong and one right answer. *)
Lemma quiz_score_bounded_witness :
  let s0 := QuizSystem.constructed Ref.ref_host (Some []) (Some EmptyString) in
  let s1 := QuizSystem.handleAnswer Ref.ref_host 1 1 2 s0 in
  let s2 := QuizSystem.handleAnswer Ref.ref_host 0 1 1 s1 in
  QuizSystem.quiz_reachable Ref.ref_host s2
  /\ QuizSystem.score s2 = 1
  /\ QuizSystem.answered_count s2 = 2%nat
  /\ 0 <= QuizSystem.score s2 <= Z.of_nat (QuizSystem.answered_count s2).
Proof.
  intros s0 s1 s2.
  pose (el1 := {| QuizSystem.heading := "Q1. Which timezone does Kenya use?";
                  QuizSystem.buttons := map QuizSystem.new_button ["UTC"; "EAT"; "CAT"];
                  QuizSystem.correctIndex := 1 |}).
  pose (el2 := {| QuizSystem.heading := "Q2. Which circuit is in Africa?";
                  QuizSystem.buttons := map QuizSystem.new_button ["Spa"; "Monza"; "Kyalami"];
                  QuizSystem.correctIndex := 2 |}).
  assert (H1 : QuizSystem.quiz_reachable Ref.ref_host s1).
  { apply (QuizSystem.quiz_reachable_click _ s0); [apply QuizSystem.quiz_reachable_constructed|].
    exact (QuizSystem.click_button Ref.ref_host s0
             (QuizSystem.render_questions Ref.ref_host 0 QuizSystem.the_questions)
             1 el2 1 (QuizSystem.new_button "Monza")
             eq_refl ltac:(vm_compute; reflexivity) eq_refl eq_refl). }
  assert (H2 : QuizSystem.quiz_reachable Ref.ref_host s2).
  { apply (QuizSystem.quiz_reachable_click _ s1); [exact H1|].
    refine (QuizSystem.click_button Ref.ref_host s1 _ 0 el1 1 (QuizSystem.new_button "EAT")
              _ _ eq_refl eq_refl).
    - vm_compute. reflexivity.
    - vm_compute. reflexivity. }
  split; [exact H2|]. split; [vm_compute; reflexivity|]. split; [vm_compute; reflexivity|].
  exact (proj1 (quiz_score_bounded Ref.ref_host s2 H2)).
Defined.

(** ** The news carousel *)

Section NewsCarouselProperties.

Import NewsCarousel.

Variable H : host.


Lemma append_slides_run (isLiveData : bool) (newsData : list item) (slides : list slide) :
  mapM (slide_of H isLiveData) newsData = Ok slides ->
  forall p children transform,
    carouselTrack p = Some (children, transform) ->
    append_slides H isLiveData newsData p
    = (Ok tt, set_track (children ++ slides) transform p).
Proof.
  revert slides. induction newsData as [|news rest IH]; intros slides Hm p children transform Hp.
  - injection Hm as <-. cbn [append_slides]. rewrite app_nil_r.
    destruct p as [t u c]. cbn in Hp. subst t. reflexivity.
  - cbn [mapM append_slides] in *.
    destruct (slide_of H isLiveData news) as [s|e]; [|discriminate]. cbn [rbind] in Hm.
    destruct (mapM (slide_of H isLiveData) rest) as [rest'|e]; [|discriminate].
    cbn [rbind] in Hm. injection Hm as <-. rewrite Hp.
    rewrite (IH rest' eq_refl (set_track (children ++ [s]) transform p) (children ++ [s])
               transform eq_refl).
    rewrite <- app_assoc. reflexivity.
Qed.

(** A rendering that fails leaves the track in place. *)
Lemma append_slides_fails (isLiveData : bool) (newsData : list item) (e : exn) :
  mapM (slide_of H isLiveData) newsData = Throw e ->
  forall p children transform,
    carouselTrack p = Some (children, transform) ->
    exists e' children',
      append_slides H isLiveData newsData p = (Throw e', set_track children' transform p).
Proof.
  revert e. induction newsData as [|news rest IH]; intros e Hm p children transform Hp;
    [discriminate|].
  cbn [mapM append_slides] in *. destruct (slide_of H isLiveData news) as [s|e0].
  - cbn [rbind] in Hm. destruct (mapM (slide_of H isLiveData) rest) as [r|e1] eqn:Er;
      [discriminate|].
    rewrite Hp.
    destruct (IH e1 eq_refl (set_track (children ++ [s]) transform p) (children ++ [s])
                transform eq_refl) as (e' & children' & ->).
    exists e', children'. reflexivity.
  - exists e0, children. destruct p as [t u c]. cbn in Hp. subst t. reflexivity.
Qed.

Lemma mock_slides : mapM (slide_of H false) getMockNewsData = Ok (mock_rendered H).
Proof. reflexivity. Qed.

Lemma renderNewsCarousel_mock (p : carousel_page) (children : list slide) (transform : string) :
  carouselTrack p = Some (children, transform) ->
  renderNewsCarousel H getMockNewsData false p
  = (Ok tt,
     {| carouselTrack := Some (mock_rendered H, transform_of H (Some 0));
        newsUpdateTime := newsUpdateTime p;
        carousels := carousels p ++ [new_controls 4] |}).
Proof.
  intros Hp. unfold renderNewsCarousel. rewrite Hp.
  rewrite (append_slides_run false getMockNewsData _ mock_slides
             (set_track [] transform p) [] transform eq_refl).
  reflexivity.
Qed.

Lemma loadNews_run (response : result response) (clock : string) (p : carousel_page)
    (children : list slide) (transform : string) :
  carouselTrack p = Some (children, transform) ->
  match live_slides H response with
  | Some slides =>
      loadNews H response clock p
      = (Ok tt,
         {| carouselTrack := Some (slides, transform_of H (Some 0));
            newsUpdateTime := updated clock p;
            carousels := carousels p ++ [new_controls (length slides)] |})
  | None =>
      exists text,
        loadNews H response clock p
        = (Ok tt,
           {| carouselTrack := Some (mock_rendered H, transform_of H (Some 0));
              newsUpdateTime := text;
              carousels := carousels p ++ [new_controls 4] |})
  end.
Proof.
  intros Hp. unfold live_slides, loadNews.
  pose proof (renderNewsCarousel_mock p children transform Hp) as Hmock.
  destruct response as [res|e]; cbn [rbind]; [|rewrite Hmock; eauto].
  destruct (ok res); cbn [negb]; [|rewrite Hmock; eauto].
  destruct (json res) as [apiNews|e]; [|rewrite Hmock; eauto].
  destruct apiNews as [| |b|x|u|items|o]; try (rewrite Hmock; eauto).
  destruct items as [|first others]; [rewrite Hmock; eauto|].
  destruct (mapM (item_of H) (firstn 4 (first :: others))) as [newsData|e];
    [|rewrite Hmock; eauto].
  set (p1 := match newsUpdateTime p with
             | Some _ => {| carouselTrack := carouselTrack p;
                            newsUpdateTime := Some ("Updated: " +:+ clock);
                            carousels := carousels p |}
             | None => p
             end).
  assert (Hp1 : carouselTrack p1 = Some (children, transform)
                /\ carousels p1 = carousels p /\ newsUpdateTime p1 = updated clock p).
  { unfold p1, updated. destruct (newsUpdateTime p) eqn:Eu; auto. }
  destruct Hp1 as (Hp1 & Hc1 & Hu1).
  destruct (mapM (slide_of H true) newsData) as [slides|e] eqn:Es.
  - assert (Hr : renderNewsCarousel H newsData true p1
                 = (Ok tt, setupCarouselControls H (set_track slides transform p1))).
    { unfold renderNewsCarousel. rewrite Hp1.
      rewrite (append_slides_run true newsData slides Es (set_track [] transform p1) []
                 transform eq_refl).
      reflexivity. }
    rewrite Hr.
    unfold setupCarouselControls. cbn [carouselTrack set_track newsUpdateTime carousels app].
    rewrite Hc1, Hu1. reflexivity.
  - assert (Hr : exists e' partial,
               renderNewsCarousel H newsData true p1
               = (Throw e', set_track partial transform p1)).
    { unfold renderNewsCarousel. rewrite Hp1.
      destruct (append_slides_fails true newsData e Es (set_track [] transform p1) []
                  transform eq_refl) as (e' & partial & ->).
      exists e', partial. reflexivity. }
    destruct Hr as (e' & partial & ->).
    rewrite (renderNewsCarousel_mock (set_track partial transform p1) partial transform
               eq_refl).
    cbn [newsUpdateTime carousels set_track]. rewrite Hc1. eauto.
Qed.

Lemma mapM_length {A B} (f : A -> result B) (l : list A) (l' : list B) :
  mapM f l = Ok l' -> length l' = length l.
Proof.
  revert l'. induction l as [|x l IH]; intros l' Hm; cbn [mapM] in Hm.
  - now injection Hm as <-.
  - destruct (f x); [|discriminate]. cbn [rbind] in Hm.
    destruct (mapM f l) as [r|]; [|discriminate]. cbn [rbind] in Hm.
    injection Hm as <-. cbn [length]. now rewrite (IH r eq_refl).
Qed.

Lemma live_slides_live (newsData : list item) (slides : list slide) :
  mapM (slide_of H true) newsData = Ok slides -> forallb slide_live slides = true.
Proof.
  revert slides. induction newsData as [|news rest IH]; intros slides Hm; cbn [mapM] in Hm.
  - now injection Hm as <-.
  - unfold slide_of in Hm at 1.
    destruct (if truthy (url news) then url news else VStr "#blogs"); try discriminate.
    cbn [rbind] in Hm. destruct (mapM (slide_of H true) rest) as [r|]; [|discriminate].
    cbn [rbind] in Hm. injection Hm as <-. cbn [forallb slide_live]. exact (IH r eq_refl).
Qed.

Lemma showable_items (items : list value) :
  forallb showable items = true ->
  exists newsData slides,
    mapM (item_of H) items = Ok newsData /\ mapM (slide_of H true) newsData = Ok slides.
Proof.
  induction items as [|news rest IH]; intros Hs; [exists [], []; auto|].
  cbn [forallb] in Hs. apply andb_true_iff in Hs as [Hn Hrest].
  destruct (IH Hrest) as (newsData & slides & Hi & Hsl).
  unfold showable in Hn. apply andb_true_iff in Hn as [Hnull Hurl].
  apply negb_true_iff in Hnull.
  assert (Hitem : exists it, item_of H news = Ok it
                             /\ url it = if truthy (get_opt news "url") then get_opt news "url"
                                         else VStr "#").
  { unfold item_of. rewrite !(get_get_opt _ _ Hnull). cbn [rbind]. eexists. split; reflexivity. }
  destruct Hitem as (it & Hit & Hu).
  assert (Hslide : exists s, slide_of H true it = Ok s).
  { assert (Hstr : exists u, url it = VStr u).
    { rewrite Hu. destruct (get_opt news "url") as [| |b|x|u|l|o]; cbn [truthy] in *;
        try discriminate Hurl; try (now eexists).
      - rewrite (proj1 (negb_true_iff _) Hurl). now eexists.
      - rewrite (proj1 (negb_true_iff _) Hurl). now eexists.
      - destruct (negb (String.eqb u EmptyString)); now eexists. }
    destruct Hstr as [u Eu]. unfold slide_of. rewrite Eu.
    destruct (truthy (VStr u)); eexists; reflexivity. }
  destruct Hslide as [s Hs].
  exists (it :: newsData), (s :: slides). cbn [mapM]. rewrite Hit, Hi. cbn [rbind].
  rewrite Hs, Hsl. auto.
Qed.

Lemma live_slides_spec (response : result response) (slides : list slide) :
  live_slides H response = Some slides ->
  forallb slide_live slides = true /\ (1 <= length slides <= 4)%nat.
Proof.
  unfold live_slides. destruct response as [res|]; [|discriminate].
  destruct (ok res); [|discriminate]. destruct (json res) as [apiNews|]; [|discriminate].
  destruct apiNews as [| |b|x|u|items|o]; try discriminate.
  destruct items as [|first others]; [discriminate|].
  destruct (mapM (item_of H) (firstn 4 (first :: others))) as [newsData|] eqn:Ei;
    [|discriminate].
  destruct (mapM (slide_of H true) newsData) as [s|] eqn:Es; [|discriminate].
  intros [= <-]. split; [exact (live_slides_live _ _ Es)|].
  rewrite (mapM_length _ _ _ Es), (mapM_length _ _ _ Ei), length_firstn. cbn [length]. lia.
Qed.

Lemma live_slides_showable (res : response) (items : list value) :
  ok res = true -> json res = Ok (VArr items) -> items <> [] ->
  forallb showable (firstn 4 items) = true ->
  exists slides,
    live_slides H (Ok res) = Some slides /\ length slides = Nat.min 4 (length items).
Proof.
  intros Hok Hj Hne Hs. unfold live_slides. rewrite Hok, Hj.
  destruct items as [|first others]; [contradiction|].
  destruct (showable_items _ Hs) as (newsData & slides & Hi & Hsl).
  rewrite Hi, Hsl. exists slides. split; [reflexivity|].
  now rewrite (mapM_length _ _ _ Hsl), (mapM_length _ _ _ Hi), length_firstn.
Qed.

(** X15.  Wherever the page has the carousel track, [loadNews] never
    rejects and never leaves the track empty: it ends with one to four
    slides, which are either all marked LIVE or the four hardcoded
    slides, and it sets up exactly one more carousel, for that number of
    slides.  When the API answers with a non-empty array whose first four
    entries can be shown, the slides are the live ones, one per entry. *)
Theorem loadNews_never_empty (response : result response) (clock : string) (p : carousel_page)
    (children : list slide) (transform : string) :
  carouselTrack p = Some (children, transform) ->
  fst (loadNews H response clock p) = Ok tt
  /\ exists slides,
       carouselTrack (snd (loadNews H response clock p))
       = Some (slides, transform_of H (Some 0))
       /\ (1 <= length slides <= 4)%nat
       /\ (forallb slide_live slides = true \/ slides = mock_rendered H)
       /\ carousels (snd (loadNews H response clock p))
          = carousels p ++ [new_controls (length slides)]
       /\ forall res items,
            response = Ok res -> ok res = true -> json res = Ok (VArr items) ->
            items <> [] -> forallb showable (firstn 4 items) = true ->
            forallb slide_live slides = true
            /\ length slides = Nat.min 4 (length items).
Proof.
  intros Hp. pose proof (loadNews_run response clock p children transform Hp) as Hrun.
  destruct (live_slides H response) as [slides|] eqn:El.
  - rewrite Hrun. cbn [fst snd carouselTrack carousels]. split; [reflexivity|].
    destruct (live_slides_spec response slides El) as [Hlive Hlen].
    exists slides. split; [reflexivity|]. split; [exact Hlen|]. split; [now left|].
    split; [reflexivity|].
    intros res items -> Hok Hj Hne Hs.
    destruct (live_slides_showable res items Hok Hj Hne Hs) as (slides' & El' & Hl').
    rewrite El in El'. injection El' as <-. auto.
  - destruct Hrun as [text ->]. cbn [fst snd carouselTrack carousels]. split; [reflexivity|].
    exists (mock_rendered H). split; [reflexivity|]. split; [cbn; lia|]. split; [now right|].
    split; [reflexivity|].
    intros res items -> Hok Hj Hne Hs.
    destruct (live_slides_showable res items Hok Hj Hne Hs) as (slides' & El' & _).
    congruence.
Qed.


Lemma next_in_range (c : controls) : index_in_range c -> index_in_range (next c) /\ totalSlides (next c) = totalSlides c.
Proof.
  intros (i & Hi & Hr). split; [|reflexivity]. unfold index_in_range, next. cbn [currentIndex totalSlides].
  rewrite Hi. cbn [num_add option_map num_rem].
  destruct (Z.eqb_spec (totalSlides c) 0) as [E|_]; [lia|].
  exists (Z.rem (i + 1) (totalSlides c)). split; [reflexivity|].
  rewrite Z.rem_mod_nonneg by lia. apply Z.mod_pos_bound. lia.
Qed.

Lemma prev_in_range (c : controls) : index_in_range c -> index_in_range (prev c) /\ totalSlides (prev c) = totalSlides c.
Proof.
  intros (i & Hi & Hr). split; [|reflexivity]. unfold index_in_range, prev. cbn [currentIndex totalSlides].
  rewrite Hi. cbn [num_add option_map num_rem].
  destruct (Z.eqb_spec (totalSlides c) 0) as [E|_]; [lia|].
  exists (Z.rem (i + -1 + totalSlides c) (totalSlides c)). split; [reflexivity|].
  rewrite Z.rem_mod_nonneg by lia. apply Z.mod_pos_bound. lia.
Qed.

Lemma handle_in_range (e : event) (c : controls) :
  index_in_range c -> index_in_range (handle e c) /\ totalSlides (handle e c) = totalSlides c.
Proof.
  intros Hc. destruct e; cbn [handle].
  - now apply prev_in_range.
  - now apply next_in_range.
  - destruct (0 <? totalSlides c); [now apply next_in_range|auto].
Qed.

Lemma events_in_range (events : list event) (c : controls) :
  index_in_range c ->
  index_in_range (fold_left (fun c e => handle e c) events c)
  /\ totalSlides (fold_left (fun c e => handle e c) events c) = totalSlides c.
Proof.
  revert c. induction events as [|e events IH]; intros c Hc; [auto|].
  cbn [fold_left]. destruct (handle_in_range e c Hc) as [Hh Ht].
  destruct (IH (handle e c) Hh) as [Hr Ht']. split; [exact Hr|congruence].
Qed.

Lemma handle_totalSlides (e : event) (c : controls) :
  totalSlides (handle e c) = totalSlides c.
Proof. destruct e; cbn [handle]; try reflexivity. now destruct (0 <? totalSlides c). Qed.

Lemma no_slides_NaN (events : list event) (c : controls) :
  totalSlides c = 0 -> currentIndex c = None ->
  currentIndex (fold_left (fun c e => handle e c) events c) = None.
Proof.
  revert c. induction events as [|e events IH]; intros c Ht Hc; [exact Hc|].
  cbn [fold_left]. apply IH; [now rewrite handle_totalSlides|].
  destruct e; cbn [handle prev next currentIndex]; rewrite ?Ht; cbn [Z.ltb Z.compare];
    rewrite ?Hc; reflexivity.
Qed.

Lemma no_slides (events : list event) (c : controls) :
  totalSlides c = 0 -> currentIndex c = Some 0 ->
  currentIndex (fold_left (fun c e => handle e c) events c)
  = if existsb is_click events then None else Some 0.
Proof.
  revert c. induction events as [|e events IH]; intros c Ht Hc; [exact Hc|].
  cbn [fold_left existsb]. destruct e; cbn [is_click orb].
  - apply no_slides_NaN; [now rewrite handle_totalSlides|].
    cbn [handle prev currentIndex]. rewrite Hc, Ht. reflexivity.
  - apply no_slides_NaN; [now rewrite handle_totalSlides|].
    cbn [handle next currentIndex]. rewrite Hc, Ht. reflexivity.
  - apply IH; [now rewrite handle_totalSlides|]. cbn [handle]. now rewrite Ht.
Qed.

Lemma next_value (n i : Z) :
  0 < n -> 0 <= i ->
  next {| totalSlides := n; currentIndex := Some i |}
  = {| totalSlides := n; currentIndex := Some ((i + 1) mod n) |}.
Proof.
  intros Hn Hi. unfold next. cbn [totalSlides currentIndex num_add option_map num_rem].
  destruct (Z.eqb_spec n 0) as [E|_]; [lia|]. now rewrite Z.rem_mod_nonneg by lia.
Qed.

Lemma prev_value (n i : Z) :
  0 < n -> 0 <= i ->
  prev {| totalSlides := n; currentIndex := Some i |}
  = {| totalSlides := n; currentIndex := Some ((i - 1 + n) mod n) |}.
Proof.
  intros Hn Hi. unfold prev. cbn [totalSlides currentIndex num_add option_map num_rem].
  destruct (Z.eqb_spec n 0) as [E|_]; [lia|]. rewrite Z.rem_mod_nonneg by lia.
  now replace (i + -1 + n) with (i - 1 + n) by lia.
Qed.

(** X16.  The index of a carousel with slides stays a valid slide index
    whatever buttons are clicked and however often its timer fires, and
    a click on one button undoes a click on the other (the index wraps
    around at both ends).  A carousel without slides has no timer, and
    its index is NaN from the first click on. *)
Theorem carousel_index_in_range (slides : nat) (events : list event) :
  ((0 < slides)%nat ->
   exists i,
     after_events slides events = {| totalSlides := Z.of_nat slides; currentIndex := Some i |}
     /\ 0 <= i < Z.of_nat slides)
  /\ (slides = 0%nat ->
      currentIndex (after_events slides events)
      = if existsb is_click events then None else Some 0)
  /\ (forall i,
        0 <= i < Z.of_nat slides ->
        let c := {| totalSlides := Z.of_nat slides; currentIndex := Some i |} in
        prev (next c) = c /\ next (prev c) = c).
Proof.
  split; [|split].
  - intros Hpos. unfold after_events.
    destruct (events_in_range events (new_controls slides)) as [(i & Hi & Hr) Ht].
    { exists 0. cbn. split; [reflexivity|lia]. }
    exists i. cbn [new_controls totalSlides] in Ht. rewrite Ht in Hr. split; [|exact Hr].
    destruct (fold_left _ events _) as [t c]. cbn in *. now subst.
  - intros ->. apply no_slides; reflexivity.
  - intros i Hi c. subst c.
    assert (Hn : 0 < Z.of_nat slides) by lia.
    pose proof (Z.mod_pos_bound (i + 1) (Z.of_nat slides) Hn) as B1.
    pose proof (Z.mod_pos_bound (i - 1 + Z.of_nat slides) (Z.of_nat slides) Hn) as B2.
    rewrite (next_value _ i Hn) by lia. rewrite (prev_value _ i Hn) by lia.
    rewrite prev_value, next_value by lia.
    split; f_equal; f_equal.
    + destruct (Z.eq_dec (i + 1) (Z.of_nat slides)) as [E|E].
      * rewrite E, Z.mod_same by lia. cbn [Z.sub Z.add Z.opp].
        replace (0 + -1 + Z.of_nat slides) with (Z.of_nat slides - 1) by lia.
        rewrite Z.mod_small by lia. lia.
      * rewrite (Z.mod_small (i + 1)) by lia.
        replace (i + 1 - 1 + Z.of_nat slides) with (i + 1 * Z.of_nat slides) by lia.
        rewrite Z.mod_add by lia. apply Z.mod_small. lia.
    + destruct (Z.eq_dec i 0) as [->|E].
      * replace (0 - 1 + Z.of_nat slides) with (Z.of_nat slides - 1) by lia.
        rewrite (Z.mod_small (Z.of_nat slides - 1)) by lia.
        replace (Z.of_nat slides - 1 + 1) with (Z.of_nat slides) by lia. apply Z.mod_same. lia.
      * replace (i - 1 + Z.of_nat slides) with (i - 1 + 1 * Z.of_nat slides) by lia.
        rewrite Z.mod_add by lia. rewrite (Z.mod_small (i - 1)) by lia.
        replace (i - 1 + 1) with i by lia. apply Z.mod_small. lia.
Qed.

End NewsCarouselProperties.

(** X15, witness: the API answers with one entry of a known source and
    one without fields. *)
Lemma loadNews_never_empty_witness :
  let apiNews :=
    VArr [VObj [("title", VStr "Norris on pole"); ("url", VStr "https://example.org/a");
                ("source", VStr "bbc")];
          VObj []] in
  let p := {| NewsCarousel.carouselTrack := Some ([], EmptyString);
              NewsCarousel.newsUpdateTime := Some EmptyString;
              NewsCarousel.carousels := [] |} in
  NewsCarousel.loadNews Ref.ref_host (ok_json apiNews) "18:00:00" p
  = (Ok tt,
     {| NewsCarousel.carouselTrack :=
          Some ([{| NewsCarousel.slide_image := Text "📰";
                    NewsCarousel.slide_category := Text "BBC Sport";
                    NewsCarousel.slide_live := true;
                    NewsCarousel.slide_title := "Norris on pole";
                    NewsCarousel.slide_summary := "Norris on pole";
                    NewsCarousel.slide_opens := Some "https://example.org/a" |};
                 {| NewsCarousel.slide_image := Text "📰";
                    NewsCarousel.slide_category := Text "F1 News";
                    NewsCarousel.slide_live := true;
                    NewsCarousel.slide_title := "F1 News";
                    NewsCarousel.slide_summary := "Latest Formula 1 updates";
                    NewsCarousel.slide_opens := None |}],
                "translateX(-0%)");
        NewsCarousel.newsUpdateTime := Some "Updated: 18:00:00";
        NewsCarousel.carousels := [NewsCarousel.new_controls 2] |})
  /\ fst (NewsCarousel.loadNews Ref.ref_host (ok_json apiNews) "18:00:00" p) = Ok tt.
Proof.
  intros apiNews p. split; [vm_compute; reflexivity|].
  exact (proj1 (loadNews_never_empty Ref.ref_host (ok_json apiNews) "18:00:00" p []
                  EmptyString eq_refl)).
Defined.

(** ** The watch-party venues *)

Section VenuesProperties.

Import Venues.

Variable H : host.
Variable trim : string -> string.


Lemma append_cards_run (venuesData : list value) (rendered : list venue_card) :
  mapM (venue_card_of H trim) venuesData = Ok rendered ->
  forall cards, append_cards H trim venuesData cards = (Ok tt, cards ++ rendered).
Proof.
  revert rendered. induction venuesData as [|venue rest IH]; intros rendered Hm cards.
  - injection Hm as <-. cbn [append_cards]. now rewrite app_nil_r.
  - cbn [mapM append_cards] in *. destruct (venue_card_of H trim venue) as [c|e]; [|discriminate].
    cbn [rbind] in Hm. destruct (mapM (venue_card_of H trim) rest) as [r|e]; [|discriminate].
    cbn [rbind] in Hm. injection Hm as <-. rewrite (IH r eq_refl). now rewrite <- app_assoc.
Qed.

Lemma append_cards_fails (venuesData : list value) (e : exn) :
  mapM (venue_card_of H trim) venuesData = Throw e ->
  forall cards, exists e' cards', append_cards H trim venuesData cards = (Throw e', cards').
Proof.
  revert e. induction venuesData as [|venue rest IH]; intros e Hm cards; [discriminate|].
  cbn [mapM append_cards] in *. destruct (venue_card_of H trim venue) as [c|e0]; [|eauto].
  cbn [rbind] in Hm. destruct (mapM (venue_card_of H trim) rest) as [r|e1]; [discriminate|].
  exact (IH e1 eq_refl (cards ++ [c])).
Qed.

Lemma fallback_rendered :
  mapM (venue_card_of H trim) fallback_venues = Ok (fallback_cards H trim)
  /\ length (fallback_cards H trim) = 4%nat.
Proof. split; reflexivity. Qed.

Lemma renderVenues_fallback (shown : list venue_card) :
  renderVenues H trim (VArr fallback_venues) (Some shown)
  = (Ok tt, Some (fallback_cards H trim)).
Proof.
  unfold renderVenues. cbn [as_array].
  now rewrite (append_cards_run fallback_venues _ (proj1 fallback_rendered) []).
Qed.

Lemma renderVenues_cases (venuesData : value) (shown : list venue_card) :
  (exists items cards,
     venuesData = VArr items /\ mapM (venue_card_of H trim) items = Ok cards
     /\ renderVenues H trim venuesData (Some shown) = (Ok tt, Some cards))
  \/ exists e partial, renderVenues H trim venuesData (Some shown) = (Throw e, Some partial).
Proof.
  unfold renderVenues.
  destruct venuesData as [| |b|x|u|items|o]; cbn [as_array]; try (right; eauto; fail).
  destruct (mapM (venue_card_of H trim) items) as [cards|e] eqn:Em.
  - left. exists items, cards. rewrite (append_cards_run items cards Em []). auto.
  - right. destruct (append_cards_fails items e Em []) as (e' & cards' & ->). eauto.
Qed.

(** The venues list once the content API has answered a configured
    client with a non-empty array whose venues all render. *)
Lemma loadVenues_from_api (client : JoinClub.SanityClient) (items : list value)
    (cards shown : list venue_card) :
  JoinClub.projectId client <> "YOUR_PROJECT_ID" ->
  items <> [] ->
  mapM (venue_card_of H trim) items = Ok cards ->
  loadVenues H trim (Some client) (Ok (VArr items)) (Some shown) = (Ok tt, Some cards).
Proof.
  intros Hid Hne Hm. unfold loadVenues.
  destruct (String.eqb_spec (JoinClub.projectId client) "YOUR_PROJECT_ID") as [|_];
    [contradiction|]. cbn [negb].
  rewrite and_then_Ok. cbn [truthy get rbind String.eqb Ascii.eqb Bool.eqb].
  rewrite (proj2 (gt0_length H items) Hne). cbn [truthy].
  unfold renderVenues. cbn [as_array]. now rewrite (append_cards_run items cards Hm []).
Qed.

(** X17.  Wherever the page has the venues list, [loadVenues] never
    rejects and never leaves the list empty.  When the client is
    configured and the content API answers with a non-empty array whose
    venues all render, the list shows the cards of these venues, one per
    venue and in their order; in every other case - the API fails,
    answers with nothing, or one of its venues cannot be rendered - it
    shows the four hardcoded venues.  On a page without the list it does
    nothing. *)
Theorem loadVenues_never_empty (sanity : option JoinClub.SanityClient)
    (venues : result value) (shown : list venue_card) :
  fst (loadVenues H trim sanity venues (Some shown)) = Ok tt
  /\ (exists cards,
        snd (loadVenues H trim sanity venues (Some shown)) = Some cards
        /\ cards <> []
        /\ (cards = fallback_cards H trim
            \/ exists client items,
                 sanity = Some client
                 /\ JoinClub.projectId client <> "YOUR_PROJECT_ID"
                 /\ venues = Ok (VArr items)
                 /\ mapM (venue_card_of H trim) items = Ok cards))
  /\ (forall client items cards,
        sanity = Some client ->
        JoinClub.projectId client <> "YOUR_PROJECT_ID" ->
        venues = Ok (VArr items) ->
        items <> [] ->
        mapM (venue_card_of H trim) items = Ok cards ->
        snd (loadVenues H trim sanity venues (Some shown)) = Some cards
        /\ length cards = length items)
  /\ ((forall client items cards,
         sanity = Some client ->
         JoinClub.projectId client <> "YOUR_PROJECT_ID" ->
         venues = Ok (VArr items) ->
         items <> [] ->
         mapM (venue_card_of H trim) items <> Ok cards) ->
      snd (loadVenues H trim sanity venues (Some shown)) = Some (fallback_cards H trim))
  /\ loadVenues H trim sanity venues None = (Ok tt, None).
Proof.
  assert (Hfb : forall l : list venue_card,
             fst (renderVenues H trim (VArr fallback_venues) (Some l)) = Ok tt
             /\ exists cards,
                  snd (renderVenues H trim (VArr fallback_venues) (Some l)) = Some cards
                  /\ cards <> []
                  /\ (cards = fallback_cards H trim
                      \/ exists client items,
                           sanity = Some client
                           /\ JoinClub.projectId client <> "YOUR_PROJECT_ID"
                           /\ venues = Ok (VArr items)
                           /\ mapM (venue_card_of H trim) items = Ok cards)).
  { intros l. rewrite renderVenues_fallback. cbn [fst snd]. split; [reflexivity|].
    exists (fallback_cards H trim). split; [reflexivity|]. split; [|now left].
    intros E. pose proof (proj2 fallback_rendered) as Hl. rewrite E in Hl. discriminate Hl. }
  assert (Hshown : exists cards,
             snd (loadVenues H trim sanity venues (Some shown)) = Some cards
             /\ cards <> []
             /\ (cards = fallback_cards H trim
                 \/ exists client items,
                      sanity = Some client
                      /\ JoinClub.projectId client <> "YOUR_PROJECT_ID"
                      /\ venues = Ok (VArr items)
                      /\ mapM (venue_card_of H trim) items = Ok cards)).
  { unfold loadVenues. destruct sanity as [client|]; [|apply Hfb].
    destruct (String.eqb_spec (JoinClub.projectId client) "YOUR_PROJECT_ID") as [|Hne];
      cbn [negb]; [apply Hfb|].
    destruct venues as [venuesData|e]; [|apply Hfb].
    destruct (Ok venuesData &&& _) as [c|e] eqn:Ec; [|apply Hfb].
    destruct (truthy c) eqn:Et; [|apply Hfb].
    destruct (renderVenues_cases venuesData shown)
      as [(items & cards & -> & Hm & ->)|(e & partial & ->)]; [|apply Hfb].
    cbn [snd]. exists cards. split; [reflexivity|]. split.
    + intros ->. destruct items as [|x items]; [|cbn [mapM] in Hm].
      * vm_compute in Ec. injection Ec as <-. discriminate Et.
      * destruct (venue_card_of H trim x); [|discriminate]. cbn [rbind] in Hm.
        destruct (mapM (venue_card_of H trim) items); discriminate.
    + right. exists client, items. auto. }
  split; [|split; [exact Hshown|split; [|split]]].
  - unfold loadVenues. destruct sanity as [client|]; [|apply Hfb].
    destruct (String.eqb (JoinClub.projectId client) "YOUR_PROJECT_ID"); cbn [negb];
      [apply Hfb|].
    destruct venues as [venuesData|e]; [|apply Hfb].
    destruct (Ok venuesData &&& _) as [c|e]; [|apply Hfb].
    destruct (truthy c); [|apply Hfb].
    destruct (renderVenues_cases venuesData shown)
      as [(items & cards & -> & Hm & ->)|(e & partial & ->)]; [reflexivity|apply Hfb].
  - intros client items cards -> Hid -> Hne Hm.
    rewrite (loadVenues_from_api client items cards shown Hid Hne Hm). cbn [snd].
    split; [reflexivity|]. exact (mapM_length _ _ _ Hm).
  - intros Hnone. destruct Hshown as (cards & Hs & Hcards & [->|Hapi]); [exact Hs|].
    destruct Hapi as (client & items & Hc & Hid & Hv & Hm). exfalso.
    apply (Hnone client items cards Hc Hid Hv); [|exact Hm].
    intros ->. cbn [mapM] in Hm. injection Hm as <-. now apply Hcards.
  - unfold loadVenues. destruct sanity as [client|]; [|reflexivity].
    destruct (String.eqb (JoinClub.projectId client) "YOUR_PROJECT_ID"); cbn [negb];
      [reflexivity|].
    destruct venues as [venuesData|e]; [|reflexivity].
    destruct (Ok venuesData &&& _) as [c|e]; [|reflexivity].
    destruct (truthy c); reflexivity.
Qed.

End VenuesProperties.

(** An answer of the content API with two venues: the first without
    location and amenities, the second with amenities that are not an
    array.  The second cannot be rendered, and the list shows the
    hardcoded venues. *)
Example loadVenues_unrenderable_venue :
  let client := {| JoinClub.projectId := "j5jgcp4i"; JoinClub.writeUrl := EmptyString;
                   JoinClub.writeToken := VNull |} in
  let venuesData :=
    VArr [VObj [("name", VStr "Pit Lane Bar"); ("city", VStr " Kisumu ")];
          VObj [("name", VStr "Grid Cafe"); ("amenities", VStr "WiFi")]] in
  Venues.venue_card_of Ref.ref_host ref_trim (VObj [("name", VStr "Pit Lane Bar");
                                               ("city", VStr " Kisumu ")])
  = Ok {| Venues.card_image := None; Venues.card_name := "Pit Lane Bar";
          Venues.card_location := "Kisumu"; Venues.card_description := "undefined";
          Venues.card_capacity := "undefined"; Venues.card_amenities := [] |}
  /\ Venues.loadVenues Ref.ref_host ref_trim (Some client) (Ok venuesData) (Some [])
     = (Ok tt, Some (Venues.fallback_cards Ref.ref_host ref_trim)).
Proof. split; vm_compute; reflexivity. Qed.

(** X17, witness: the content API answers a configured client with one
    venue, whose card is shown instead of the hardcoded venues. *)
Lemma loadVenues_never_empty_witness :
  let client := {| JoinClub.projectId := "j5jgcp4i"; JoinClub.writeUrl := EmptyString;
                   JoinClub.writeToken := VNull |} in
  let venue := VObj [("name", VStr "Pit Lane Bar"); ("location", VStr "Kisumu");
                     ("description", VStr "Big screens by the lake");
                     ("capacity", VStr "80"); ("amenities", VArr [VStr "WiFi"])] in
  let card := {| Venues.card_image := None; Venues.card_name := "Pit Lane Bar";
                 Venues.card_location := "Kisumu";
                 Venues.card_description := "Big screens by the lake";
                 Venues.card_capacity := "80"; Venues.card_amenities := ["WiFi"] |} in
  Venues.loadVenues Ref.ref_host ref_trim (Some client) (Ok (VArr [venue]))
    (Some (Venues.fallback_cards Ref.ref_host ref_trim))
  = (Ok tt, Some [card])
  /\ snd (Venues.loadVenues Ref.ref_host ref_trim (Some client) (Ok (VArr [venue]))
            (Some (Venues.fallback_cards Ref.ref_host ref_trim)))
     = Some [card].
Proof.
  intros client venue card. split; [vm_compute; reflexivity|].
  destruct (loadVenues_never_empty Ref.ref_host ref_trim (Some client) (Ok (VArr [venue]))
              (Venues.fallback_cards Ref.ref_host ref_trim))
    as (_ & _ & Hapi & _).
  exact (proj1 (Hapi client [venue] [card] eq_refl ltac:(discriminate) eq_refl
                  ltac:(discriminate) ltac:(vm_compute; reflexivity))).
Defined.

(** ** The news page *)

Section BlogPageProperties.

Import BlogPage.

Variable H : host.


Lemma shown_remove_hidden (l : list string) : shown_classes (remove_class "hidden" l) = true.
Proof. unfold shown_classes. now rewrite existsb_remove_class. Qed.

Lemma shown_add_hidden (l : list string) : shown_classes (add_class "hidden" l) = false.
Proof. unfold shown_classes. now rewrite existsb_add_class. Qed.

Lemma panel_remove_hidden (el : option (list string)) :
  panel true (option_map (remove_class "hidden") el).
Proof. destruct el; [apply shown_remove_hidden|exact I]. Qed.

Lemma panel_add_hidden (el : option (list string)) :
  panel false (option_map (add_class "hidden") el).
Proof. destruct el; [apply shown_add_hidden|exact I]. Qed.

Lemma start_inv (s : f1_state) :
  in_flight s = O -> listeners s = O -> f1_inv (loadF1News_start s).
Proof.
  intros Hf Hl. left. unfold loadF1News_start, listeners, list_classes in *.
  cbn [in_flight retryBtn loadingEl errorEl newsListEl]. rewrite Hf.
  split; [reflexivity|]. split; [exact Hl|].
  split; [apply panel_remove_hidden|]. split; [apply panel_add_hidden|].
  destruct (newsListEl s) as [[l c]|]; [apply shown_add_hidden|exact I].
Qed.

Lemma settle_inv (response : result response) (s : f1_state) :
  (0 < in_flight s)%nat -> f1_inv s -> f1_inv (loadF1News_settle H response s).
Proof.
  intros Hpos [(Hf & Hl & Hload & Herr & Hlist)|(Hf & _)]; [|lia].
  right. 
  assert (Herror : forall data newsList,
             option_map fst newsList = list_classes s ->
             let s' := show_error data newsList s in
             in_flight s' = O /\ panel false (loadingEl s')
             /\ ((listeners s' = O /\ panel false (errorEl s') /\ panel true (list_classes s'))
                 \/ ((retryBtn s' = None \/ retryBtn s' = Some 1%nat)
                     /\ panel true (errorEl s') /\ panel false (list_classes s')))).
  { intros data newsList Hn s'. subst s'. unfold show_error, list_classes.
    cbn [in_flight loadingEl errorEl newsListEl retryBtn]. rewrite Hf.
    split; [reflexivity|]. split; [apply panel_add_hidden|]. right.
    split.
    - unfold listeners in Hl. destruct (retryBtn s) as [n|]; [subst n; now right|now left].
    - split; [apply panel_remove_hidden|]. rewrite Hn. exact Hlist. }
  unfold loadF1News_settle.
  destruct (res <- response;; _) as [newsData|e].
  2:{ apply Herror. reflexivity. }
  destruct (newsListEl s) as [[l c]|] eqn:El.
  - destruct (renderF1News H _) as [[[]|e] content].
    + unfold list_classes, listeners in *. cbn [in_flight loadingEl errorEl newsListEl retryBtn].
      rewrite Hf. split; [reflexivity|]. split; [apply panel_add_hidden|]. left.
      split; [exact Hl|]. split; [exact Herr|]. cbn [option_map fst]. apply shown_remove_hidden.
    + apply Herror. unfold list_classes. now rewrite El.
  - unfold list_classes, listeners in *. cbn [in_flight loadingEl errorEl newsListEl retryBtn].
    rewrite Hf. split; [reflexivity|]. split; [apply panel_add_hidden|]. left.
    split; [exact Hl|]. split; [exact Herr|]. exact I.
Qed.

Lemma retry_inv (s : f1_state) : f1_inv s -> f1_inv (retry_click s).
Proof.
  intros Hinv. unfold retry_click. destruct (retryBtn s) as [n|] eqn:Er; [|exact Hinv].
  assert (Hzero : n = O ->
                  f1_inv {| loadingEl := loadingEl s; errorEl := errorEl s;
                            newsListEl := newsListEl s; retryBtn := Some O;
                            f1NewsData := f1NewsData s; in_flight := in_flight s |}).
  { intros ->. destruct s as [a b c d e f]. cbn in Er. subst d. exact Hinv. }
  destruct Hinv as [(Hf & Hl & _)|(Hf & Hload & [(Hl & _)|([Hn|Hn] & Herr & Hlist)])].
  - unfold listeners in Hl. rewrite Er in Hl. subst n. cbn [Nat.iter]. now apply Hzero.
  - unfold listeners in Hl. rewrite Er in Hl. subst n. cbn [Nat.iter]. now apply Hzero.
  - congruence.
  - rewrite Er in Hn. injection Hn as ->. cbn [Nat.iter]. apply start_inv; [exact Hf|reflexivity].
Qed.

(** X19.  At every moment of the news page, at most one load of the API
    news waits for its answer or one retry listener is registered, never
    both; while a load waits, only the loading panel is shown; afterwards
    the loading panel is hidden and exactly one of the list and the error
    panel is shown, the error panel together with exactly one retry
    listener when the page has the retry button. *)
Theorem f1News_one_panel (s : f1_state) : f1_reachable H s -> f1_inv s.
Proof.
  intros Hr. induction Hr as [loading error newsList retry|s s' _ IH Hs].
  - apply start_inv; [reflexivity|]. unfold listeners. cbn. now destruct retry.
  - destruct Hs as [response s Hpos|s]; [now apply settle_inv|now apply retry_inv].
Qed.



Lemma existsb_add_classes (c : string) (cs l : list string) :
  existsb (String.eqb c) (add_classes cs l)
  = existsb (String.eqb c) cs || existsb (String.eqb c) l.
Proof.
  unfold add_classes. revert l. induction cs as [|x cs IH]; intros l; [reflexivity|].
  cbn [fold_left existsb]. rewrite IH, existsb_add_class.
  destruct (String.eqb c x), (existsb (String.eqb c) cs), (existsb (String.eqb c) l); reflexivity.
Qed.

Lemma existsb_remove_classes (c : string) (cs l : list string) :
  existsb (String.eqb c) (remove_classes cs l)
  = negb (existsb (String.eqb c) cs) && existsb (String.eqb c) l.
Proof.
  unfold remove_classes. revert l. induction cs as [|x cs IH]; intros l; [reflexivity|].
  cbn [fold_left existsb]. rewrite IH, existsb_remove_class.
  destruct (String.eqb c x), (existsb (String.eqb c) cs), (existsb (String.eqb c) l); reflexivity.
Qed.

Lemma activate_marked (l : list string) : tab_marked true (Some (activate l)).
Proof.
  unfold tab_marked, activate. rewrite !existsb_remove_class, existsb_add_classes. auto.
Qed.

Lemma deactivate_marked (l : list string) : tab_marked false (Some (deactivate l)).
Proof.
  unfold tab_marked, deactivate. rewrite !existsb_add_class, existsb_remove_classes. auto.
Qed.

(** X18.  After [switchTab(tabName)] the panel of the API news is shown
    and its tab is marked active exactly when [tabName] is the string
    f1News; the community panel and tab are in the opposite state.  So
    one panel is shown and one tab is active, and any other name selects
    the community tab. *)
Theorem switchTab_one_panel (tabName : string) (t : tabs) :
  let selected := String.eqb tabName "f1News" in
  let t' := switchTab tabName t in
  currentTab t' = tabName
  /\ panel selected (f1NewsContent t')
  /\ panel (negb selected) (nashfyNewsContent t')
  /\ tab_marked selected (f1NewsTab t')
  /\ tab_marked (negb selected) (nashfyNewsTab t').
Proof.
  intros selected t'. subst selected t'. unfold switchTab.
  destruct (String.eqb tabName "f1News"); cbn [currentTab f1NewsContent nashfyNewsContent
                                                f1NewsTab nashfyNewsTab negb].
  - split; [reflexivity|]. split; [apply panel_remove_hidden|].
    split; [apply panel_add_hidden|].
    split; [destruct (f1NewsTab t); [apply activate_marked|exact I]|].
    destruct (nashfyNewsTab t); [apply deactivate_marked|exact I].
  - split; [reflexivity|]. split; [apply panel_add_hidden|].
    split; [apply panel_remove_hidden|].
    split; [destruct (f1NewsTab t); [apply deactivate_marked|exact I]|].
    destruct (nashfyNewsTab t); [apply activate_marked|exact I].
Qed.

Lemma append_f1_cards_run (newsData : list value) :
  Forall (fun news => nullish news = false) newsData ->
  forall index cards,
    exists rendered,
      append_f1_cards H newsData index cards = (Ok tt, cards ++ rendered)
      /\ length rendered = length newsData
      /\ forall i c,
           nth_error rendered i = Some c ->
           number c = Z.of_nat (index + i) + 1
           /\ exists news, nth_error newsData i = Some news
                           /\ f1_card_of H news (index + i) = Ok c.
Proof.
  induction 1 as [|news rest Hn _ IH]; intros index cards.
  - exists []. cbn [append_f1_cards]. rewrite app_nil_r. split; [reflexivity|].
    split; [reflexivity|]. intros [|i] c; discriminate.
  - cbn [append_f1_cards].
    assert (Hc : exists c, f1_card_of H news index = Ok c /\ number c = Z.of_nat index + 1).
    { unfold f1_card_of. rewrite !(get_get_opt _ _ Hn). cbn [rbind]. eexists. split; reflexivity. }
    destruct Hc as (c & Hc & Hnum). rewrite Hc.
    destruct (IH (S index) (cards ++ [c])) as (rendered & Hrun & Hlen & Hnth).
    exists (c :: rendered). rewrite Hrun, <- app_assoc. split; [reflexivity|].
    split; [cbn [length]; now rewrite Hlen|].
    intros [|i] c' Hi; cbn [nth_error] in Hi.
    + injection Hi as <-. rewrite Nat.add_0_r. split; [exact Hnum|]. exists news. auto.
    + destruct (Hnth i c' Hi) as (Hnum' & news' & Hn' & Hc').
      replace (index + S i)%nat with (S index + i)%nat by lia. split; [exact Hnum'|].
      exists news'. auto.
Qed.


Lemma append_f1_cards_fails (newsData : list value) :
  Exists (fun news => nullish news = true) newsData ->
  forall index cards,
    exists partial, append_f1_cards H newsData index cards = (Throw TypeError, partial).
Proof.
  induction newsData as [|news rest IH]; intros Hex index cards; [inversion Hex|].
  cbn [append_f1_cards]. destruct (nullish news) eqn:En.
  - unfold f1_card_of. rewrite (get_nullish _ _ En). cbn [rbind]. eauto.
  - assert (Hc : exists c, f1_card_of H news index = Ok c).
    { unfold f1_card_of. rewrite !(get_get_opt _ _ En). cbn [rbind]. eauto. }
    destruct Hc as [c ->]. apply IH. inversion Hex; subst; [congruence|assumption].
Qed.

(** X20.  [renderF1News] shows the message that there is no news for an
    empty array; otherwise it shows the first twenty entries, in order and
    numbered from 1; and it throws a TypeError, leaving the cards
    appended so far, when one of the first twenty entries is [null]. *)
Theorem renderF1News_cards (newsData : list value) :
  renderF1News H [] = (Ok tt, NoNews)
  /\ (newsData <> [] ->
      Forall (fun news => nullish news = false) (firstn 20 newsData) ->
      exists cards,
        renderF1News H newsData = (Ok tt, F1Cards cards)
        /\ length cards = Nat.min 20 (length newsData)
        /\ forall i c,
             nth_error cards i = Some c ->
             number c = Z.of_nat i + 1
             /\ exists news, nth_error newsData i = Some news /\ f1_card_of H news i = Ok c)
  /\ (Exists (fun news => nullish news = true) (firstn 20 newsData) ->
      exists partial, renderF1News H newsData = (Throw TypeError, F1Cards partial)).
Proof.
  split; [reflexivity|]. split.
  - intros Hne Hall. unfold renderF1News.
    destruct newsData as [|first others]; [contradiction|].
    destruct (append_f1_cards_run _ Hall 0%nat []) as (rendered & Hrun & Hlen & Hnth).
    rewrite Hrun. cbn [app]. exists rendered. split; [reflexivity|].
    split; [now rewrite Hlen, length_firstn|].
    intros i c Hi. destruct (Hnth i c Hi) as (Hnum & news & Hn & Hc). cbn [Nat.add] in *.
    split; [exact Hnum|]. exists news. split; [|exact Hc].
    assert (Hlt : (i < 20)%nat).
    { assert (Hs : nth_error (firstn 20 (first :: others)) i <> None) by congruence.
      apply nth_error_Some in Hs. rewrite length_firstn in Hs. lia. }
    now rewrite nth_error_firstn, (proj2 (Nat.ltb_lt i 20) Hlt) in Hn.
  - intros Hex. unfold renderF1News.
    destruct newsData as [|first others]; [inversion Hex|].
    destruct (append_f1_cards_fails _ Hex 0%nat []) as [partial ->]. eauto.
Qed.

Section Posts.

Variable toUpperCase : string -> string.
Variable toLocaleDateString : instant -> string.



Lemma append_posts_run (newsData : list (value * value)) (rendered : list post_card) :
  mapM (post_of H toUpperCase) newsData = Ok rendered ->
  forall cards, append_posts H toUpperCase newsData cards = (Ok tt, cards ++ rendered).
Proof.
  revert rendered. induction newsData as [|[news date] rest IH]; intros rendered Hm cards.
  - injection Hm as <-. cbn [append_posts]. now rewrite app_nil_r.
  - cbn [mapM append_posts] in *. unfold post_of in Hm at 1. cbn [fst snd] in Hm.
    destruct (post_card_of H toUpperCase news date) as [c|e]; [|discriminate].
    cbn [rbind] in Hm. destruct (mapM (post_of H toUpperCase) rest) as [r|e]; [|discriminate].
    cbn [rbind] in Hm. injection Hm as <-. rewrite (IH r eq_refl). now rewrite <- app_assoc.
Qed.

Lemma append_posts_fails (newsData : list (value * value)) (e : exn) :
  mapM (post_of H toUpperCase) newsData = Throw e ->
  forall cards, exists e' cards', append_posts H toUpperCase newsData cards = (Throw e', cards').
Proof.
  revert e. induction newsData as [|[news date] rest IH]; intros e Hm cards; [discriminate|].
  cbn [mapM append_posts] in *. unfold post_of in Hm at 1. cbn [fst snd] in Hm.
  destruct (post_card_of H toUpperCase news date) as [c|e0]; [|eauto].
  cbn [rbind] in Hm. destruct (mapM (post_of H toUpperCase) rest) as [r|e1]; [discriminate|].
  exact (IH e1 eq_refl (cards ++ [c])).
Qed.

Lemma fallback_posts_rendered :
  mapM (post_of H toUpperCase) (map (fun news => (news, get_opt news "date")) nashfyNewsData)
  = Ok (fallback_posts H toUpperCase)
  /\ length (fallback_posts H toUpperCase) = 8%nat.
Proof. split; reflexivity. Qed.

Lemma loadNashfyNewsFallback_run (shownCards : list post_card) :
  loadNashfyNewsFallback H toUpperCase (Some shownCards)
  = (Ok tt, Some (fallback_posts H toUpperCase)).
Proof.
  unfold loadNashfyNewsFallback, renderNashfyNews.
  now rewrite (append_posts_run _ _ (proj1 fallback_posts_rendered) []).
Qed.

(** The list of community news once the content API has answered a
    configured client with a non-empty array whose posts all render. *)
Lemma loadNashfyNews_from_api (client : JoinClub.SanityClient) (items : list value)
    (formattedNews : list (value * value)) (cards shownCards : list post_card) :
  JoinClub.projectId client <> "YOUR_PROJECT_ID" ->
  items <> [] ->
  mapM (format_date H toLocaleDateString) items = Ok formattedNews ->
  mapM (post_of H toUpperCase) formattedNews = Ok cards ->
  loadNashfyNews H toUpperCase toLocaleDateString (Some client) (Ok (VArr items))
    (Some shownCards)
  = (Ok tt, Some cards).
Proof.
  intros Hid Hne Hf Hm. unfold loadNashfyNews.
  destruct (String.eqb_spec (JoinClub.projectId client) "YOUR_PROJECT_ID") as [|_];
    [contradiction|]. cbn [negb].
  rewrite and_then_Ok. cbn [truthy get rbind String.eqb Ascii.eqb Bool.eqb].
  rewrite (proj2 (gt0_length H items) Hne). cbn [truthy as_array rbind]. rewrite Hf.
  unfold renderNashfyNews. now rewrite (append_posts_run formattedNews cards Hm []).
Qed.

(** X21.  Wherever the page has the list of community news,
    [loadNashfyNews] never rejects and never leaves the list empty.  When
    the client is configured and the content API answers with a non-empty
    array whose posts all render (the [type] of each is a string and its
    [reactions] an array), the list shows the cards of these posts, one
    per post and in their order, with the date of each post formatted or
    replaced by "Date TBD"; in every other case it shows the eight
    hardcoded posts.  On a page without the list it does nothing. *)
Theorem loadNashfyNews_never_empty (sanity : option JoinClub.SanityClient)
    (posts : result value) (shownCards : list post_card) :
  fst (loadNashfyNews H toUpperCase toLocaleDateString sanity posts (Some shownCards)) = Ok tt
  /\ (exists cards,
        snd (loadNashfyNews H toUpperCase toLocaleDateString sanity posts (Some shownCards))
        = Some cards
        /\ cards <> []
        /\ (cards = fallback_posts H toUpperCase
            \/ exists client items formattedNews,
                 sanity = Some client
                 /\ JoinClub.projectId client <> "YOUR_PROJECT_ID"
                 /\ posts = Ok (VArr items)
                 /\ mapM (format_date H toLocaleDateString) items = Ok formattedNews
                 /\ mapM (post_of H toUpperCase) formattedNews = Ok cards))
  /\ (forall client items formattedNews cards,
        sanity = Some client ->
        JoinClub.projectId client <> "YOUR_PROJECT_ID" ->
        posts = Ok (VArr items) ->
        items <> [] ->
        mapM (format_date H toLocaleDateString) items = Ok formattedNews ->
        mapM (post_of H toUpperCase) formattedNews = Ok cards ->
        snd (loadNashfyNews H toUpperCase toLocaleDateString sanity posts (Some shownCards))
        = Some cards
        /\ length cards = length items)
  /\ ((forall client items formattedNews cards,
         sanity = Some client ->
         JoinClub.projectId client <> "YOUR_PROJECT_ID" ->
         posts = Ok (VArr items) ->
         items <> [] ->
         mapM (format_date H toLocaleDateString) items = Ok formattedNews ->
         mapM (post_of H toUpperCase) formattedNews <> Ok cards) ->
      snd (loadNashfyNews H toUpperCase toLocaleDateString sanity posts (Some shownCards))
      = Some (fallback_posts H toUpperCase))
  /\ loadNashfyNews H toUpperCase toLocaleDateString sanity posts None = (Ok tt, None).
Proof.
  assert (Hfb : forall l : list post_card,
             fst (loadNashfyNewsFallback H toUpperCase (Some l)) = Ok tt
             /\ exists cards,
                  snd (loadNashfyNewsFallback H toUpperCase (Some l)) = Some cards
                  /\ cards <> []
                  /\ (cards = fallback_posts H toUpperCase
                      \/ exists client items formattedNews,
                           sanity = Some client
                           /\ JoinClub.projectId client <> "YOUR_PROJECT_ID"
                           /\ posts = Ok (VArr items)
                           /\ mapM (format_date H toLocaleDateString) items = Ok formattedNews
                           /\ mapM (post_of H toUpperCase) formattedNews = Ok cards)).
  { intros l. rewrite loadNashfyNewsFallback_run. cbn [fst snd]. split; [reflexivity|].
    exists (fallback_posts H toUpperCase). split; [reflexivity|]. split; [|now left].
    intros E. pose proof (proj2 fallback_posts_rendered) as Hl. rewrite E in Hl. discriminate Hl. }
  assert (Hrender : forall formattedNews,
             (exists cards, mapM (post_of H toUpperCase) formattedNews = Ok cards
                            /\ renderNashfyNews H toUpperCase formattedNews (Some shownCards)
                               = (Ok tt, Some cards))
             \/ exists e partial,
                  renderNashfyNews H toUpperCase formattedNews (Some shownCards)
                  = (Throw e, Some partial)).
  { intros formattedNews. unfold renderNashfyNews.
    destruct (mapM (post_of H toUpperCase) formattedNews) as [cards|e] eqn:Em.
    - left. exists cards. now rewrite (append_posts_run _ _ Em []).
    - right. destruct (append_posts_fails _ _ Em []) as (e' & cards' & ->). eauto. }
  assert (Hshown : exists cards,
             snd (loadNashfyNews H toUpperCase toLocaleDateString sanity posts
                    (Some shownCards)) = Some cards
             /\ cards <> []
             /\ (cards = fallback_posts H toUpperCase
                 \/ exists client items formattedNews,
                      sanity = Some client
                      /\ JoinClub.projectId client <> "YOUR_PROJECT_ID"
                      /\ posts = Ok (VArr items)
                      /\ mapM (format_date H toLocaleDateString) items = Ok formattedNews
                      /\ mapM (post_of H toUpperCase) formattedNews = Ok cards)).
  { unfold loadNashfyNews. destruct sanity as [client|]; [|apply Hfb].
    destruct (String.eqb_spec (JoinClub.projectId client) "YOUR_PROJECT_ID") as [|Hne];
      cbn [negb]; [apply Hfb|].
    destruct posts as [newsData|e]; [|apply Hfb].
    destruct (Ok newsData &&& _) as [c|e] eqn:Ec; [|apply Hfb].
    destruct (truthy c) eqn:Et; [|apply Hfb].
    destruct (items <- as_array newsData;; _) as [formattedNews|e] eqn:Ef; [|apply Hfb].
    destruct (Hrender formattedNews) as [(cards & Hm & ->)|(e & partial & ->)]; [|apply Hfb].
    cbn [snd]. exists cards. split; [reflexivity|].
    destruct newsData as [| |b|x|u|items|o]; try discriminate Ef. cbn [as_array rbind] in Ef.
    split.
    + intros ->. destruct items as [|x items].
      * vm_compute in Ec. injection Ec as <-. discriminate Et.
      * cbn [mapM] in Ef. destruct (format_date H toLocaleDateString x) as [fx|]; [|discriminate].
        cbn [rbind] in Ef. destruct (mapM _ items) as [r|]; [|discriminate].
        cbn [rbind] in Ef. injection Ef as <-. cbn [mapM] in Hm.
        destruct (post_of H toUpperCase fx); [|discriminate]. cbn [rbind] in Hm.
        destruct (mapM (post_of H toUpperCase) r); discriminate.
    + right. exists client, items, formattedNews. auto. }
  split; [|split; [|split; [|split]]].
  - unfold loadNashfyNews. destruct sanity as [client|]; [|apply Hfb].
    destruct (String.eqb (JoinClub.projectId client) "YOUR_PROJECT_ID"); cbn [negb];
      [apply Hfb|].
    destruct posts as [newsData|e]; [|apply Hfb].
    destruct (Ok newsData &&& _) as [c|e]; [|apply Hfb].
    destruct (truthy c); [|apply Hfb].
    destruct (items <- as_array newsData;; _) as [formattedNews|e]; [|apply Hfb].
    destruct (Hrender formattedNews) as [(cards & _ & ->)|(e & partial & ->)];
      [reflexivity|apply Hfb].
  - exact Hshown.
  - intros client items formattedNews cards -> Hid -> Hne Hf Hm.
    rewrite (loadNashfyNews_from_api client items formattedNews cards shownCards
               Hid Hne Hf Hm). cbn [snd].
    split; [reflexivity|].
    rewrite (mapM_length _ _ _ Hm). exact (mapM_length _ _ _ Hf).
  - intros Hnone. destruct Hshown as (cards & Hs & Hcards & [->|Hapi]); [exact Hs|].
    destruct Hapi as (client & items & formattedNews & Hc & Hid & Hv & Hf & Hm). exfalso.
    apply (Hnone client items formattedNews cards Hc Hid Hv); [|exact Hf|exact Hm].
    intros ->. cbn [mapM] in Hf. injection Hf as <-. cbn [mapM] in Hm. injection Hm as <-.
    now apply Hcards.
  - unfold loadNashfyNews. destruct sanity as [client|]; [|reflexivity].
    destruct (String.eqb (JoinClub.projectId client) "YOUR_PROJECT_ID"); cbn [negb];
      [reflexivity|].
    destruct posts as [newsData|e]; [|reflexivity].
    destruct (Ok newsData &&& _) as [c|e]; [|reflexivity].
    destruct (truthy c); [|reflexivity].
    destruct (items <- as_array newsData;; _) as [formattedNews|e]; reflexivity.
Qed.

End Posts.

End BlogPageProperties.

(** X19, witness: the first load fails, the retry button is clicked, and
    the second load answers with one entry. *)
Lemma f1News_one_panel_witness :
  let s0 := BlogPage.f1_constructed (Some []) (Some ["hidden"])
              (Some (["hidden"], BlogPage.F1Cards [])) true in
  let s1 := BlogPage.loadF1News_settle Ref.ref_host failed s0 in
  let s2 := BlogPage.retry_click s1 in
  let s3 := BlogPage.loadF1News_settle Ref.ref_host
              (ok_json (VArr [VObj [("title", VStr "Norris on pole");
                                    ("url", VStr "https://example.org/a");
                                    ("source", VStr "bbc")]])) s2 in
  s1 = {| BlogPage.loadingEl := Some ["hidden"]; BlogPage.errorEl := Some [];
          BlogPage.newsListEl := Some (["hidden"], BlogPage.F1Cards []);
          BlogPage.retryBtn := Some 1%nat; BlogPage.f1NewsData := [];
          BlogPage.in_flight := 0%nat |}
  /\ s3 = {| BlogPage.loadingEl := Some ["hidden"]; BlogPage.errorEl := Some ["hidden"];
             BlogPage.newsListEl :=
               Some ([], BlogPage.F1Cards
                           [{| BlogPage.number := 1; BlogPage.source := "bbc";
                               BlogPage.link := "https://example.org/a";
                               BlogPage.headline := "Norris on pole" |}]);
             BlogPage.retryBtn := Some 0%nat;
             BlogPage.f1NewsData := [VObj [("title", VStr "Norris on pole");
                                           ("url", VStr "https://example.org/a");
                                           ("source", VStr "bbc")]];
             BlogPage.in_flight := 0%nat |}
  /\ BlogPage.f1_reachable Ref.ref_host s3
  /\ BlogPage.f1_inv s3.
Proof.
  intros s0 s1 s2 s3. split; [vm_compute; reflexivity|]. split; [vm_compute; reflexivity|].
  assert (H1 : BlogPage.f1_reachable Ref.ref_host s1).
  { apply (BlogPage.f1_reachable_step _ s0); [apply BlogPage.f1_reachable_constructed|].
    apply BlogPage.f1_settle. vm_compute. reflexivity. }
  assert (H2 : BlogPage.f1_reachable Ref.ref_host s2).
  { apply (BlogPage.f1_reachable_step _ s1); [exact H1|]. apply BlogPage.f1_retry. }
  assert (H3 : BlogPage.f1_reachable Ref.ref_host s3).
  { apply (BlogPage.f1_reachable_step _ s2); [exact H2|].
    apply BlogPage.f1_settle. vm_compute. reflexivity. }
  split; [exact H3|]. exact (f1News_one_panel Ref.ref_host s3 H3).
Defined.

(** A post of the content API without reactions, which the schema of the
    posts allows: it cannot be rendered, and the list shows the hardcoded
    posts. *)
Example loadNashfyNews_post_without_reactions :
  let client := {| JoinClub.projectId := "j5jgcp4i"; JoinClub.writeUrl := EmptyString;
                   JoinClub.writeToken := VNull |} in
  let posts :=
    VArr [VObj [("title", VStr "Safari Rally watch party"); ("content", VStr "See you there");
                ("author", VStr "Nashfy Team"); ("date", VStr "2025-03-20");
                ("type", VStr "watch-party"); ("location", VStr "Naivasha, Kenya")]] in
  forall (toUpperCase : string -> string) (toLocaleDateString : instant -> string),
    BlogPage.loadNashfyNews Ref.ref_host toUpperCase toLocaleDateString (Some client)
      (Ok posts) (Some [])
    = (Ok tt, Some (BlogPage.fallback_posts Ref.ref_host toUpperCase)).
Proof. intros client posts toUpperCase toLocaleDateString. reflexivity. Qed.

(** X21, witness: the content API answers a configured client with one
    post, whose card is shown instead of the hardcoded posts. *)
Lemma loadNashfyNews_never_empty_witness :
  let client := {| JoinClub.projectId := "j5jgcp4i"; JoinClub.writeUrl := EmptyString;
                   JoinClub.writeToken := VNull |} in
  let post :=
    VObj [("title", VStr "Safari Rally watch party"); ("content", VStr "See you there");
          ("author", VStr "Nashfy Team"); ("date", VStr "2025-03-20");
          ("type", VStr "watch-party"); ("location", VStr "Naivasha, Kenya");
          ("reactions", VArr [VStr "ok"])] in
  let card :=
    {| BlogPage.post_icon := Text "🎉";
       BlogPage.post_colors := Text "bg-orange-100 text-orange-700";
       BlogPage.post_label := "WATCH PARTY";
       BlogPage.post_location := "Naivasha, Kenya";
       BlogPage.post_title := "Safari Rally watch party";
       BlogPage.post_content := "See you there";
       BlogPage.post_author := "Nashfy Team";
       BlogPage.post_date := "March 20, 2025";
       BlogPage.post_reactions := ["ok"] |} in
  BlogPage.loadNashfyNews Ref.ref_host ref_toUpperCase ref_toLocaleDateString (Some client)
    (Ok (VArr [post])) (Some [])
  = (Ok tt, Some [card])
  /\ snd (BlogPage.loadNashfyNews Ref.ref_host ref_toUpperCase ref_toLocaleDateString
            (Some client) (Ok (VArr [post])) (Some []))
     = Some [card].
Proof.
  intros client post card. split; [vm_compute; reflexivity|].
  destruct (loadNashfyNews_never_empty Ref.ref_host ref_toUpperCase ref_toLocaleDateString
              (Some client) (Ok (VArr [post])) [])
    as (_ & _ & Hapi & _).
  exact (proj1 (Hapi client [post] [(post, VStr "March 20, 2025")] [card] eq_refl
                  ltac:(discriminate) eq_refl ltac:(discriminate)
                  ltac:(vm_compute; reflexivity) ltac:(vm_compute; reflexivity))).
Defined.

(** ** The season controls *)

Section ScheduleControlsProperties.

Variable H : host.


Lemma strict_eq_NaN (a : number) : strict_eq a None = false.
Proof. now destruct a. Qed.

Lemma filter_false {A} (l : list A) : List.filter (fun _ => false) l = [].
Proof. induction l; auto. Qed.

Lemma acquireTiers_source (E : env) (year : number) (races : value) (dataSource : string) :
  acquireTiers H E year = Ok (races, dataSource) ->
  dataSource = "backend-fastf1" \/ dataSource = "rapidapi" \/ dataSource = "manual-json".
Proof.
  unfold acquireTiers. destruct (tier1 H E year); [intros [= _ <-]; auto|].
  destruct (tier2 H E); [intros [= _ <-]; auto|].
  destruct (tier3 E); [intros [= _ <-]; auto|discriminate].
Qed.

(** X22.  When the value of the season select is not a number, the year
    is NaN; if the schedule then comes from the rapidapi or manual-json
    tier, no event passes the year filter: the load logs zero races,
    shows "No races found for this season.", and leaves the heading, the
    countdown and its timer as they were. *)
Theorem season_not_a_number (E : env) (selected : string) (items : list value)
    (dataSource : string) (w : world) :
  parseInt H (VStr selected) = None ->
  acquireTiers H E None = Ok (VArr items, dataSource) ->
  dataSource <> "backend-fastf1" ->
  Forall (fun race => nullish race = false) items ->
  let w' := snd (seasonSelect_change H E selected w) in
  fst (seasonSelect_change H E selected w) = Ok tt
  /\ console w' = console w ++ [FinalParsed None (of_nat 0) dataSource]
  /\ (forall content, scheduleList w = Some content ->
      scheduleList w' = Some (Markup no_races_markup))
  /\ scheduleHeading w' = scheduleHeading w
  /\ nextRaceName w' = nextRaceName w
  /\ nextRaceCountdown w' = nextRaceCountdown w
  /\ countdownInterval w' = countdownInterval w
  /\ timers w' = timers w.
Proof.
  intros Hyear Hacq Hsrc Hitems w'. subst w'. unfold seasonSelect_change. rewrite Hyear.
  assert (Hfilter : filterSource H E None (VArr items) dataSource = Ok (VArr [])).
  { unfold filterSource.
    destruct (acquireTiers_source E None _ _ Hacq) as [->|[->| ->]]; [contradiction| |];
      cbn [String.eqb Ascii.eqb Bool.eqb orb andb];
      rewrite (filterByYear_filter H (now E) None items Hitems);
      cbn [rbind]; f_equal; f_equal;
      rewrite (List.filter_ext _ (fun _ => false)); try apply filter_false;
      intros race; apply strict_eq_NaN. }
  unfold detached, try_catch, loadRaceSchedule, bind, lift, modify, when_present.
  rewrite Hacq, Hfilter.
  cbn [get String.eqb Ascii.eqb Bool.eqb length].
  assert (Hz : gt0 H (of_nat 0) = false) by reflexivity. rewrite Hz.
  destruct (scheduleList w) as [content|] eqn:El; cbn [fst snd scheduleList set_scheduleList add_log console scheduleHeading nextRaceName nextRaceCountdown countdownInterval timers];
    rewrite ?El; cbn [fst snd scheduleList set_scheduleList add_log console scheduleHeading nextRaceName nextRaceCountdown countdownInterval timers];
    repeat split; auto; discriminate.
Qed.


End ScheduleControlsProperties.

(** ** The clock *)

Section ClockProperties.

Variable getTimezoneOffset : Z -> Z.
Variable format_HHMM : Z -> string.

(** X23.  The text that [updateTime] writes into the clock is the reading
    of a clock three hours ahead of UTC at the time of the call, whatever
    the time zone of the browser, as long as the zone has the same offset
    three hours plus that offset later; in a browser on East Africa Time,
    [getNowInEAT] is the current time itself. *)
Theorem clock_shows_EAT (now : Z) :
  let shifted := now + getTimezoneOffset now * 60000 + Ref.EAT_OFFSET_MINUTES * 60000 in
  Z.abs shifted <= 8640000000000000 ->
  getTimezoneOffset shifted = getTimezoneOffset now ->
  formatTimeHHMM getTimezoneOffset format_HHMM (getNowInEAT getTimezoneOffset now)
  = format_HHMM (now + Ref.EAT_OFFSET_MINUTES * 60000)
  /\ (forall text,
        updateTime getTimezoneOffset format_HHMM now (Some text)
        = Some (format_HHMM (now + Ref.EAT_OFFSET_MINUTES * 60000)))
  /\ (getTimezoneOffset now = - Ref.EAT_OFFSET_MINUTES ->
      getNowInEAT getTimezoneOffset now = Some now).
Proof.
  intros shifted Hrange Hoff.
  assert (Hnow : getNowInEAT getTimezoneOffset now = Some shifted).
  { unfold getNowInEAT, TimeClip. fold shifted.
    destruct (Z.leb_spec (Z.abs shifted) 8640000000000000) as [_|Hgt]; [reflexivity|lia]. }
  assert (Htext : formatTimeHHMM getTimezoneOffset format_HHMM
                    (getNowInEAT getTimezoneOffset now)
                  = format_HHMM (now + Ref.EAT_OFFSET_MINUTES * 60000)).
  { rewrite Hnow. unfold formatTimeHHMM, local_time. rewrite Hoff. f_equal.
    unfold shifted. lia. }
  split; [exact Htext|]. split.
  - intros text. unfold updateTime. now rewrite Htext.
  - intros Heat. rewrite Hnow. f_equal. unfold shifted. rewrite Heat. lia.
Qed.

End ClockProperties.

(** X22, witness: the select offers an entry "all"; the schedule comes
    from the manual file. *)
Lemma season_not_a_number_witness :
  let items := [VObj [("round", VNum 1%Q); ("raceName", VStr "Bahrain Grand Prix");
                      ("date", VStr "2025-03-09"); ("time", VStr "15:00:00Z")]] in
  let E := example_env failed failed failed (ok_json (VObj [("races", VArr items)])) failed in
  fst (seasonSelect_change Ref.ref_host E "all" example_page) = Ok tt
  /\ scheduleList (snd (seasonSelect_change Ref.ref_host E "all" example_page))
     = Some (Markup no_races_markup).
Proof.
  intros items E.
  destruct (season_not_a_number Ref.ref_host E "all" items "manual-json" example_page)
    as (Hok & _ & Hlist & _).
  - vm_compute. reflexivity.
  - vm_compute. reflexivity.
  - discriminate.
  - repeat constructor.
  - split; [exact Hok|]. exact (Hlist (Markup EmptyString) eq_refl).
Defined.

(** X23, witness: a browser one hour ahead of UTC, at 2025-03-09T15:00:00Z,
    shows 18:00. *)
Lemma clock_shows_EAT_witness :
  formatTimeHHMM (fun _ => -60) ref_format_HHMM (getNowInEAT (fun _ => -60) example_now)
  = "18:00".
Proof.
  exact (eq_trans
           (proj1 (clock_shows_EAT (fun _ => -60) ref_format_HHMM example_now
                     ltac:(vm_compute; discriminate) eq_refl))
           ltac:(vm_compute; reflexivity)).
Defined.
